(** * The Xiaozhi MCP bridge (bridge.py): a shallow embedding and its properties

    The bridge keeps a WebSocket session with a remote agent platform, answers
    its JSON-RPC requests, and forwards the one tool it exposes to an HTTP
    webhook.  The embedding follows bridge.py function by function:

    - Python text is a list of Unicode code points, JSON values are the values
      [json.loads] builds, a [dict] is an association list in insertion order;
    - the mutable bridge object is an explicit state, threaded through a small
      state-and-exception monad; an outbound frame is recorded as the value
      handed to [_send_json];
    - what the outside world does (the webhook's answer, the frames that
      arrive, connection failures, a [stop()] from another task at any of the
      places where the bridge waits, cancellation of the task) is given as
      data, and the loops consume it.

    Not modelled: the text encoding of outbound frames, a [ws.send] that
    fails, logging, and floating point not-a-number as a reconnect delay.
    The closing of a connection when its session ends has no event of its
    own: nothing reads the stop flag between the end of a session and the
    head of the loop of [run], so a [stop()] that comes while the connection
    is closed does what one does that came just before the session ended. *)

From Stdlib Require Import List ZArith NArith QArith Bool String Ascii Lia Lqa DecimalString.
Import ListNotations.

Set Implicit Arguments.
Set Warnings "-register-all".

(** ** Python text *)

(** A Python [str]: a sequence of Unicode code points. *)
Definition str := list N.

(** A literal of the source, as text (its characters are ASCII). *)
Definition u (s : string) : str := map N_of_ascii (list_ascii_of_string s).

Fixpoint str_eqb (a b : str) : bool :=
  match a, b with
  | [], [] => true
  | x :: a', y :: b' => N.eqb x y && str_eqb a' b'
  | _, _ => false
  end.

(** [Py_UNICODE_ISSPACE]: the characters [str.strip()] removes. *)
Definition isspace (c : N) : bool :=
  ((9 <=? c) && (c <=? 13) || (28 <=? c) && (c <=? 32)
   || (c =? 133) || (c =? 160) || (c =? 5760)
   || (8192 <=? c) && (c <=? 8202)
   || (c =? 8232) || (c =? 8233) || (c =? 8239) || (c =? 8287) || (c =? 12288))%N.

Fixpoint lstrip (s : str) : str :=
  match s with
  | c :: s' => if isspace c then lstrip s' else s
  | [] => []
  end.

Definition rstrip (s : str) : str := rev (lstrip (rev s)).

(** [s.strip()] *)
Definition strip (s : str) : str := rstrip (lstrip s).

(** [sep.join(parts)] *)
Fixpoint join (sep : str) (parts : list str) : str :=
  match parts with
  | [] => []
  | [p] => p
  | p :: rest => p ++ sep ++ join sep rest
  end.

(** [s[:n]] *)
Definition prefix (n : nat) (s : str) : str := firstn n s.

(** [str(n)] for an [int]. *)
Definition str_of_int (n : Z) : str := u (NilZero.string_of_int (Z.to_int n)).

Definition hexdigit (d : N) : N := (if d <? 10 then 48 + d else 87 + d)%N.

(** [n] as [width] lowercase hexadecimal digits. *)
Fixpoint hex (width : nat) (n : N) : str :=
  match width with
  | O => []
  | S w => hex w (n / 16) ++ [hexdigit (n mod 16)]
  end.

Definition quote1 : N := 39.    (* ' *)
Definition quote2 : N := 34.    (* the double quote *)
Definition backslash : N := 92.
Definition newline : N := 10.

(** ** JSON values, as Python objects *)

(** What [json.loads] returns.  An integer is a Python [int]; a number with a
    fraction or an exponent is a [float], carried by its [repr] (the only
    things this program does with one are to test it against zero and to print
    it). *)
Inductive json : Type :=
| JNull
| JBool (b : bool)
| JInt (n : Z)
| JFloat (repr : str)
| JStr (s : str)
| JArr (items : list json)
| JObj (fields : list (str * json)).

(** [bool(v)] *)
Definition truthy (v : json) : bool :=
  match v with
  | JNull => false
  | JBool b => b
  | JInt n => negb (n =? 0)%Z
  | JFloat r => negb (str_eqb r (u "0.0") || str_eqb r (u "-0.0"))
  | JStr s => match s with [] => false | _ => true end
  | JArr l => match l with [] => false | _ => true end
  | JObj l => match l with [] => false | _ => true end
  end.

(** [a or b] *)
Definition py_or (a b : json) : json := if truthy a then a else b.

Definition is_None (v : json) : bool :=
  match v with JNull => true | _ => false end.

(** [isinstance(v, Mapping)] *)
Definition is_Mapping (v : json) : bool :=
  match v with JObj _ => true | _ => false end.

(** [isinstance(v, str)] *)
Definition is_str (v : json) : bool :=
  match v with JStr _ => true | _ => false end.

(** [v == "literal"] *)
Definition eq_str (v : json) (s : str) : bool :=
  match v with JStr t => str_eqb t s | _ => false end.

(** [isinstance(v, str) and v.strip()], as a truth value. *)
Definition nonblank_str (v : json) : bool :=
  match v with
  | JStr s => match strip s with [] => false | _ => true end
  | _ => false
  end.

(** [type(v).__name__] *)
Definition type_name (v : json) : str :=
  match v with
  | JNull => u "NoneType"
  | JBool _ => u "bool"
  | JInt _ => u "int"
  | JFloat _ => u "float"
  | JStr _ => u "str"
  | JArr _ => u "list"
  | JObj _ => u "dict"
  end.

(** [d.get(key, default)] on the fields of a [dict]. *)
Fixpoint dict_get (fields : list (str * json)) (key : str) (default : json) : json :=
  match fields with
  | [] => default
  | (k, v) :: rest => if str_eqb k key then v else dict_get rest key default
  end.

(** [key in d] *)
Fixpoint dict_has (fields : list (str * json)) (key : str) : bool :=
  match fields with
  | [] => false
  | (k, _) :: rest => str_eqb k key || dict_has rest key
  end.

(** *** [json.dumps(v, ensure_ascii=False)] *)

Definition json_escape_char (c : N) : str :=
  if (c =? 34)%N then [backslash; 34%N]
  else if (c =? 92)%N then [backslash; backslash]
  else if (c =? 10)%N then backslash :: u "n"
  else if (c =? 13)%N then backslash :: u "r"
  else if (c =? 9)%N then backslash :: u "t"
  else if (c =? 8)%N then backslash :: u "b"
  else if (c =? 12)%N then backslash :: u "f"
  else if (c <? 32)%N then backslash :: u "u" ++ hex 4 c
  else [c].

Definition json_string (s : str) : str :=
  quote2 :: flat_map json_escape_char s ++ [quote2].

Definition json_float (r : str) : str :=
  if str_eqb r (u "nan") then u "NaN"
  else if str_eqb r (u "inf") then u "Infinity"
  else if str_eqb r (u "-inf") then u "-Infinity"
  else r.

Fixpoint json_dumps (v : json) : str :=
  match v with
  | JNull => u "null"
  | JBool true => u "true"
  | JBool false => u "false"
  | JInt n => str_of_int n
  | JFloat r => json_float r
  | JStr s => json_string s
  | JArr l => u "[" ++ join (u ", ") (map json_dumps l) ++ u "]"
  | JObj l =>
      u "{"
      ++ join (u ", ")
           (map (fun kv => json_string (fst kv) ++ u ": " ++ json_dumps (snd kv)) l)
      ++ u "}"
  end.

(** ** Exceptions and the bridge's state *)

(** An [httpx.Response], as far as the bridge looks at it. *)
Record Response : Type := {
  status_code : Z;
  text : str;
  (** what [response.json()] returns; [None] when it raises [JSONDecodeError] *)
  json_body : option json;
  (** [Some msg] when [response.json()] raises an exception that is no
      [JSONDecodeError] (a [UnicodeDecodeError] on a body that is not UTF-8, a
      [RecursionError] on one nested too deep), [msg] being its [str(exc)];
      [json_body] is not looked at then *)
  json_error : option str;
  (** [response.raise_for_status()]: [None] when it returns, [Some msg] when it
      raises [HTTPStatusError(msg, response=self)].  httpx decides it from the
      status code by a rule of its own, so the response carries the decision. *)
  raise_for_status : option str;
}.

Inductive exception : Type :=
| AttributeError (msg : str)
| RuntimeError (msg : str)
| HTTPStatusError (msg : str) (response : Response)
(** any other instance of [Exception], with its [str(exc)]: a connection
    error, a timeout, a closed socket *)
| OtherException (msg : str)
(** [asyncio.CancelledError], a [BaseException] that is no [Exception] *)
| CancelledError.

(** Whether [except Exception] catches it. *)
Definition is_Exception (e : exception) : bool :=
  match e with CancelledError => false | _ => true end.

(** [str(exc)] *)
Definition exc_str (e : exception) : str :=
  match e with
  | AttributeError m | RuntimeError m | OtherException m => m
  | HTTPStatusError m _ => m
  | CancelledError => []
  end.

Inductive result (A : Type) : Type :=
| Ok (a : A)
| Raise (e : exception).
Arguments Ok {A} a.
Arguments Raise {A} e.

(** The mutable part of a [XiaozhiMCPBridge], and what it has done so far. *)
Record bridge_state : Type := {
  (** [self._stopping.is_set()] *)
  _stopping : bool;
  (** [self._http_client is not None] *)
  _http_client : bool;
  (** the frames handed to [_send_json], oldest first *)
  sent : list json;
  (** the bodies posted to the webhook, oldest first *)
  posted : list json;
}.

(** A coroutine of the bridge: it returns or raises, and leaves a state. *)
Definition M (A : Type) : Type := bridge_state -> result A * bridge_state.

Definition ret {A} (a : A) : M A := fun st => (Ok a, st).

Definition bind {A B} (m : M A) (k : A -> M B) : M B :=
  fun st =>
    match m st with
    | (Ok a, st') => k a st'
    | (Raise e, st') => (Raise e, st')
    end.

Definition lift {A} (r : result A) : M A := fun st => (r, st).

Declare Scope bridge_scope.
Delimit Scope bridge_scope with bridge.
Notation "x <- m ;; k" := (bind m (fun x => k))
  (at level 61, m at next level, right associativity) : bridge_scope.
Notation "m ;;; k" := (bind m (fun _ => k))
  (at level 61, right associativity) : bridge_scope.
Open Scope bridge_scope.

(** [v.get(key, default)]: only a [dict] has the method. *)
Definition py_get (v : json) (key : str) (default : json) : result json :=
  match v with
  | JObj fields => Ok (dict_get fields key default)
  | _ => Raise (AttributeError
                  (quote1 :: type_name v ++ quote1 :: u " object has no attribute 'get'"))
  end.

(** [await self._stopping.set()] *)
Definition stop : M unit :=
  fun st => (Ok tt, {| _stopping := true; _http_client := _http_client st;
                       sent := sent st; posted := posted st |}).

(** [_send_json(ws, payload)]: the frame goes out. *)
Definition _send_json (payload : json) : M unit :=
  fun st => (Ok tt, {| _stopping := _stopping st; _http_client := _http_client st;
                       sent := sent st ++ [payload]; posted := posted st |}).

(** The state once [payload] has been posted to the webhook. *)
Definition post_recorded (st : bridge_state) (payload : json) : bridge_state :=
  {| _stopping := _stopping st; _http_client := _http_client st;
     sent := sent st; posted := posted st ++ [payload] |}.

(** ** The tool *)

Record ToolSpec : Type := {
  name : str;
  description : str;
}.

(** The fields of a [dict] written with literal keys. *)
Definition keyed (fields : list (string * json)) : list (str * json) :=
  map (fun kv => (u (fst kv), snd kv)) fields.

Definition obj (fields : list (string * json)) : json := JObj (keyed fields).

Definition to_mcp_dict (self : ToolSpec) : json :=
  obj [ ("name", JStr (name self));
        ("description", JStr (description self));
        ("inputSchema", obj [
           ("type", JStr (u "object"));
           ("properties", obj [
              ("action", obj [
                 ("type", JStr (u "string"));
                 ("description",
                  JStr (u "Short Gmail action identifier (e.g. 'send_email')."))]);
              ("payload", obj [
                 ("type", JStr (u "object"));
                 ("description",
                  JStr (u "Details needed to execute the Gmail action."))])]);
           ("required", JArr [JStr (u "action")]);
           ("additionalProperties", JBool true)])]%string.

(** The two shapes of an outbound frame. *)
Definition result_frame (message_id result : json) : json :=
  obj [("jsonrpc", JStr (u "2.0")); ("id", message_id); ("result", result)]%string.

Definition error_frame (message_id : json) (code : Z) (message : str) : json :=
  obj [("jsonrpc", JStr (u "2.0")); ("id", message_id);
       ("error", obj [("code", JInt code); ("message", JStr message)])]%string.

(** ** The bridge *)

Record XiaozhiMCPBridge : Type := {
  ws_url : str;
  webhook_url : str;
  tool : ToolSpec;
  reconnect_delay : Q;
}.

Section Bridge.

(** [str.isprintable] on one non-ASCII character: CPython's Unicode table,
    which [repr] consults. *)
Variable isprintable : N -> bool.

(** [await self._http_client.post(self.webhook_url, json=payload)]: the
    webhook answers with a response, or the call raises.  The answer may
    depend on the bodies posted before this one. *)
Variable webhook : list json -> json -> result Response.

(** *** [repr] and [str] *)

Definition repr_char (quote c : N) : str :=
  if ((c =? quote) || (c =? 92))%N then [backslash; c]
  else if (c =? 9)%N then backslash :: u "t"
  else if (c =? 10)%N then backslash :: u "n"
  else if (c =? 13)%N then backslash :: u "r"
  else if ((c <? 32) || (c =? 127))%N then backslash :: u "x" ++ hex 2 c
  else if (c <? 127)%N then [c]
  else if isprintable c then [c]
  else if (c <=? 255)%N then backslash :: u "x" ++ hex 2 c
  else if (c <=? 65535)%N then backslash :: u "u" ++ hex 4 c
  else backslash :: u "U" ++ hex 8 c.

(** [repr(s)] for a [str]: double quotes only when the text has a single
    quote and no double quote. *)
Definition repr_str (s : str) : str :=
  let quote :=
    if existsb (N.eqb quote1) s && negb (existsb (N.eqb quote2) s)
    then quote2 else quote1 in
  quote :: flat_map (repr_char quote) s ++ [quote].

Fixpoint py_repr (v : json) : str :=
  match v with
  | JNull => u "None"
  | JBool true => u "True"
  | JBool false => u "False"
  | JInt n => str_of_int n
  | JFloat r => r
  | JStr s => repr_str s
  | JArr l => u "[" ++ join (u ", ") (map py_repr l) ++ u "]"
  | JObj l =>
      u "{"
      ++ join (u ", ") (map (fun kv => repr_str (fst kv) ++ u ": " ++ py_repr (snd kv)) l)
      ++ u "}"
  end.

(** [str(v)], which is also what an f-string field prints. *)
Definition py_str (v : json) : str :=
  match v with
  | JStr s => s
  | _ => py_repr v
  end.

(** *** The handlers *)

Definition _handle_initialize (self : XiaozhiMCPBridge) (message : json) : M unit :=
  message_id <- lift (py_get message (u "id") JNull) ;;
  p <- lift (py_get message (u "params") JNull) ;;
  let params := py_or p (JObj []) in
  requested_version <-
    lift (py_get params (u "protocolVersion") (JStr (u "2024-11-05"))) ;;
  _send_json
    (result_frame message_id
       (obj [("protocolVersion", requested_version);
             ("capabilities", obj [("tools", obj [("call", JObj [])])])]%string)).

Definition _handle_tools_list (self : XiaozhiMCPBridge) (message : json) : M unit :=
  message_id <- lift (py_get message (u "id") JNull) ;;
  _send_json
    (result_frame message_id (obj [("tools", JArr [to_mcp_dict (tool self)])]%string)).

Definition _post_to_webhook (self : XiaozhiMCPBridge) (payload : json) : M json :=
  fun st =>
    if negb (_http_client st)
    then (Raise (RuntimeError (u "HTTP client is not initialised")), st)
    else
      let st' := post_recorded st payload in
      match webhook (posted st) payload with
      | Raise e => (Raise e, st')
      | Ok response =>
          match raise_for_status response with
          | Some msg => (Raise (HTTPStatusError msg response), st')
          | None =>
              match json_error response with
              | Some msg => (Raise (OtherException msg), st')
              | None =>
                  match json_body response with
                  | Some data => (Ok data, st')
                  | None => (Ok (JStr (text response)), st')
                  end
              end
          end
      end.

(** The loop of [_format_webhook_response] over a list: the trimmed [output]
    of every item that is a mapping with a non-blank string there. *)
Fixpoint outputs_of (data : list json) : list str :=
  match data with
  | [] => []
  | item :: rest =>
      match item with
      | JObj fields =>
          match dict_get fields (u "output") JNull with
          | JStr output =>
              match strip output with
              | [] => outputs_of rest
              | stripped => stripped :: outputs_of rest
              end
          | _ => outputs_of rest
          end
      | _ => outputs_of rest
      end
  end.

Definition _format_webhook_response (data : json) : str :=
  match data with
  | JObj fields =>
      match dict_get fields (u "message") JNull with
      | JStr message =>
          match strip message with
          | [] => json_dumps data
          | _ => message
          end
      | _ => json_dumps data
      end
  | JArr items =>
      match outputs_of items with
      | [] => json_dumps data
      | outputs => join [newline; newline] outputs
      end
  | _ => py_str data
  end.

Definition _handle_tools_call (self : XiaozhiMCPBridge) (message : json) : M unit :=
  message_id <- lift (py_get message (u "id") JNull) ;;
  p <- lift (py_get message (u "params") JNull) ;;
  let params := py_or p (JObj []) in
  tool_name <- lift (py_get params (u "name") JNull) ;;
  arguments <- lift (py_get params (u "arguments") JNull) ;;
  call_id <- lift (py_get params (u "callId") JNull) ;;
  if negb (eq_str tool_name (name (tool self))) then
    _send_json
      (error_frame message_id (-32602)
         (u "Unsupported tool '" ++ py_str tool_name ++ u "'"))
  else if negb (is_Mapping arguments) then
    _send_json
      (error_frame message_id (-32602) (u "Tool arguments must be an object"))
  else
    action <- lift (py_get arguments (u "action") JNull) ;;
    if negb (nonblank_str action) then
      _send_json
        (error_frame message_id (-32602)
           (u "Tool arguments must include non-empty 'action'"))
    else
      raw_payload <- lift (py_get arguments (u "payload") JNull) ;;
      let payload_data := if is_Mapping raw_payload then raw_payload else JNull in
      let payload :=
        obj [("action", action); ("payload", payload_data); ("call_id", call_id);
             ("tool", tool_name); ("arguments", arguments)]%string in
      fun st =>
        match _post_to_webhook self payload st with
        | (Raise (HTTPStatusError _ response), st') =>
            let status := status_code response in
            let body_preview := prefix 2000 (text response) in
            _send_json
              (error_frame message_id (-32010)
                 (u "Gmail webhook returned HTTP " ++ str_of_int status
                  ++ u ": " ++ body_preview)) st'
        | (Raise exc, st') =>
            if is_Exception exc then
              _send_json
                (error_frame message_id (-32001)
                   (u "Gmail agent error: " ++ exc_str exc)) st'
            else (Raise exc, st')
        | (Ok webhook_response, st') =>
            let content_text := _format_webhook_response webhook_response in
            let result :=
              [(u "content",
                JArr [obj [("type", JStr (u "text"));
                           ("text", JStr content_text)]%string]);
               (u "isError", JBool false)] in
            let result :=
              if truthy call_id then result ++ [(u "callId", call_id)] else result in
            _send_json (result_frame message_id (JObj result)) st'
        end.

Definition _dispatch (self : XiaozhiMCPBridge) (message : json) : M unit :=
  method <- lift (py_get message (u "method") JNull) ;;
  message_id <- lift (py_get message (u "id") JNull) ;;
  if eq_str method (u "initialize") then _handle_initialize self message
  else if eq_str method (u "notifications/initialized") then ret tt
  else if eq_str method (u "tools/list") then _handle_tools_list self message
  else if eq_str method (u "tools/call") then _handle_tools_call self message
  else if eq_str method (u "ping") then
    _send_json (result_frame message_id (JObj []))
  else if eq_str method (u "shutdown") then
    _send_json (result_frame message_id (JObj [])) ;;; stop
  else if negb (is_None message_id) then
    _send_json
      (error_frame message_id (-32601)
         (u "Method '" ++ py_str method ++ u "' not implemented by gmail bridge"))
  else ret tt.

(** *** The session *)

(** What happens while [_handle_session] runs, in order. *)
Inductive ws_event : Type :=
(** [ws.recv()] raises [ConnectionClosedOK] *)
| ClosedOK
(** [ws.recv()] raises [ConnectionClosedError] *)
| ClosedError
(** [ws.recv()] raises anything else, such as the task's cancellation *)
| RecvRaises (e : exception)
(** [ws.recv()] returns bytes that are not UTF-8 *)
| BadUtf8
(** [ws.recv()] returns text on which [json.loads] raises [JSONDecodeError] *)
| BadJson
(** [ws.recv()] returns text on which [json.loads] raises an exception that is
    no [JSONDecodeError] (a [RecursionError] on text nested too deep, a
    [ValueError] on an integer of too many digits), with its [str(exc)] *)
| LoadsRaises (msg : str)
(** [ws.recv()] returns a frame that [json.loads] reads as [message];
    [stop_called]: another task calls [stop()] while the frame is handled,
    that is while [_dispatch] waits for the webhook or for the socket *)
| Frame (message : json) (stop_called : bool)
(** another task calls [stop()] while [ws.recv()] is waiting *)
| StopCalled.

(** How far a loop got on the events it was given. *)
Inductive progress : Type :=
| Returned
| Raised (e : exception)
(** still waiting: the events ran out *)
| Pending.

Definition set_stopping (st : bridge_state) : bridge_state := snd (stop st).

(** From [raw = await ws.recv()] on. *)
Fixpoint recv_loop (self : XiaozhiMCPBridge) (events : list ws_event)
    (st : bridge_state) : progress * bridge_state :=
  match events with
  | [] => (Pending, st)
  | ev :: rest =>
      let loop_head st' :=
        if _stopping st' then (Returned, st') else recv_loop self rest st' in
      match ev with
      | StopCalled => recv_loop self rest (set_stopping st)
      | ClosedOK => (Returned, st)
      | ClosedError => (Returned, st)
      | RecvRaises e => (Raised e, st)
      | BadUtf8 => loop_head st
      | BadJson => loop_head st
      | LoadsRaises msg => (Raised (OtherException msg), st)
      | Frame message stop_called =>
          match _dispatch self message st with
          | (Ok _, st') => loop_head (if stop_called then set_stopping st' else st')
          | (Raise e, st') => (Raised e, if stop_called then set_stopping st' else st')
          end
      end
  end.

Definition _handle_session (self : XiaozhiMCPBridge) (events : list ws_event)
    (st : bridge_state) : progress * bridge_state :=
  if _stopping st then (Returned, st) else recv_loop self events st.

(** *** The reconnect loop *)

(** [min(a, b)]: the first argument unless the second is smaller. *)
Definition py_min (a b : Q) : Q :=
  match (b ?= a)%Q with
  | Lt => b
  | _ => a
  end.

(** [await asyncio.sleep(backoff)] *)
Inductive sleep_outcome : Type :=
(** the sleep ends; [stop_called]: another task called [stop()] meanwhile *)
| Slept (stop_called : bool)
(** the task is cancelled while asleep; [stop_called]: another task called
    [stop()] before that *)
| SleepCancelled (stop_called : bool).

(** One turn of the loop of [run], as the outside world shapes it. *)
Inductive attempt : Type :=
(** [websockets.connect] raises [e] ([stop_called]: another task called
    [stop()] meanwhile); [sl] is the sleep that follows *)
| ConnectFails (stop_called : bool) (e : exception) (sl : sleep_outcome)
(** the connection is made ([stop_called]: another task called [stop()]
    meanwhile), the session sees [events]; [sl] is the sleep that follows if
    the session raises *)
| Connected (stop_called : bool) (events : list ws_event) (sl : sleep_outcome).

(** What [run] does that can be seen from outside the bridge's frames. *)
Inductive run_event : Type :=
| Connect
| Sleep (seconds : Q).

(** How one pass through the body of the loop of [run] ends. *)
Inductive turn_end : Type :=
(** back to the head of the loop, with this [backoff] *)
| Again (backoff : Q)
(** an exception leaves [run] *)
| Escapes (e : exception)
(** still waiting: the events ran out *)
| Waiting.

(** The handler [except Exception] of [run], and the [CancelledError] that
    is raised again before it. *)
Definition on_exception (exc : exception) (backoff : Q) (sl : sleep_outcome)
    (st : bridge_state) : turn_end * list run_event * bridge_state :=
  if is_Exception exc then
    match sl with
    | SleepCancelled stop_called =>
        (Escapes CancelledError, [Sleep backoff],
         if stop_called then set_stopping st else st)
    | Slept stop_called =>
        (Again (py_min (backoff * 2) 60), [Sleep backoff],
         if stop_called then set_stopping st else st)
    end
  else (Escapes exc, [], st).

(** The body of the loop of [run]. *)
Definition run_turn (self : XiaozhiMCPBridge) (backoff : Q) (a : attempt)
    (st : bridge_state) : turn_end * list run_event * bridge_state :=
  let '(e, evs, st') :=
    match a with
    | ConnectFails stop_called exc sl =>
        on_exception exc backoff sl (if stop_called then set_stopping st else st)
    | Connected stop_called events sl =>
        let backoff := reconnect_delay self in
        match _handle_session self events
                (if stop_called then set_stopping st else st) with
        | (Pending, st') => (Waiting, [], st')
        | (Returned, st') => (Again backoff, [], st')
        | (Raised exc, st') => on_exception exc backoff sl st'
        end
    end in
  (e, Connect :: evs, st').

(** [while not self._stopping.is_set(): ...] *)
Fixpoint run_loop (self : XiaozhiMCPBridge) (backoff : Q) (attempts : list attempt)
    (st : bridge_state) : progress * list run_event * bridge_state :=
  if _stopping st then (Returned, [], st)
  else
    match attempts with
    | [] => (Pending, [], st)
    | a :: rest =>
        match run_turn self backoff a st with
        | (Again backoff', evs, st') =>
            let '(p, evs', st'') := run_loop self backoff' rest st' in
            (p, evs ++ evs', st'')
        | (Escapes e, evs, st') => (Raised e, evs, st')
        | (Waiting, evs, st') => (Pending, evs, st')
        end
    end.

Definition run (self : XiaozhiMCPBridge) (attempts : list attempt)
    (st : bridge_state) : progress * list run_event * bridge_state :=
  run_loop self (reconnect_delay self) attempts
    {| _stopping := _stopping st; _http_client := true;
       sent := sent st; posted := posted st |}.

End Bridge.

(** ** What a coroutine did *)

(** The frames a coroutine sent when run from [st]. *)
Definition frames_sent {A} (m : M A) (st : bridge_state) : list json :=
  skipn (List.length (sent st)) (sent (snd (m st))).

(** The bodies it posted to the webhook. *)
Definition bodies_posted {A} (m : M A) (st : bridge_state) : list json :=
  skipn (List.length (posted st)) (posted (snd (m st))).

(** The methods [_dispatch] has a branch for. *)
Definition recognized (method : json) : bool :=
  eq_str method (u "initialize")
  || eq_str method (u "notifications/initialized")
  || eq_str method (u "tools/list")
  || eq_str method (u "tools/call")
  || eq_str method (u "ping")
  || eq_str method (u "shutdown").

(** The methods whose handler reads [params]. *)
Definition takes_params (method : json) : bool :=
  eq_str method (u "initialize") || eq_str method (u "tools/call").

(** The number of frames a request is owed: none for the notification, one
    for every other method the dispatcher knows and for every request with an
    [id]. *)
Definition replies_due (method message_id : json) : nat :=
  if eq_str method (u "notifications/initialized") then 0
  else if recognized method || negb (is_None message_id) then 1
  else 0.

(** A coroutine that returned after sending one frame. *)
Definition replied_once (r : result unit * bridge_state) (st : bridge_state) : Prop :=
  exists frame, fst r = Ok tt /\ sent (snd r) = sent st ++ [frame].

(** [message.get("params") or {}] *)
Definition params_of (fields : list (str * json)) : json :=
  py_or (dict_get fields (u "params") JNull) (JObj []).

(** The body [_handle_tools_call] posts to the webhook. *)
Definition webhook_body (action payload_data call_id tool_name arguments : json) : json :=
  obj [("action", action); ("payload", payload_data); ("call_id", call_id);
       ("tool", tool_name); ("arguments", arguments)]%string.

(** A [tools/call] that passes the three checks: [fields] are the frame's,
    [p] its params, [a] its arguments. *)
Definition valid_call (self : XiaozhiMCPBridge) (fields p a : list (str * json)) : Prop :=
  params_of fields = JObj p /\
  eq_str (dict_get p (u "name") JNull) (name (tool self)) = true /\
  dict_get p (u "arguments") JNull = JObj a /\
  nonblank_str (dict_get a (u "action") JNull) = true.

(** The body posted for such a call. *)
Definition body_of (p a : list (str * json)) : json :=
  webhook_body (dict_get a (u "action") JNull)
    (if is_Mapping (dict_get a (u "payload") JNull)
     then dict_get a (u "payload") JNull else JNull)
    (dict_get p (u "callId") JNull) (dict_get p (u "name") JNull) (JObj a).

(** The result object of a successful call. *)
Definition call_result (content_text : str) (call_id : option json) : json :=
  JObj ([(u "content",
          JArr [obj [("type", JStr (u "text")); ("text", JStr content_text)]%string]);
         (u "isError", JBool false)]
        ++ match call_id with
           | Some c => [(u "callId", c)]
           | None => []
           end).

(** What [_post_to_webhook] returns for a response that is no error. *)
Definition response_data (r : Response) : json :=
  match json_body r with
  | Some data => data
  | None => JStr (text r)
  end.

(** An item of a webhook array that contributes to the text: a mapping whose
    [output] is a string with something left once trimmed. *)
Definition has_output (item : json) : bool :=
  match item with
  | JObj fields => nonblank_str (dict_get fields (u "output") JNull)
  | _ => false
  end.

(** Its contribution. *)
Definition trimmed_output (item : json) : str :=
  match item with
  | JObj fields =>
      match dict_get fields (u "output") JNull with
      | JStr output => strip output
      | _ => []
      end
  | _ => []
  end.

(** The seconds slept, in order. *)
Fixpoint waits (evs : list run_event) : list Q :=
  match evs with
  | [] => []
  | Sleep q :: rest => q :: waits rest
  | Connect :: rest => waits rest
  end.

(** The number of connection attempts. *)
Fixpoint connects (evs : list run_event) : nat :=
  match evs with
  | [] => O
  | Connect :: rest => S (connects rest)
  | Sleep _ :: rest => connects rest
  end.

(** What [run] and its loop give back: how far they got, and what they did. *)
Definition progress_of (r : progress * list run_event * bridge_state) : progress :=
  fst (fst r).

Definition trace_of (r : progress * list run_event * bridge_state) : list run_event :=
  snd (fst r).

(** A coroutine that never clears the stop flag. *)
Definition keeps_stopping {A} (m : M A) : Prop :=
  forall st, _stopping st = true -> _stopping (snd (m st)) = true.

(** The error codes the bridge has. *)
Definition error_codes : list Z := [-32601; -32602; -32010; -32001]%Z.

(** A frame that answers the request [message_id]: a result, or an error
    with one of the bridge's codes. *)
Definition is_reply_to (message_id frame : json) : Prop :=
  (exists result, frame = result_frame message_id result)
  \/ (exists code message,
        In code error_codes /\ frame = error_frame message_id code message).

(** The events of a session by kind. *)
Definition is_frame (ev : ws_event) : bool :=
  match ev with Frame _ _ => true | _ => false end.

Definition is_malformed (ev : ws_event) : bool :=
  match ev with BadUtf8 | BadJson => true | _ => false end.

Definition is_stop_called (ev : ws_event) : bool :=
  match ev with StopCalled => true | _ => false end.

(** A frame whose method is [shutdown]. *)
Definition is_shutdown (message : json) : bool :=
  match message with
  | JObj fields => eq_str (dict_get fields (u "method") JNull) (u "shutdown")
  | _ => false
  end.

(** An event of a session by which [stop()] is called: by another task while
    the session waits for a frame or handles one, or by the bridge itself
    when the frame is a [shutdown]. *)
Definition calls_stop (ev : ws_event) : bool :=
  match ev with
  | StopCalled => true
  | Frame message stop_called => stop_called || is_shutdown message
  | _ => false
  end.

(** An event by which the task of the bridge is cancelled while the session
    waits for a frame. *)
Definition cancels (ev : ws_event) : bool :=
  match ev with
  | RecvRaises e => negb (is_Exception e)
  | _ => false
  end.

Definition sleep_cancelled (sl : sleep_outcome) : bool :=
  match sl with
  | SleepCancelled _ => true
  | Slept _ => false
  end.

(** A turn of the loop of [run] in which the task is cancelled, while it
    connects, waits for a frame or sleeps. *)
Definition cancelled_in (a : attempt) : bool :=
  match a with
  | ConnectFails _ e sl => negb (is_Exception e) || sleep_cancelled sl
  | Connected _ events sl => existsb cancels events || sleep_cancelled sl
  end.

(** What one turn of the loop of [run] shows: a connection attempt, and at
    most one sleep after it. *)
Definition is_turn (evs : list run_event) : Prop :=
  evs = [Connect] \/ exists seconds, evs = [Connect; Sleep seconds].

(** A connection the server closes before it sends a frame. *)
Definition closes_at_once (a : attempt) : bool :=
  match a with
  | Connected false (ClosedOK :: _) _ => true
  | Connected false (ClosedError :: _) _ => true
  | _ => false
  end.

(** The name under which [tools/list] offers the tool. *)
Definition advertised_name (t : ToolSpec) : json :=
  match to_mcp_dict t with
  | JObj fields => dict_get fields (u "name") JNull
  | _ => JNull
  end.

(** *** A bridge to evaluate on *)

(** A server that refuses the connection. *)
Definition refused : attempt :=
  ConnectFails false (OtherException (u "Connection refused")) (Slept false).

Definition gmail_tool : ToolSpec :=
  {| name := u "gmail_action";
     description := u "Forward Gmail-related commands to the Gmail n8n workflow." |}.

Definition gmail_bridge (delay : Q) : XiaozhiMCPBridge :=
  {| ws_url := u "wss://api.xiaozhi.me/mcp/";
     webhook_url := u "https://n8n-elrsppnn.n8x.web.id/webhook/xiaozhi";
     tool := gmail_tool;
     reconnect_delay := delay |}.

(** The state [run] starts its loop in. *)
Definition running : bridge_state :=
  {| _stopping := false; _http_client := true; sent := []; posted := [] |}.

(** A bridge whose [run] was never entered: [_handle_tools_call] finds no
    HTTP client. *)
Definition clientless : bridge_state :=
  {| _stopping := false; _http_client := false; sent := []; posted := [] |}.

(** A table for texts that are ASCII, where [repr] never consults it. *)
Definition ascii_only (c : N) : bool := true.

(** A webhook that answers every post with the same response. *)
Definition answers (r : Response) : list json -> json -> result Response :=
  fun _ _ => Ok r.

(** A webhook call during which the task of the bridge is cancelled. *)
Definition cancelled_meanwhile : list json -> json -> result Response :=
  fun _ _ => Raise CancelledError.

(** A webhook that cannot be reached. *)
Definition unreachable (msg : str) : list json -> json -> result Response :=
  fun _ _ => Raise (OtherException msg).

Definition ok_response (body : json) : Response :=
  {| status_code := 200; text := json_dumps body; json_body := Some body;
     json_error := None; raise_for_status := None |}.

(** The 500 of the webhook, with the body [boom]. *)
Definition boom : Response :=
  {| status_code := 500; text := u "boom"; json_body := None; json_error := None;
     raise_for_status := Some (u "Server error '500 Internal Server Error'") |}.

(** A 502 of the webhook whose body is one character longer than the
    preview. *)
Definition long_error : Response :=
  {| status_code := 502; text := repeat 120%N 2001; json_body := None;
     json_error := None;
     raise_for_status := Some (u "Server error '502 Bad Gateway'") |}.

(** The params of a call of the tool, with [more] fields after the two. *)
Definition send_email (more : list (string * json)) : list (string * json) :=
  [("name", JStr (u "gmail_action"));
   ("arguments", obj [("action", JStr (u "send_email"))])]%string ++ more.

(** A webhook that says the mail went out. *)
Definition mailer : list json -> json -> result Response :=
  answers (ok_response (obj [("message", JStr (u "sent"))]%string)).

(** A webhook answer that [response.json()] cannot decode as text. *)
Definition garbled : Response :=
  {| status_code := 200; text := [65533%N]; json_body := None;
     json_error :=
       Some (u "'utf-8' codec can't decode byte 0xff in position 0: invalid start byte");
     raise_for_status := None |}.

(** A webhook answer that is no JSON. *)
Definition plain_response (body : str) : Response :=
  {| status_code := 200; text := body; json_body := None; json_error := None;
     raise_for_status := None |}.

(** The fields of a request frame. *)
Definition request_fields (message_id : json) (method : string) (params : json)
  : list (string * json) :=
  [("jsonrpc", JStr (u "2.0")); ("id", message_id);
   ("method", JStr (u method)); ("params", params)]%string.

(** A request frame. *)
Definition request (message_id : json) (method : string) (params : json) : json :=
  obj (request_fields message_id method params).

(** ** Properties *)

Unset Implicit Arguments.

Lemma str_eqb_eq (a b : str) : str_eqb a b = true <-> a = b.
Proof.
  revert b; induction a as [|x a IH]; intros [|y b]; simpl; split;
    try congruence; try reflexivity.
  - intros H. apply andb_true_iff in H as [Hx Hr].
    apply N.eqb_eq in Hx. apply IH in Hr. congruence.
  - intros H. injection H as -> ->. rewrite N.eqb_refl. simpl. now apply IH.
Qed.

Lemma skipn_length_app {A} (l tail : list A) : skipn (List.length l) (l ++ tail) = tail.
Proof. induction l; simpl; auto. Qed.

(** *** Trimming *)

Lemma lstrip_nil (s : str) : lstrip s = [] <-> forallb isspace s = true.
Proof.
  induction s as [|c s IH]; simpl.
  - tauto.
  - destruct (isspace c); simpl; [exact IH | split; discriminate].
Qed.

Lemma lstrip_all_space (s : str) : forallb isspace (lstrip s) = true -> lstrip s = [].
Proof.
  induction s as [|c s IH]; simpl; trivial.
  destruct (isspace c) eqn:E; trivial.
  simpl. rewrite E. discriminate.
Qed.

Lemma lstrip_split (s : str) :
  exists l, s = l ++ lstrip s /\ forallb isspace l = true.
Proof.
  induction s as [|c s (l & Hs & Hl)]; simpl.
  - now exists [].
  - destruct (isspace c) eqn:E.
    + exists (c :: l). simpl. rewrite E, Hl. split; [now f_equal | reflexivity].
    + now exists [].
Qed.

Lemma forallb_rev {A} (f : A -> bool) (l : list A) : forallb f (rev l) = forallb f l.
Proof.
  induction l as [|x l IH]; simpl; trivial.
  rewrite forallb_app, IH. simpl. rewrite andb_true_r. apply andb_comm.
Qed.

(** Nothing is left of a text exactly when all of it is whitespace. *)
Lemma strip_nil (s : str) : strip s = [] <-> forallb isspace s = true.
Proof.
  unfold strip, rstrip. rewrite <- lstrip_nil. split.
  - intros H. apply (f_equal (@rev N)) in H. rewrite rev_involutive in H. simpl in H.
    apply lstrip_nil in H. rewrite forallb_rev in H. now apply lstrip_all_space.
  - intros H. now rewrite H.
Qed.

(** [strip] takes whitespace off both ends and leaves the middle as it is. *)
Lemma strip_split (s : str) :
  exists l r, s = l ++ strip s ++ r
              /\ forallb isspace l = true /\ forallb isspace r = true.
Proof.
  destruct (lstrip_split s) as (l & Hs & Hl).
  destruct (lstrip_split (rev (lstrip s))) as (r & Hr & Hrs).
  exists l, (rev r). unfold strip, rstrip. rewrite forallb_rev. repeat split; trivial.
  rewrite <- rev_app_distr, <- Hr, rev_involutive. exact Hs.
Qed.

Lemma nonblank_str_spec (v : json) :
  nonblank_str v = true <-> exists s, v = JStr s /\ forallb isspace s = false.
Proof.
  destruct v; simpl; try (split; [discriminate | intros (s & H & _); discriminate]).
  destruct (strip s) eqn:E.
  - apply strip_nil in E. split; [discriminate|]. intros (t & H & Ht). congruence.
  - split; trivial. intros _. exists s. split; trivial.
    destruct (forallb isspace s) eqn:F; trivial. apply strip_nil in F. congruence.
Qed.

(** *** The tests of the dispatcher, as propositions *)

Lemma eq_str_spec (v : json) (s : str) : eq_str v s = true <-> v = JStr s.
Proof.
  destruct v; simpl; try (split; [discriminate | intros H; discriminate H]).
  rewrite str_eqb_eq. split; [now intros -> | now intros [= ->]].
Qed.

Lemma eq_str_false (v : json) (s : str) : eq_str v s = false <-> v <> JStr s.
Proof.
  rewrite <- eq_str_spec. destruct (eq_str v s); split; congruence.
Qed.

Lemma is_None_spec (v : json) : is_None v = false <-> v <> JNull.
Proof. destruct v; simpl; split; congruence. Qed.

Lemma not_Mapping (v : json) : is_Mapping v = false <-> forall a, v <> JObj a.
Proof.
  destruct v; simpl; split; try congruence; try discriminate.
  intros H. now destruct (H fields).
Qed.

Lemma nonblank_str_true (v : json) :
  nonblank_str v = true <-> exists s, v = JStr s /\ strip s <> [].
Proof.
  destruct v; simpl; try (split; [discriminate | intros (t & H & _); discriminate H]).
  destruct (strip s) eqn:E; split; try discriminate.
  - intros (t & [= <-] & H). congruence.
  - intros _. exists s. split; [reflexivity | now rewrite E].
  - reflexivity.
Qed.

Lemma nonblank_str_false (v : json) :
  nonblank_str v = false <-> forall s, v = JStr s -> strip s = [].
Proof.
  split.
  - intros H s ->. simpl in H. now destruct (strip s).
  - intros H. destruct (nonblank_str v) eqn:E; trivial.
    apply nonblank_str_true in E as (s & Hv & Hs). now apply H in Hv.
Qed.

Lemma recognized_spec (method : json) :
  recognized method = false
  <-> forall m,
        In m ["initialize"; "notifications/initialized"; "tools/list"; "tools/call";
              "ping"; "shutdown"]%string ->
        method <> JStr (u m).
Proof.
  unfold recognized. rewrite !orb_false_iff, !eq_str_false. split.
  - intros H m Hin. simpl in Hin.
    repeat (destruct Hin as [<-|Hin]; [tauto|]). destruct Hin.
  - intros H. repeat split; apply H; simpl; tauto.
Qed.

(** A coroutine that does nothing but send one frame. *)
Lemma sends_only (m : M unit) (frame : json) (st : bridge_state) :
  m st = _send_json frame st ->
  fst (m st) = Ok tt /\ frames_sent m st = [frame] /\ bodies_posted m st = []
  /\ _stopping (snd (m st)) = _stopping st.
Proof.
  intros H. unfold frames_sent, bodies_posted. rewrite H. simpl.
  split; [reflexivity|]. split; [apply skipn_length_app|]. split; [|reflexivity].
  rewrite <- (app_nil_r (posted st)) at 2. apply skipn_length_app.
Qed.

(** *** The text made from the webhook's answer *)

Lemma outputs_of_filter (items : list json) :
  outputs_of items = map trimmed_output (filter has_output items).
Proof.
  induction items as [|item items IH]; simpl; trivial.
  destruct item as [| | | | | |fields]; simpl; trivial.
  destruct (dict_get fields (u "output") JNull) eqn:E; simpl; trivial.
  destruct (strip s) eqn:Es; simpl; trivial.
  now rewrite E, Es, IH.
Qed.

Section Formatting.

Variable isprintable : N -> bool.

(** C4, as the code has it: for a webhook answer that is a JSON object the
    text is the [message] field when that is a string with a character that
    is not whitespace (the field as it is, untrimmed), and otherwise (no
    [message], one that is no string, an empty or all-whitespace one) the
    JSON serialization of the whole object.  [{message: hi}] gives [hi], and
    [{foo: bar}] gives its serialization.  This text is the [text] of the
    result frame of a successful call ([tools_call_success]). *)
Theorem object_response_text (fields : list (str * json)) :
  (forall message,
      dict_get fields (u "message") JNull = JStr message ->
      forallb isspace message = false ->
      _format_webhook_response isprintable (JObj fields) = message)
  /\ (forall message,
      dict_get fields (u "message") JNull = JStr message ->
      forallb isspace message = true ->
      _format_webhook_response isprintable (JObj fields) = json_dumps (JObj fields))
  /\ (is_str (dict_get fields (u "message") JNull) = false ->
      _format_webhook_response isprintable (JObj fields) = json_dumps (JObj fields))
  /\ _format_webhook_response isprintable (obj [("message", JStr (u "hi"))]%string)
     = u "hi"
  /\ _format_webhook_response isprintable (obj [("foo", JStr (u "bar"))]%string)
     = json_dumps (obj [("foo", JStr (u "bar"))]%string)
  /\ json_dumps (obj [("foo", JStr (u "bar"))]%string)
     = u "{" ++ quote2 :: u "foo" ++ quote2 :: u ": " ++ quote2 :: u "bar"
       ++ quote2 :: u "}".
Proof.
  repeat apply conj; try reflexivity.
  - intros message Hm Hs. unfold _format_webhook_response. rewrite Hm.
    destruct (strip message) eqn:E; trivial.
    apply strip_nil in E. congruence.
  - intros message Hm Hs. unfold _format_webhook_response. rewrite Hm.
    apply strip_nil in Hs. now rewrite Hs.
  - intros Hm. unfold _format_webhook_response.
    destruct (dict_get fields (u "message") JNull); trivial. discriminate Hm.
Qed.

(** C5, as the code has it: for a webhook answer that is a JSON array the
    text is made of the [output] fields of the items that are objects with a
    string there that is not all whitespace, each trimmed of the whitespace at
    its ends, in order, with an empty line (two newlines) between them; when
    no item has such an [output] the text is the JSON serialization of the
    whole array.  [[{output: a}, {output: b}]] gives [a], an empty line,
    [b].  This text is the [text] of the result frame of a successful call
    ([tools_call_success]). *)
Theorem array_response_text (items : list json) :
  (filter has_output items <> [] ->
   _format_webhook_response isprintable (JArr items)
   = join [newline; newline] (map trimmed_output (filter has_output items)))
  /\ (filter has_output items = [] ->
      _format_webhook_response isprintable (JArr items) = json_dumps (JArr items))
  /\ (forall item,
      has_output item = true <->
      exists fields output,
        item = JObj fields /\ dict_get fields (u "output") JNull = JStr output
        /\ forallb isspace output = false)
  /\ (forall fields output,
      dict_get fields (u "output") JNull = JStr output ->
      trimmed_output (JObj fields) = strip output
      /\ exists l r, output = l ++ strip output ++ r
                     /\ forallb isspace l = true /\ forallb isspace r = true)
  /\ _format_webhook_response isprintable
       (JArr [obj [("output", JStr (u "a"))]%string; obj [("output", JStr (u "b"))]%string])
     = u "a" ++ [newline; newline] ++ u "b".
Proof.
  repeat apply conj; try reflexivity.
  - intros H. unfold _format_webhook_response. rewrite outputs_of_filter.
    destruct (filter has_output items); [congruence | reflexivity].
  - intros H. unfold _format_webhook_response. rewrite outputs_of_filter.
    now rewrite H.
  - intros item. split.
    + destruct item as [| | | | | |fields]; simpl;
        try (intros H; discriminate H).
      intros H. apply nonblank_str_spec in H as (output & Ho & Hs).
      now exists fields, output.
    + intros (fields & output & Hi & Ho & Hs). subst item. simpl.
      apply nonblank_str_spec. now exists output.
  - intros fields output H. split.
    + simpl. now rewrite H.
    + apply strip_split.
Qed.

End Formatting.

Section Dispatch.

Variable isprintable : N -> bool.
Variable webhook : list json -> json -> result Response.
Variable self : XiaozhiMCPBridge.

Lemma dispatch_unrecognized (fields : list (str * json)) (st : bridge_state) :
  recognized (dict_get fields (u "method") JNull) = false ->
  _dispatch isprintable webhook self (JObj fields) st =
    if is_None (dict_get fields (u "id") JNull) then ret tt st
    else _send_json
           (error_frame (dict_get fields (u "id") JNull) (-32601)
              (u "Method '" ++ py_str isprintable (dict_get fields (u "method") JNull)
               ++ u "' not implemented by gmail bridge")) st.
Proof.
  unfold recognized. intros H.
  repeat (apply orb_false_iff in H; destruct H as [H ?]).
  unfold _dispatch, bind, lift, py_get.
  rewrite H, H0, H1, H2, H3, H4.
  destruct (is_None _); reflexivity.
Qed.

(** The steps every [tools/call] proof starts with. *)
Ltac enter_tools_call Hp :=
  unfold _handle_tools_call, bind, lift, py_get;
  match type of Hp with params_of ?f = _ => fold (params_of f) end;
  rewrite Hp; cbv beta iota.

Lemma tools_call_unsupported (fields p : list (str * json)) (st : bridge_state) :
  params_of fields = JObj p ->
  eq_str (dict_get p (u "name") JNull) (name (tool self)) = false ->
  _handle_tools_call isprintable webhook self (JObj fields) st =
    _send_json
      (error_frame (dict_get fields (u "id") JNull) (-32602)
         (u "Unsupported tool '" ++ py_str isprintable (dict_get p (u "name") JNull)
          ++ u "'")) st.
Proof.
  intros Hp Hn. enter_tools_call Hp. rewrite Hn. reflexivity.
Qed.

Lemma tools_call_arguments (fields p : list (str * json)) (st : bridge_state) :
  params_of fields = JObj p ->
  eq_str (dict_get p (u "name") JNull) (name (tool self)) = true ->
  is_Mapping (dict_get p (u "arguments") JNull) = false ->
  _handle_tools_call isprintable webhook self (JObj fields) st =
    _send_json
      (error_frame (dict_get fields (u "id") JNull) (-32602)
         (u "Tool arguments must be an object")) st.
Proof.
  intros Hp Hn Ha. enter_tools_call Hp. rewrite Hn, Ha. reflexivity.
Qed.

Lemma tools_call_action (fields p a : list (str * json)) (st : bridge_state) :
  params_of fields = JObj p ->
  eq_str (dict_get p (u "name") JNull) (name (tool self)) = true ->
  dict_get p (u "arguments") JNull = JObj a ->
  nonblank_str (dict_get a (u "action") JNull) = false ->
  _handle_tools_call isprintable webhook self (JObj fields) st =
    _send_json
      (error_frame (dict_get fields (u "id") JNull) (-32602)
         (u "Tool arguments must include non-empty 'action'")) st.
Proof.
  intros Hp Hn Ha Hb. enter_tools_call Hp. rewrite Hn, Ha.
  cbn [negb is_Mapping]. cbv beta iota. rewrite Hb. reflexivity.
Qed.

(** Past the checks: what is left is the call of the webhook and the reply
    made from its outcome. *)
Ltac enter_valid_call H :=
  let Hp := fresh "Hp" in
  let Hn := fresh "Hn" in
  let Ha := fresh "Ha" in
  let Hb := fresh "Hb" in
  destruct H as (Hp & Hn & Ha & Hb);
  enter_tools_call Hp; rewrite Hn, Ha;
  cbn [negb is_Mapping]; cbv beta iota; rewrite Hb;
  cbn [negb]; cbv beta iota zeta;
  unfold body_of, webhook_body, _post_to_webhook.

Lemma tools_call_client_missing (fields p a : list (str * json)) (st : bridge_state) :
  valid_call self fields p a ->
  _http_client st = false ->
  _handle_tools_call isprintable webhook self (JObj fields) st =
    _send_json
      (error_frame (dict_get fields (u "id") JNull) (-32001)
         (u "Gmail agent error: " ++ u "HTTP client is not initialised")) st.
Proof.
  intros H Hc. enter_valid_call H. rewrite Hc. reflexivity.
Qed.

Lemma tools_call_webhook_raises (fields p a : list (str * json)) (st : bridge_state)
    (e : exception) :
  valid_call self fields p a ->
  _http_client st = true ->
  webhook (posted st) (body_of p a) = Raise e ->
  _handle_tools_call isprintable webhook self (JObj fields) st =
    match e with
    | HTTPStatusError _ response =>
        _send_json
          (error_frame (dict_get fields (u "id") JNull) (-32010)
             (u "Gmail webhook returned HTTP " ++ str_of_int (status_code response)
              ++ u ": " ++ prefix 2000 (text response)))
          (post_recorded st (body_of p a))
    | CancelledError => (Raise CancelledError, post_recorded st (body_of p a))
    | _ =>
        _send_json
          (error_frame (dict_get fields (u "id") JNull) (-32001)
             (u "Gmail agent error: " ++ exc_str e))
          (post_recorded st (body_of p a))
    end.
Proof.
  intros H Hc Hw. enter_valid_call H. rewrite Hc. cbn [negb]. cbv iota zeta.
  unfold body_of, webhook_body in Hw. rewrite Hw. destruct e; reflexivity.
Qed.

Lemma tools_call_http_error (fields p a : list (str * json)) (st : bridge_state)
    (r : Response) (msg : str) :
  valid_call self fields p a ->
  _http_client st = true ->
  webhook (posted st) (body_of p a) = Ok r ->
  raise_for_status r = Some msg ->
  _handle_tools_call isprintable webhook self (JObj fields) st =
    _send_json
      (error_frame (dict_get fields (u "id") JNull) (-32010)
         (u "Gmail webhook returned HTTP " ++ str_of_int (status_code r)
          ++ u ": " ++ prefix 2000 (text r)))
      (post_recorded st (body_of p a)).
Proof.
  intros H Hc Hw Hr. enter_valid_call H. rewrite Hc. cbn [negb]. cbv iota zeta.
  unfold body_of, webhook_body in Hw. rewrite Hw, Hr. reflexivity.
Qed.

Lemma tools_call_json_error (fields p a : list (str * json)) (st : bridge_state)
    (r : Response) (msg : str) :
  valid_call self fields p a ->
  _http_client st = true ->
  webhook (posted st) (body_of p a) = Ok r ->
  raise_for_status r = None ->
  json_error r = Some msg ->
  _handle_tools_call isprintable webhook self (JObj fields) st =
    _send_json
      (error_frame (dict_get fields (u "id") JNull) (-32001)
         (u "Gmail agent error: " ++ msg))
      (post_recorded st (body_of p a)).
Proof.
  intros H Hc Hw Hr He. enter_valid_call H. rewrite Hc. cbn [negb]. cbv iota zeta.
  unfold body_of, webhook_body in Hw. rewrite Hw, Hr, He. reflexivity.
Qed.

Lemma tools_call_success (fields p a : list (str * json)) (st : bridge_state)
    (r : Response) :
  valid_call self fields p a ->
  _http_client st = true ->
  webhook (posted st) (body_of p a) = Ok r ->
  raise_for_status r = None ->
  json_error r = None ->
  _handle_tools_call isprintable webhook self (JObj fields) st =
    _send_json
      (result_frame (dict_get fields (u "id") JNull)
         (call_result (_format_webhook_response isprintable (response_data r))
            (if truthy (dict_get p (u "callId") JNull)
             then Some (dict_get p (u "callId") JNull) else None)))
      (post_recorded st (body_of p a)).
Proof.
  intros H Hc Hw Hr He. enter_valid_call H. rewrite Hc. cbn [negb]. cbv iota zeta.
  unfold body_of, webhook_body in Hw. rewrite Hw, Hr, He. unfold response_data, call_result.
  destruct (json_body r); destruct (truthy _); reflexivity.
Qed.

Lemma dispatch_tools_call (fields : list (str * json)) (st : bridge_state) :
  dict_get fields (u "method") JNull = JStr (u "tools/call") ->
  _dispatch isprintable webhook self (JObj fields) st =
    _handle_tools_call isprintable webhook self (JObj fields) st.
Proof.
  intros H. unfold _dispatch, bind, lift, py_get. rewrite H. reflexivity.
Qed.

Lemma bodies_posted_dispatch (fields : list (str * json)) (st : bridge_state) :
  dict_get fields (u "method") JNull = JStr (u "tools/call") ->
  bodies_posted (_dispatch isprintable webhook self (JObj fields)) st
  = bodies_posted (_handle_tools_call isprintable webhook self (JObj fields)) st.
Proof. intros H. unfold bodies_posted. now rewrite (dispatch_tools_call _ st H). Qed.

(** A valid call posts its body exactly once, whatever the webhook does. *)
Lemma tools_call_posts_once (fields p a : list (str * json)) (st : bridge_state) :
  valid_call self fields p a ->
  _http_client st = true ->
  bodies_posted (_handle_tools_call isprintable webhook self (JObj fields)) st
  = [body_of p a].
Proof.
  intros H Hc. unfold bodies_posted.
  destruct (webhook (posted st) (body_of p a)) as [r|e] eqn:Hw.
  - destruct (raise_for_status r) as [msg|] eqn:Hr.
    + rewrite (tools_call_http_error _ _ _ _ _ _ H Hc Hw Hr). simpl. apply skipn_length_app.
    + destruct (json_error r) as [msg|] eqn:He.
      * rewrite (tools_call_json_error _ _ _ _ _ _ H Hc Hw Hr He). simpl.
        apply skipn_length_app.
      * rewrite (tools_call_success _ _ _ _ _ H Hc Hw Hr He). simpl.
        apply skipn_length_app.
  - rewrite (tools_call_webhook_raises _ _ _ _ _ H Hc Hw).
    destruct e; simpl; apply skipn_length_app.
Qed.

(** C9: a frame whose [method] is none of the six the dispatcher knows (a
    missing one, or one that is no string, included) is answered, when its
    [id] is not null, by exactly one frame: the JSON-RPC error with code
    -32601, the text [Method '<method>' not implemented by gmail bridge] and
    the [id] of the request; nothing is posted and nothing else changes.
    When its [id] is null or absent nothing is sent at all.  Either way
    [_dispatch] returns normally. *)
Theorem unrecognized_method (fields : list (str * json)) (st : bridge_state) :
  (forall m,
      In m ["initialize"; "notifications/initialized"; "tools/list"; "tools/call";
            "ping"; "shutdown"]%string ->
      dict_get fields (u "method") JNull <> JStr (u m)) ->
  let call := _dispatch isprintable webhook self (JObj fields) in
  let message_id := dict_get fields (u "id") JNull in
  let method := dict_get fields (u "method") JNull in
  (message_id <> JNull ->
   fst (call st) = Ok tt
   /\ frames_sent call st
      = [obj [("jsonrpc", JStr (u "2.0")); ("id", message_id);
              ("error",
               obj [("code", JInt (-32601));
                    ("message",
                     JStr (u "Method '" ++ py_str isprintable method
                           ++ u "' not implemented by gmail bridge")%list)])]%string]
   /\ bodies_posted call st = []
   /\ _stopping (snd (call st)) = _stopping st)
  /\ (message_id = JNull ->
      call st = (Ok tt, st) /\ frames_sent call st = [] /\ bodies_posted call st = []).
Proof.
  intros H call message_id method. subst call message_id method.
  apply recognized_spec in H.
  pose proof (dispatch_unrecognized fields st H) as Hd.
  split; intros Hid.
  - apply is_None_spec in Hid. rewrite Hid in Hd. exact (sends_only _ _ _ Hd).
  - assert (Hn : is_None (dict_get fields (u "id") JNull) = true) by now rewrite Hid.
    rewrite Hn in Hd. unfold frames_sent, bodies_posted. rewrite Hd. unfold ret. simpl.
    repeat split.
    + rewrite <- (app_nil_r (sent st)) at 2. apply skipn_length_app.
    + rewrite <- (app_nil_r (posted st)) at 2. apply skipn_length_app.
Qed.

(** C2: [tools/call] checks, in this order, that [params.name] is the tool's
    name, that [params.arguments] is an object, and that [arguments.action]
    is a string with something left once trimmed.  The first check that fails
    decides the reply: exactly one frame, the JSON-RPC error with code -32602,
    the [id] of the request and the text of that check; [_dispatch] returns,
    nothing is posted to the webhook and the stop flag is as it was.  A
    [payload] that is absent or not an object is no error: the call passes
    the checks and goes to the webhook, with [payload] null in the body; a
    [payload] that is an object goes there as it is. *)
Theorem tools_call_validation_order (fields p : list (str * json)) (st : bridge_state) :
  dict_get fields (u "method") JNull = JStr (u "tools/call") ->
  params_of fields = JObj p ->
  let call := _dispatch isprintable webhook self (JObj fields) in
  let message_id := dict_get fields (u "id") JNull in
  let tool_name := dict_get p (u "name") JNull in
  let arguments := dict_get p (u "arguments") JNull in
  let refused_with message :=
    fst (call st) = Ok tt
    /\ frames_sent call st
       = [obj [("jsonrpc", JStr (u "2.0")); ("id", message_id);
               ("error", obj [("code", JInt (-32602));
                              ("message", JStr message)])]%string]
    /\ bodies_posted call st = []
    /\ _stopping (snd (call st)) = _stopping st in
  let posts a action payload :=
    bodies_posted call st
    = [obj [("action", JStr action); ("payload", payload);
            ("call_id", dict_get p (u "callId") JNull); ("tool", tool_name);
            ("arguments", JObj a)]%string] in
  (tool_name <> JStr (name (tool self)) ->
   refused_with (u "Unsupported tool '" ++ py_str isprintable tool_name ++ u "'"))
  /\ (tool_name = JStr (name (tool self)) ->
      (forall a, arguments <> JObj a) ->
      refused_with (u "Tool arguments must be an object"))
  /\ (forall a,
      tool_name = JStr (name (tool self)) ->
      arguments = JObj a ->
      (forall action, dict_get a (u "action") JNull = JStr action -> strip action = []) ->
      refused_with (u "Tool arguments must include non-empty 'action'"))
  /\ (forall a action,
      tool_name = JStr (name (tool self)) ->
      arguments = JObj a ->
      dict_get a (u "action") JNull = JStr action ->
      strip action <> [] ->
      _http_client st = true ->
      ((forall payload, dict_get a (u "payload") JNull <> JObj payload) ->
       posts a action JNull)
      /\ (forall payload,
          dict_get a (u "payload") JNull = JObj payload -> posts a action (JObj payload))).
Proof.
  intros Hm Hp call message_id tool_name arguments refused_with posts.
  subst call message_id tool_name arguments refused_with posts. cbv beta.
  repeat apply conj.
  - intros Hn. apply eq_str_false in Hn.
    pose proof (tools_call_unsupported fields p st Hp Hn) as H.
    rewrite <- (dispatch_tools_call _ st Hm) in H. exact (sends_only _ _ _ H).
  - intros Hn Ha. apply eq_str_spec in Hn. apply not_Mapping in Ha.
    pose proof (tools_call_arguments fields p st Hp Hn Ha) as H.
    rewrite <- (dispatch_tools_call _ st Hm) in H. exact (sends_only _ _ _ H).
  - intros a Hn Ha Hb. apply eq_str_spec in Hn. apply nonblank_str_false in Hb.
    pose proof (tools_call_action fields p a st Hp Hn Ha Hb) as H.
    rewrite <- (dispatch_tools_call _ st Hm) in H. exact (sends_only _ _ _ H).
  - intros a action Hn Ha Hact Hb Hc. apply eq_str_spec in Hn.
    assert (Hv : valid_call self fields p a).
    { split; [exact Hp|]. split; [exact Hn|]. split; [exact Ha|].
      apply nonblank_str_true. now exists action. }
    pose proof (tools_call_posts_once fields p a st Hv Hc) as Hposted.
    rewrite <- (bodies_posted_dispatch _ st Hm) in Hposted.
    unfold body_of, webhook_body in Hposted. rewrite Hact in Hposted.
    split.
    + intros Hpl. apply not_Mapping in Hpl. rewrite Hpl in Hposted. exact Hposted.
    + intros payload Hpl. rewrite Hpl in Hposted. exact Hposted.
Qed.

Lemma frames_sent_after_post (m : M unit) (frame body : json) (st : bridge_state) :
  m st = _send_json frame (post_recorded st body) ->
  frames_sent (fun st' => m st') st = [frame] /\ fst (m st) = Ok tt.
Proof.
  intros H. unfold frames_sent. rewrite H. simpl. split; [apply skipn_length_app | reflexivity].
Qed.

(** A coroutine that posts a body and then sends one frame. *)
Lemma posts_then_sends (m : M unit) (frame body : json) (st : bridge_state) :
  m st = _send_json frame (post_recorded st body) ->
  fst (m st) = Ok tt /\ frames_sent m st = [frame] /\ bodies_posted m st = [body].
Proof.
  intros H. unfold frames_sent, bodies_posted. rewrite H. simpl.
  repeat split; apply skipn_length_app.
Qed.

Lemma prefix_skipn (n : nat) (s : str) : s = prefix n s ++ skipn n s.
Proof. unfold prefix. symmetry. apply firstn_skipn. Qed.

Lemma prefix_length (n : nat) (s : str) :
  List.length (prefix n s) = Nat.min n (List.length s).
Proof. unfold prefix. apply length_firstn. Qed.

(** C3: a valid [tools/call] whose webhook answers with a status that
    [raise_for_status] refuses is answered by exactly one frame, the JSON-RPC
    error with code -32010, the [id] of the request and the text
    [Gmail webhook returned HTTP <status>: <preview>], where the preview is
    the first 2000 characters of the body (all of it when it is shorter).
    When the post raises any other [Exception] (the network, a timeout), when
    reading the answer as JSON raises one that is no [JSONDecodeError], and
    when the HTTP client is not there, the answer is the error with code
    -32001 and the text [Gmail agent error: ] followed by the text of the
    exception.  In all these cases [_dispatch] returns, and the body was posted
    once (not at all without a client). *)
Theorem webhook_failure_replies (fields p a : list (str * json)) (st : bridge_state) :
  dict_get fields (u "method") JNull = JStr (u "tools/call") ->
  valid_call self fields p a ->
  let call := _dispatch isprintable webhook self (JObj fields) in
  let message_id := dict_get fields (u "id") JNull in
  let replies_error code message :=
    fst (call st) = Ok tt
    /\ frames_sent call st
       = [obj [("jsonrpc", JStr (u "2.0")); ("id", message_id);
               ("error", obj [("code", JInt code); ("message", JStr message)])]%string] in
  let status_error r :=
    replies_error (-32010)%Z
      (u "Gmail webhook returned HTTP " ++ str_of_int (status_code r)
       ++ u ": " ++ prefix 2000 (text r))
    /\ bodies_posted call st = [body_of p a]
    /\ text r = prefix 2000 (text r) ++ skipn 2000 (text r)
    /\ List.length (prefix 2000 (text r)) = Nat.min 2000 (List.length (text r)) in
  (forall r msg,
      _http_client st = true ->
      webhook (posted st) (body_of p a) = Ok r ->
      raise_for_status r = Some msg ->
      status_error r)
  /\ (forall r msg,
      _http_client st = true ->
      webhook (posted st) (body_of p a) = Raise (HTTPStatusError msg r) ->
      status_error r)
  /\ (forall e,
      _http_client st = true ->
      webhook (posted st) (body_of p a) = Raise e ->
      is_Exception e = true ->
      (forall m r, e <> HTTPStatusError m r) ->
      replies_error (-32001)%Z (u "Gmail agent error: " ++ exc_str e)
      /\ bodies_posted call st = [body_of p a])
  /\ (forall r msg,
      _http_client st = true ->
      webhook (posted st) (body_of p a) = Ok r ->
      raise_for_status r = None ->
      json_error r = Some msg ->
      replies_error (-32001)%Z (u "Gmail agent error: " ++ msg)
      /\ bodies_posted call st = [body_of p a])
  /\ (_http_client st = false ->
      replies_error (-32001)%Z (u "Gmail agent error: HTTP client is not initialised")
      /\ bodies_posted call st = []).
Proof.
  intros Hm Hv call message_id replies_error status_error.
  subst call message_id replies_error status_error. cbv beta.
  repeat apply conj.
  - intros r msg Hc Hw Hr.
    pose proof (tools_call_http_error _ _ _ _ _ _ Hv Hc Hw Hr) as H.
    rewrite <- (dispatch_tools_call _ st Hm) in H.
    destruct (posts_then_sends _ _ _ _ H) as (Hf & Hs & Hb).
    split; [split; [exact Hf | exact Hs]|]. split; [exact Hb|].
    split; [apply prefix_skipn | apply prefix_length].
  - intros r msg Hc Hw.
    pose proof (tools_call_webhook_raises _ _ _ _ _ Hv Hc Hw) as H. cbv iota in H.
    rewrite <- (dispatch_tools_call _ st Hm) in H.
    destruct (posts_then_sends _ _ _ _ H) as (Hf & Hs & Hb).
    split; [split; [exact Hf | exact Hs]|]. split; [exact Hb|].
    split; [apply prefix_skipn | apply prefix_length].
  - intros e Hc Hw He Hn.
    pose proof (tools_call_webhook_raises _ _ _ _ _ Hv Hc Hw) as H.
    rewrite <- (dispatch_tools_call _ st Hm) in H.
    destruct e as [m|m|m r|m|]; try discriminate He;
      try (destruct (posts_then_sends _ _ _ _ H) as (Hf & Hs & Hb);
           split; [split; [exact Hf | exact Hs] | exact Hb]).
    exfalso. now apply (Hn m r).
  - intros r msg Hc Hw Hr He.
    pose proof (tools_call_json_error _ _ _ _ _ _ Hv Hc Hw Hr He) as H.
    rewrite <- (dispatch_tools_call _ st Hm) in H.
    destruct (posts_then_sends _ _ _ _ H) as (Hf & Hs & Hb).
    split; [split; [exact Hf | exact Hs] | exact Hb].
  - intros Hc.
    pose proof (tools_call_client_missing _ _ _ _ Hv Hc) as H.
    rewrite <- (dispatch_tools_call _ st Hm) in H.
    destruct (sends_only _ _ _ H) as (Hf & Hs & Hb & _).
    split; [split; [exact Hf | exact Hs] | exact Hb].
Qed.

(** C8, as the code has it: a valid [tools/call] whose webhook call succeeds
    is answered by one result frame.  When the call's [callId] is truthy (not
    null, false, zero or empty) the result object carries it as [callId],
    next to [content] and [isError] and apart from the frame's [id]; when the
    call has no [callId], or a null one, the result object has no such field.
    Either way [callId] goes to the webhook as [call_id]. *)
Theorem call_id_pass_through (fields p a : list (str * json)) (st : bridge_state)
    (r : Response) :
  dict_get fields (u "method") JNull = JStr (u "tools/call") ->
  valid_call self fields p a ->
  _http_client st = true ->
  webhook (posted st) (body_of p a) = Ok r ->
  raise_for_status r = None ->
  json_error r = None ->
  let call := _dispatch isprintable webhook self (JObj fields) in
  let message_id := dict_get fields (u "id") JNull in
  let call_id := dict_get p (u "callId") JNull in
  let content_text := _format_webhook_response isprintable (response_data r) in
  (truthy call_id = true ->
   frames_sent call st = [result_frame message_id (call_result content_text (Some call_id))])
  /\ (call_id = JNull ->
      frames_sent call st = [result_frame message_id (call_result content_text None)])
  /\ result_frame message_id (call_result content_text (Some call_id))
     = obj [("jsonrpc", JStr (u "2.0")); ("id", message_id);
            ("result",
             obj [("content",
                   JArr [obj [("type", JStr (u "text"));
                              ("text", JStr content_text)]]);
                  ("isError", JBool false);
                  ("callId", call_id)])]%string
  /\ result_frame message_id (call_result content_text None)
     = obj [("jsonrpc", JStr (u "2.0")); ("id", message_id);
            ("result",
             obj [("content",
                   JArr [obj [("type", JStr (u "text"));
                              ("text", JStr content_text)]]);
                  ("isError", JBool false)])]%string
  /\ bodies_posted call st
     = [webhook_body (dict_get a (u "action") JNull)
          (if is_Mapping (dict_get a (u "payload") JNull)
           then dict_get a (u "payload") JNull else JNull)
          call_id (dict_get p (u "name") JNull) (JObj a)].
Proof.
  intros Hm Hv Hc Hw Hr He call message_id call_id content_text.
  subst call message_id call_id content_text.
  pose proof (tools_call_success fields p a st r Hv Hc Hw Hr He) as H.
  rewrite <- (dispatch_tools_call _ st Hm) in H.
  repeat apply conj; try reflexivity.
  - intros Ht. rewrite Ht in H. apply (frames_sent_after_post _ _ _ _ H).
  - intros Hn. rewrite Hn in H. apply (frames_sent_after_post _ _ _ _ H).
  - unfold bodies_posted. rewrite H. simpl. apply skipn_length_app.
Qed.

Lemma replied_once_send (frame : json) (st st1 : bridge_state) :
  sent st1 = sent st -> replied_once (_send_json frame st1) st.
Proof. intros H. exists frame. simpl. now rewrite H. Qed.

Lemma tools_call_replies_once (fields p : list (str * json)) (st : bridge_state) :
  params_of fields = JObj p ->
  (forall history body, webhook history body <> Raise CancelledError) ->
  replied_once (_handle_tools_call isprintable webhook self (JObj fields) st) st.
Proof.
  intros Hp Hw.
  destruct (eq_str (dict_get p (u "name") JNull) (name (tool self))) eqn:Hn.
  2:{ rewrite (tools_call_unsupported fields p st Hp Hn). now apply replied_once_send. }
  destruct (dict_get p (u "arguments") JNull) as [| | | | | |a] eqn:Ha;
    try (rewrite (tools_call_arguments fields p st Hp Hn);
         [now apply replied_once_send | now rewrite Ha]).
  destruct (nonblank_str (dict_get a (u "action") JNull)) eqn:Hb.
  2:{ rewrite (tools_call_action fields p a st Hp Hn Ha Hb). now apply replied_once_send. }
  assert (Hv : valid_call self fields p a) by (repeat split; assumption).
  destruct (_http_client st) eqn:Hc.
  2:{ rewrite (tools_call_client_missing fields p a st Hv Hc). now apply replied_once_send. }
  destruct (webhook (posted st) (body_of p a)) as [r|e] eqn:Hr.
  - destruct (raise_for_status r) as [msg|] eqn:Hs.
    + rewrite (tools_call_http_error fields p a st r msg Hv Hc Hr Hs).
      now apply replied_once_send.
    + destruct (json_error r) as [msg|] eqn:He.
      * rewrite (tools_call_json_error fields p a st r msg Hv Hc Hr Hs He).
        now apply replied_once_send.
      * rewrite (tools_call_success fields p a st r Hv Hc Hr Hs He).
        now apply replied_once_send.
  - rewrite (tools_call_webhook_raises fields p a st e Hv Hc Hr).
    destruct e; try (now apply replied_once_send).
    exfalso. now apply (Hw _ _ Hr).
Qed.

Lemma initialize_replies (fields p : list (str * json)) (st : bridge_state) :
  params_of fields = JObj p ->
  _handle_initialize self (JObj fields) st =
    _send_json
      (result_frame (dict_get fields (u "id") JNull)
         (obj [("protocolVersion",
                dict_get p (u "protocolVersion") (JStr (u "2024-11-05")));
               ("capabilities", obj [("tools", obj [("call", JObj [])])])]%string)) st.
Proof.
  intros Hp. unfold _handle_initialize, bind, lift, py_get.
  fold (params_of fields). rewrite Hp. reflexivity.
Qed.

(** When [params] is something the handler can read, and the task is not
    cancelled in the webhook call, [_dispatch] returns and has sent the
    frames the request is owed. *)
Lemma dispatch_replies (fields : list (str * json)) (st : bridge_state) :
  (takes_params (dict_get fields (u "method") JNull) = true ->
   exists p, params_of fields = JObj p) ->
  (forall history body, webhook history body <> Raise CancelledError) ->
  exists frames,
    fst (_dispatch isprintable webhook self (JObj fields) st) = Ok tt
    /\ sent (snd (_dispatch isprintable webhook self (JObj fields) st)) = sent st ++ frames
    /\ List.length frames
       = replies_due (dict_get fields (u "method") JNull) (dict_get fields (u "id") JNull).
Proof.
  intros Hp Hw. unfold takes_params in Hp.
  unfold replies_due, recognized.
  unfold _dispatch, bind, lift, py_get. cbv beta iota.
  destruct (eq_str (dict_get fields (u "method") JNull) (u "initialize")) eqn:E1.
  { destruct (Hp eq_refl) as [p Hp']. rewrite (initialize_replies fields p st Hp').
    destruct (eq_str _ (u "notifications/initialized")) eqn:E2.
    - destruct (dict_get fields (u "method") JNull); try discriminate E1.
      apply str_eqb_eq in E1. subst s. discriminate E2.
    - eexists [_]. simpl. auto. }
  destruct (eq_str (dict_get fields (u "method") JNull) (u "notifications/initialized")).
  { exists []. simpl. rewrite app_nil_r. auto. }
  destruct (eq_str (dict_get fields (u "method") JNull) (u "tools/list")).
  { eexists [_]. simpl. auto. }
  destruct (eq_str (dict_get fields (u "method") JNull) (u "tools/call")).
  { destruct (Hp eq_refl) as [p Hp'].
    destruct (tools_call_replies_once fields p st Hp' Hw) as (frame & Hf & Hs).
    exists [frame]. simpl. auto. }
  destruct (eq_str (dict_get fields (u "method") JNull) (u "ping")).
  { eexists [_]. simpl. auto. }
  destruct (eq_str (dict_get fields (u "method") JNull) (u "shutdown")).
  { eexists [_]. simpl. auto. }
  simpl orb. destruct (is_None (dict_get fields (u "id") JNull)).
  - exists []. simpl. rewrite app_nil_r. auto.
  - eexists [_]. simpl. auto.
Qed.

(** For the frames of [dispatch_replies]: a request with an [id] gets exactly
    one frame back, the notification none. *)
Lemma readable_request_answered_once (fields : list (str * json)) (st : bridge_state) :
  (takes_params (dict_get fields (u "method") JNull) = true ->
   exists p, params_of fields = JObj p) ->
  (forall history body, webhook history body <> Raise CancelledError) ->
  (is_None (dict_get fields (u "id") JNull) = false ->
   eq_str (dict_get fields (u "method") JNull) (u "notifications/initialized") = false ->
   exists frame,
     frames_sent (_dispatch isprintable webhook self (JObj fields)) st = [frame])
  /\ (eq_str (dict_get fields (u "method") JNull) (u "notifications/initialized") = true ->
      frames_sent (_dispatch isprintable webhook self (JObj fields)) st = []).
Proof.
  intros Hp Hw. destruct (dispatch_replies fields st Hp Hw) as (frames & _ & Hs & Hl).
  unfold frames_sent, replies_due in *. rewrite Hs, skipn_length_app. split.
  - intros Hid Hm. rewrite Hm, Hid, orb_true_r in Hl.
    destruct frames as [|f [|g frames]]; try discriminate Hl. now exists f.
  - intros Hm. rewrite Hm in Hl. now destruct frames.
Qed.

Lemma params_of_falsy (fields : list (str * json)) :
  truthy (dict_get fields (u "params") JNull) = false -> params_of fields = JObj [].
Proof. unfold params_of, py_or. now intros ->. Qed.

Lemma params_of_truthy (fields : list (str * json)) :
  truthy (dict_get fields (u "params") JNull) = true ->
  params_of fields = dict_get fields (u "params") JNull.
Proof. unfold params_of, py_or. now intros ->. Qed.

(** The handlers that read [params] call [params.get], which only an object
    has. *)
Lemma dispatch_unreadable_params (fields : list (str * json)) (st : bridge_state) :
  dict_get fields (u "method") JNull = JStr (u "initialize")
  \/ dict_get fields (u "method") JNull = JStr (u "tools/call") ->
  is_Mapping (params_of fields) = false ->
  _dispatch isprintable webhook self (JObj fields) st
  = (Raise (AttributeError
              (quote1 :: type_name (params_of fields) ++ quote1
               :: u " object has no attribute 'get'")), st).
Proof.
  intros [Hm|Hm] Hp; unfold _dispatch, bind, lift, py_get; rewrite Hm; cbv beta iota;
    [change (eq_str (JStr (u "initialize")) (u "initialize")) with true
    |change (eq_str (JStr (u "tools/call")) (u "initialize")) with false;
     change (eq_str (JStr (u "tools/call")) (u "notifications/initialized")) with false;
     change (eq_str (JStr (u "tools/call")) (u "tools/list")) with false;
     change (eq_str (JStr (u "tools/call")) (u "tools/call")) with true];
    cbv iota;
    [unfold _handle_initialize | unfold _handle_tools_call];
    unfold bind, lift, py_get; fold (params_of fields);
    destruct (params_of fields); try discriminate Hp; reflexivity.
Qed.

(** What [_dispatch] raises is an [Exception], unless the task is cancelled
    while the webhook is called. *)
Lemma dispatch_raises_exception (message : json) (st st' : bridge_state) (e : exception) :
  (forall history body, webhook history body <> Raise CancelledError) ->
  _dispatch isprintable webhook self message st = (Raise e, st') ->
  is_Exception e = true.
Proof.
  intros Hw H.
  destruct message as [| | | | | |fields];
    try (unfold _dispatch, bind, lift in H; simpl in H; injection H as <- _; reflexivity).
  destruct (takes_params (dict_get fields (u "method") JNull)) eqn:Ht.
  - destruct (is_Mapping (params_of fields)) eqn:Hp.
    + destruct (dispatch_replies fields st) as (frames & Hok & _);
        [| exact Hw | rewrite H in Hok; discriminate Hok].
      intros _. destruct (params_of fields) as [| | | | | |p]; try discriminate Hp.
      now exists p.
    + unfold takes_params in Ht. apply orb_true_iff in Ht. rewrite !eq_str_spec in Ht.
      rewrite (dispatch_unreadable_params fields st Ht Hp) in H.
      injection H as <- _. reflexivity.
  - destruct (dispatch_replies fields st) as (frames & Hok & _);
      [congruence | exact Hw | rewrite H in Hok; discriminate Hok].
Qed.

(** C10: [_dispatch] is not total on the frames that are JSON objects.  A
    field that is missing or null never makes it raise: a frame without
    [method], [id], [params], [name] or [arguments], or with null there, is
    handled, and a [tools/call] without [params] is answered by the error
    -32602 for the unsupported tool [None].  But [initialize] and
    [tools/call] read [params] with [message.get("params") or {}] and then
    call [params.get]: a [params] that is truthy and no object (a non-empty
    array or string, a non-zero number, [true]) makes [_dispatch] raise
    [AttributeError] before anything is sent.  These are the only frames on
    which it raises, as long as the task is not cancelled while the webhook
    is called. *)
Theorem dispatch_total_but_for_params (fields : list (str * json)) (st : bridge_state) :
  (forall history body, webhook history body <> Raise CancelledError) ->
  let call := _dispatch isprintable webhook self (JObj fields) in
  let method := dict_get fields (u "method") JNull in
  let params := dict_get fields (u "params") JNull in
  let reads_params := method = JStr (u "initialize") \/ method = JStr (u "tools/call") in
  let unreadable := truthy params = true /\ forall p, params <> JObj p in
  (reads_params -> unreadable ->
   call st
   = (Raise (AttributeError
               (quote1 :: type_name params ++ quote1 :: u " object has no attribute 'get'")),
      st)
   /\ frames_sent call st = [])
  /\ (~ (reads_params /\ unreadable) -> fst (call st) = Ok tt)
  /\ (method = JStr (u "tools/call") ->
      truthy params = false ->
      frames_sent call st
      = [obj [("jsonrpc", JStr (u "2.0")); ("id", dict_get fields (u "id") JNull);
              ("error", obj [("code", JInt (-32602));
                             ("message", JStr (u "Unsupported tool 'None'"))])]%string]).
Proof.
  intros Hw call method params reads_params unreadable.
  subst call method params reads_params unreadable. cbv beta.
  repeat apply conj.
  - intros Hm [Ht Hp]. apply not_Mapping in Hp.
    pose proof (params_of_truthy fields Ht) as Hpo.
    pose proof (dispatch_unreadable_params fields st Hm) as H.
    rewrite Hpo in H. specialize (H Hp). split; [exact H|].
    unfold frames_sent. rewrite H. simpl.
    rewrite <- (app_nil_r (sent st)) at 2. apply skipn_length_app.
  - intros Hn. destruct (dispatch_replies fields st) as (frames & Hok & _); trivial.
    intros Ht. unfold takes_params in Ht. apply orb_true_iff in Ht.
    rewrite !eq_str_spec in Ht.
    destruct (truthy (dict_get fields (u "params") JNull)) eqn:Etruthy.
    + rewrite (params_of_truthy fields Etruthy).
      destruct (dict_get fields (u "params") JNull) as [| | | | | |p] eqn:Ep;
        try (exfalso; apply Hn; split; [exact Ht|]; split; [reflexivity|];
             intros p; discriminate).
      now exists p.
    + exists []. now apply params_of_falsy.
  - intros Hm Ht.
    pose proof (tools_call_unsupported fields [] st (params_of_falsy fields Ht) eq_refl) as H.
    rewrite <- (dispatch_tools_call _ st Hm) in H.
    exact (proj1 (proj2 (sends_only _ _ _ H))).
Qed.

End Dispatch.

(** *** The reconnect loop *)

Lemma py_min_le_r (a b : Q) : (py_min a b <= b)%Q.
Proof.
  unfold py_min. destruct (b ?= a)%Q eqn:E.
  - apply Qeq_alt in E. rewrite E. apply Qle_refl.
  - apply Qle_refl.
  - apply Qgt_alt in E. now apply Qlt_le_weak.
Qed.

Lemma py_min_spec (a b : Q) :
  ((a <= b)%Q -> py_min a b = a) /\ ((b < a)%Q -> py_min a b = b).
Proof.
  unfold py_min. split; intros H.
  - destruct (b ?= a)%Q eqn:E; trivial.
    apply Qlt_alt in E. exfalso. apply (Qlt_irrefl b). now apply Qlt_le_trans with a.
  - destruct (b ?= a)%Q eqn:E; trivial.
    + apply Qeq_alt in E. rewrite E in H. now apply Qlt_irrefl in H.
    + apply Qgt_alt in E. exfalso. apply (Qlt_irrefl a). now apply Qlt_trans with b.
Qed.

Lemma waits_app (a b : list run_event) : waits (a ++ b) = waits a ++ waits b.
Proof.
  induction a as [|[|q] a IH]; simpl; trivial. now rewrite IH.
Qed.

Lemma keeps_ret {A} (a : A) : keeps_stopping (ret a).
Proof. intros st H. exact H. Qed.

Lemma keeps_lift {A} (r : result A) : keeps_stopping (lift r).
Proof. intros st H. exact H. Qed.

Lemma keeps_send (frame : json) : keeps_stopping (_send_json frame).
Proof. intros st H. exact H. Qed.

Lemma keeps_stop : keeps_stopping stop.
Proof. intros st H. reflexivity. Qed.

Lemma keeps_bind {A B} (m : M A) (k : A -> M B) :
  keeps_stopping m -> (forall a, keeps_stopping (k a)) -> keeps_stopping (bind m k).
Proof.
  intros Hm Hk st H. unfold bind. specialize (Hm st H).
  destruct (m st) as [[a|e] st']; simpl in *; [now apply Hk | exact Hm].
Qed.

(** Takes a coroutine made of binds, branches and the steps above apart;
    [known] closes the calls that have a lemma of their own. *)
Ltac keeps_by known :=
  repeat first
    [ known | apply keeps_ret | apply keeps_lift | apply keeps_send | apply keeps_stop
    | apply keeps_bind; [|intros ?]
    | match goal with
      | |- keeps_stopping (if ?b then _ else _) => destruct b
      end ].

Section RunLoop.

Variable isprintable : N -> bool.
Variable webhook : list json -> json -> result Response.
Variable self : XiaozhiMCPBridge.

Lemma keeps_post (payload : json) : keeps_stopping (_post_to_webhook webhook self payload).
Proof.
  intros st H. unfold _post_to_webhook.
  destruct (_http_client st); simpl; trivial.
  destruct (webhook _ _) as [r|e]; simpl; trivial.
  destruct (raise_for_status r); simpl; trivial.
  destruct (json_error r); simpl; trivial.
  destruct (json_body r); simpl; trivial.
Qed.

Lemma keeps_tools_call (message : json) :
  keeps_stopping (_handle_tools_call isprintable webhook self message).
Proof.
  unfold _handle_tools_call. keeps_by fail.
  intros st H.
  match goal with
  | |- context [_post_to_webhook ?w ?s ?p st] => pose proof (keeps_post p st H) as Hp
  end.
  destruct (_post_to_webhook _ _ _ st) as [[d|e] st']; simpl in Hp.
  - exact Hp.
  - destruct e; simpl; exact Hp.
Qed.

Lemma keeps_dispatch (message : json) :
  keeps_stopping (_dispatch isprintable webhook self message).
Proof.
  unfold _dispatch, _handle_initialize, _handle_tools_list.
  keeps_by ltac:(apply keeps_tools_call).
Qed.

Lemma recv_loop_keeps (events : list ws_event) (st : bridge_state) :
  _stopping st = true ->
  _stopping (snd (recv_loop isprintable webhook self events st)) = true.
Proof.
  revert st. induction events as [|ev rest IH]; intros st H; simpl; trivial.
  destruct ev as [| |e| | |msg|message stop_called|]; simpl; trivial.
  - rewrite H. exact H.
  - rewrite H. exact H.
  - pose proof (keeps_dispatch message st H) as Hd.
    destruct (_dispatch _ _ _ message st) as [[[]|e] st']; simpl in *.
    + destruct stop_called; simpl.
      * reflexivity.
      * rewrite Hd. exact Hd.
    + destruct stop_called; trivial.
  - now apply IH.
Qed.

(** A session that waits in [ws.recv()] goes on from there with whatever
    comes next. *)
Lemma recv_loop_pending_app (pre post : list ws_event) (st st1 : bridge_state) :
  recv_loop isprintable webhook self pre st = (Pending, st1) ->
  recv_loop isprintable webhook self (pre ++ post) st
  = recv_loop isprintable webhook self post st1.
Proof.
  revert st. induction pre as [|ev pre IH]; intros st H.
  - simpl in H. injection H as <-. reflexivity.
  - simpl in *. destruct ev as [| |e| | |msg|message stop_called|]; try discriminate H.
    + destruct (_stopping st); [discriminate H | now apply IH].
    + destruct (_stopping st); [discriminate H | now apply IH].
    + destruct (_dispatch _ _ _ message st) as [[[]|e] st']; [|discriminate H].
      destruct (_stopping (if stop_called then set_stopping st' else st'));
        [discriminate H | now apply IH].
    + now apply IH.
Qed.

Lemma on_exception_bound (B : Q) (exc : exception) (backoff : Q) (sl : sleep_outcome)
    (st : bridge_state) :
  (backoff <= B)%Q -> (60 <= B)%Q ->
  Forall (fun q => (q <= B)%Q) (waits (snd (fst (on_exception exc backoff sl st))))
  /\ forall b', fst (fst (on_exception exc backoff sl st)) = Again b' -> (b' <= B)%Q.
Proof.
  intros Hb H60. unfold on_exception.
  destruct (is_Exception exc); [destruct sl|]; simpl; split;
    try (repeat constructor; assumption); try discriminate.
  intros b' H. injection H as <-.
  apply Qle_trans with 60%Q; [apply py_min_le_r | assumption].
Qed.

Lemma run_turn_bound (B : Q) (backoff : Q) (a : attempt) (st : bridge_state) :
  (backoff <= B)%Q -> (reconnect_delay self <= B)%Q -> (60 <= B)%Q ->
  Forall (fun q => (q <= B)%Q)
    (waits (snd (fst (run_turn isprintable webhook self backoff a st))))
  /\ forall b', fst (fst (run_turn isprintable webhook self backoff a st)) = Again b' ->
                (b' <= B)%Q.
Proof.
  intros Hb Hbase H60. unfold run_turn. destruct a as [sc e sl|sc events sl].
  - pose proof (on_exception_bound B e backoff sl (if sc then set_stopping st else st)
                  Hb H60) as [Hw Ha].
    destruct (on_exception e backoff sl _) as [[t evs] st']. simpl in *. now split.
  - destruct (_handle_session _ _ _ _ _) as [[|exc|] st'].
    + simpl. split; [constructor|]. intros b' H. now injection H as <-.
    + pose proof (on_exception_bound B exc (reconnect_delay self) sl st' Hbase H60)
        as [Hw Ha].
      destruct (on_exception exc _ sl st') as [[t evs] st'']. simpl in *. now split.
    + simpl. split; [constructor | discriminate].
Qed.

(** Every sleep of the loop is within [B] when the base delay, the ceiling
    and the backoff it starts with are. *)
Lemma run_loop_bound (B : Q) (attempts : list attempt) :
  (reconnect_delay self <= B)%Q -> (60 <= B)%Q ->
  forall backoff st, (backoff <= B)%Q ->
  Forall (fun q => (q <= B)%Q)
    (waits (trace_of (run_loop isprintable webhook self backoff attempts st))).
Proof.
  intros Hbase H60. induction attempts as [|a rest IH]; intros backoff st Hb; simpl.
  - destruct (_stopping st); constructor.
  - destruct (_stopping st); [constructor|].
    destruct (run_turn_bound B backoff a st Hb Hbase H60) as [Hw Ha].
    destruct (run_turn _ _ _ _ _ _) as [[[b'| |] evs] st']; simpl in *; trivial.
    specialize (IH b' st' (Ha b' eq_refl)).
    destruct (run_loop _ _ _ _ _ _) as [[p evs'] st'']. unfold trace_of in *. simpl in *.
    rewrite waits_app. apply Forall_app. now split.
Qed.

Lemma refused_at_ceiling (st : bridge_state) :
  run_turn isprintable webhook self 60 refused st = (Again 60, [Connect; Sleep 60], st).
Proof. reflexivity. Qed.

Lemma refused_forever (n : nat) (st : bridge_state) :
  _stopping st = false ->
  run_loop isprintable webhook self 60 (repeat refused n) st
  = (Pending, List.concat (repeat [Connect; Sleep 60] n), st).
Proof.
  intros H. induction n as [|n IH]; cbn [repeat run_loop List.concat]; rewrite H; trivial.
  rewrite refused_at_ceiling, IH. reflexivity.
Qed.

Lemma waits_refused_step (backoff : Q) (rest : list attempt) (st : bridge_state) :
  _stopping st = false ->
  waits (trace_of (run_loop isprintable webhook self backoff (refused :: rest) st))
  = backoff
    :: waits (trace_of (run_loop isprintable webhook self (py_min (backoff * 2) 60) rest st)).
Proof.
  intros H. cbn [run_loop]. rewrite H.
  change (run_turn isprintable webhook self backoff refused st)
    with (Again (py_min (backoff * 2) 60), [Connect; Sleep backoff], st).
  cbv beta iota.
  destruct (run_loop _ _ _ _ rest st) as [[p evs] st']. reflexivity.
Qed.

Lemma waits_refused (n : nat) :
  waits (List.concat (repeat [Connect; Sleep 60] n)) = repeat 60%Q n.
Proof. induction n as [|n IH]; simpl; [trivial | now rewrite IH]. Qed.

Lemma run_loop_stopped (backoff : Q) (attempts : list attempt) (st : bridge_state) :
  _stopping st = true ->
  run_loop isprintable webhook self backoff attempts st = (Returned, [], st).
Proof. intros H. destruct attempts; simpl; now rewrite H. Qed.

Lemma on_exception_escapes (exc : exception) (backoff : Q) (sl : sleep_outcome)
    (st : bridge_state) (e : exception) :
  fst (fst (on_exception exc backoff sl st)) = Escapes e -> e = CancelledError.
Proof.
  unfold on_exception. destruct exc; simpl; destruct sl; simpl; congruence.
Qed.

Lemma run_turn_escapes (backoff : Q) (a : attempt) (st : bridge_state) (e : exception) :
  fst (fst (run_turn isprintable webhook self backoff a st)) = Escapes e ->
  e = CancelledError.
Proof.
  unfold run_turn. destruct a as [sc exc sl|sc events sl].
  - pose proof (on_exception_escapes exc backoff sl (if sc then set_stopping st else st) e)
      as He.
    destruct (on_exception exc backoff sl _) as [[t evs0] st0]. exact He.
  - destruct (_handle_session _ _ _ _ _) as [[|exc|] st0]; try discriminate.
    pose proof (on_exception_escapes exc (reconnect_delay self) sl st0 e) as He.
    destruct (on_exception exc _ sl st0) as [[t evs0] st1]. exact He.
Qed.

Lemma run_loop_raises_cancellation (attempts : list attempt) :
  forall backoff st e,
    progress_of (run_loop isprintable webhook self backoff attempts st) = Raised e ->
    e = CancelledError.
Proof.
  induction attempts as [|a rest IH]; intros backoff st e; simpl.
  - destruct (_stopping st); discriminate.
  - destruct (_stopping st); [discriminate|].
    pose proof (run_turn_escapes backoff a st) as Ht.
    destruct (run_turn _ _ _ _ a st) as [[[b'|e'|] evs] st'].
    + specialize (IH b' st' e).
      destruct (run_loop _ _ _ _ rest st') as [[p evs'] st'']. exact IH.
    + unfold progress_of. simpl. intros H. injection H as <-. now apply Ht.
    + discriminate.
Qed.

(** Without a cancellation of its task [run] raises nothing. *)
Lemma recv_loop_raises_exception (events : list ws_event) :
  (forall history body, webhook history body <> Raise CancelledError) ->
  existsb cancels events = false ->
  forall st st' e,
    recv_loop isprintable webhook self events st = (Raised e, st') ->
    is_Exception e = true.
Proof.
  intros Hw. induction events as [|ev rest IH]; intros Hc st st' e H; [discriminate H|].
  simpl in Hc. apply orb_false_iff in Hc as [Hev Hrest]. cbn [recv_loop] in H.
  destruct ev as [| |e0| | |msg|message stop_called|]; try discriminate H.
  - injection H as <- _. simpl in Hev. now destruct (is_Exception e0).
  - destruct (_stopping st); [discriminate H | now apply (IH Hrest st st')].
  - destruct (_stopping st); [discriminate H | now apply (IH Hrest st st')].
  - injection H as <- _. reflexivity.
  - destruct (_dispatch isprintable webhook self message st) as [[[]|e1] st1] eqn:Hd.
    + destruct (_stopping (if stop_called then set_stopping st1 else st1));
        [discriminate H | exact (IH Hrest _ st' e H)].
    + injection H as <- _.
      now apply (dispatch_raises_exception isprintable webhook self message st st1).
  - now apply (IH Hrest (set_stopping st) st').
Qed.

Lemma run_turn_not_cancelled (backoff : Q) (a : attempt) (st : bridge_state) (e : exception) :
  (forall history body, webhook history body <> Raise CancelledError) ->
  cancelled_in a = false ->
  fst (fst (run_turn isprintable webhook self backoff a st)) <> Escapes e.
Proof.
  intros Hw Hc. unfold run_turn, on_exception. destruct a as [sc exc sl|sc events sl];
    simpl in Hc; apply orb_false_iff in Hc as [Hc Hsl].
  - apply negb_false_iff in Hc. rewrite Hc. destruct sl; [discriminate | discriminate Hsl].
  - unfold _handle_session.
    destruct (_stopping (if sc then set_stopping st else st)); [discriminate|].
    pose proof (recv_loop_raises_exception events Hw Hc (if sc then set_stopping st else st))
      as Hr.
    destruct (recv_loop _ _ _ events _) as [[|exc|] st0]; try discriminate.
    rewrite (Hr st0 exc eq_refl). destruct sl; [discriminate | discriminate Hsl].
Qed.

Lemma run_loop_not_cancelled (attempts : list attempt) :
  (forall history body, webhook history body <> Raise CancelledError) ->
  existsb cancelled_in attempts = false ->
  forall backoff st e,
    progress_of (run_loop isprintable webhook self backoff attempts st) <> Raised e.
Proof.
  intros Hw. induction attempts as [|a rest IH]; intros Hc backoff st e; cbn [run_loop].
  - destruct (_stopping st); discriminate.
  - simpl in Hc. apply orb_false_iff in Hc as [Ha Hrest].
    destruct (_stopping st); [discriminate|].
    pose proof (run_turn_not_cancelled backoff a st) as Ht.
    destruct (run_turn _ _ _ _ a st) as [[[b'|e'|] evs] st'].
    + specialize (IH Hrest b' st' e).
      destruct (run_loop _ _ _ _ rest st') as [[p evs'] st'']. exact IH.
    + exfalso. now apply (Ht e' Hw Ha).
    + discriminate.
Qed.

(** *** One turn of the loop *)

Lemma connects_app (a b : list run_event) : connects (a ++ b) = (connects a + connects b)%nat.
Proof. induction a as [|[|q] a IH]; simpl; trivial. now rewrite IH. Qed.

(** A turn is one connection attempt, with at most one sleep after it. *)
Lemma run_turn_is_turn (backoff : Q) (a : attempt) (st : bridge_state) :
  is_turn (snd (fst (run_turn isprintable webhook self backoff a st))).
Proof.
  unfold run_turn, on_exception, is_turn. destruct a as [sc exc sl|sc events sl].
  - destruct (is_Exception exc); [destruct sl|]; simpl; eauto.
  - destruct (_handle_session _ _ _ _ _) as [[|exc|] st0]; simpl; auto.
    destruct (is_Exception exc); [destruct sl|]; simpl; eauto.
Qed.

Lemma is_turn_counts (evs : list run_event) :
  is_turn evs -> connects evs = 1%nat /\ (List.length (waits evs) <= 1)%nat.
Proof. intros [->|(q & ->)]; simpl; auto. Qed.

Lemma run_turn_counts (backoff : Q) (a : attempt) (st : bridge_state) :
  connects (snd (fst (run_turn isprintable webhook self backoff a st))) = 1%nat
  /\ (List.length (waits (snd (fst (run_turn isprintable webhook self backoff a st))))
      <= 1)%nat.
Proof. apply is_turn_counts, run_turn_is_turn. Qed.

(** *** The stop flag *)

Lemma on_exception_keeps (exc : exception) (backoff : Q) (sl : sleep_outcome)
    (st : bridge_state) :
  _stopping st = true -> _stopping (snd (on_exception exc backoff sl st)) = true.
Proof.
  intros H. unfold on_exception.
  destruct (is_Exception exc); [destruct sl as [[|]|[|]]|]; simpl; trivial.
Qed.

Lemma handle_session_keeps (events : list ws_event) (st : bridge_state) :
  _stopping st = true ->
  _stopping (snd (_handle_session isprintable webhook self events st)) = true.
Proof. intros H. unfold _handle_session. now rewrite H. Qed.

(** Nothing a turn does clears the flag. *)
Lemma run_turn_keeps (backoff : Q) (a : attempt) (st : bridge_state) :
  _stopping st = true ->
  _stopping (snd (run_turn isprintable webhook self backoff a st)) = true.
Proof.
  intros H. unfold run_turn. destruct a as [sc exc sl|sc events sl].
  - assert (H0 : _stopping (if sc then set_stopping st else st) = true)
      by now destruct sc.
    pose proof (on_exception_keeps exc backoff sl _ H0) as Hk.
    destruct (on_exception exc backoff sl _) as [[t evs] st']. exact Hk.
  - assert (H0 : _stopping (if sc then set_stopping st else st) = true)
      by now destruct sc.
    pose proof (handle_session_keeps events _ H0) as Hk.
    destruct (_handle_session _ _ _ _ _) as [[|exc|] st']; simpl in *; trivial.
    pose proof (on_exception_keeps exc (reconnect_delay self) sl st' Hk) as Hk'.
    destruct (on_exception exc _ sl st') as [[t evs] st'']. exact Hk'.
Qed.

Lemma dispatch_shutdown (fields : list (str * json)) (st : bridge_state) :
  dict_get fields (u "method") JNull = JStr (u "shutdown") ->
  _dispatch isprintable webhook self (JObj fields) st
  = (Ok tt,
     set_stopping
       (snd (_send_json (result_frame (dict_get fields (u "id") JNull) (JObj [])) st))).
Proof. intros H. unfold _dispatch, bind, lift, py_get. rewrite H. reflexivity. Qed.

(** A [stop()] that comes while a frame is handled, or through [shutdown],
    is there when the frame has been handled, however that ends. *)
Lemma stop_in_frame (message : json) (stop_called : bool) (rest : list ws_event)
    (st : bridge_state) :
  stop_called || is_shutdown message = true ->
  _stopping (snd (recv_loop isprintable webhook self (Frame message stop_called :: rest) st))
  = true.
Proof.
  intros H. cbn [recv_loop]. destruct stop_called.
  - destruct (_dispatch _ _ _ message st) as [[[]|e] st']; reflexivity.
  - simpl in H. destruct message as [| | | | | |fields]; try discriminate H.
    apply eq_str_spec in H. rewrite (dispatch_shutdown fields st H). reflexivity.
Qed.

(** A [stop()] at any point of a session is there when the session ends,
    and while it still waits. *)
Lemma stop_in_session (pre post : list ws_event) (ev : ws_event) (st st1 : bridge_state) :
  recv_loop isprintable webhook self pre st = (Pending, st1) ->
  calls_stop ev = true ->
  _stopping (snd (recv_loop isprintable webhook self (pre ++ ev :: post) st)) = true.
Proof.
  intros Hpre Hev. rewrite (recv_loop_pending_app pre _ st st1 Hpre).
  destruct ev as [| |e| | |msg|message stop_called|]; try discriminate Hev.
  - now apply stop_in_frame.
  - cbn [recv_loop]. now apply recv_loop_keeps.
Qed.

(** Once a turn leaves the flag set, the loop makes no other attempt: it
    returns when the turn is over, unless the task was cancelled in it or the
    session still waits for a frame. *)
Lemma stopped_turn_is_last (backoff : Q) (a : attempt) (rest : list attempt)
    (st : bridge_state) :
  _stopping st = false ->
  _stopping (snd (run_turn isprintable webhook self backoff a st)) = true ->
  run_loop isprintable webhook self backoff (a :: rest) st
  = (match fst (fst (run_turn isprintable webhook self backoff a st)) with
     | Again _ => Returned
     | Escapes _ => Raised CancelledError
     | Waiting => Pending
     end,
     snd (fst (run_turn isprintable webhook self backoff a st)),
     snd (run_turn isprintable webhook self backoff a st)).
Proof.
  intros Hst Hflag. cbn [run_loop]. rewrite Hst.
  pose proof (run_turn_escapes backoff a st) as He.
  destruct (run_turn _ _ _ _ a st) as [[[b'|e|] evs] st']; simpl in *.
  - rewrite (run_loop_stopped b' rest st' Hflag). now rewrite app_nil_r.
  - now rewrite (He e eq_refl).
  - reflexivity.
Qed.

(** The loop never uses what comes after the flag is set. *)
Lemma run_loop_stopped_app (attempts rest : list attempt) :
  forall backoff st,
    _stopping (snd (run_loop isprintable webhook self backoff attempts st)) = true ->
    run_loop isprintable webhook self backoff (attempts ++ rest) st
    = run_loop isprintable webhook self backoff attempts st.
Proof.
  induction attempts as [|a attempts IH]; intros backoff st H.
  - assert (Hs : _stopping st = true).
    { cbn [run_loop] in H. destruct (_stopping st) eqn:E; [reflexivity|].
      simpl in H. congruence. }
    cbn [app]. now rewrite !run_loop_stopped.
  - cbn [app run_loop] in *. destruct (_stopping st); trivial.
    destruct (run_turn _ _ _ _ a st) as [[[b'|e|] evs] st']; trivial.
    specialize (IH b' st').
    destruct (run_loop _ _ _ _ attempts st') as [[p evs'] st''] eqn:E.
    simpl in H. rewrite (IH H). reflexivity.
Qed.

End RunLoop.

Section RunProperties.

Variable isprintable : N -> bool.
Variable webhook : list json -> json -> result Response.
Variable self : XiaozhiMCPBridge.

(** C6, as the code has it: the backoff starts at the base delay; a failed
    connection attempt sleeps [backoff] seconds and then sets [backoff] to
    twice its value, or to 60 when that is more; a connection that is made
    sets [backoff] back to the base delay at once, so that a session that
    fails sleeps the base delay.  Every sleep is at most the base delay or at
    most 60, and at most 60 whenever the base delay is.  With base delay 5
    and a server that keeps refusing, the sleeps are 5, 10, 20, 40 and then
    60 for ever. *)
Theorem backoff_schedule (attempts : list attempt) (st : bridge_state) :
  (forall backoff connect_stop e stop_called st0,
      is_Exception e = true ->
      run_turn isprintable webhook self backoff
        (ConnectFails connect_stop e (Slept stop_called)) st0
      = (Again (py_min (backoff * 2) 60), [Connect; Sleep backoff],
         if connect_stop || stop_called then set_stopping st0 else st0))
  /\ (forall backoff,
      ((backoff * 2 <= 60)%Q -> py_min (backoff * 2) 60 = (backoff * 2)%Q)
      /\ ((60 < backoff * 2)%Q -> py_min (backoff * 2) 60 = 60%Q))
  /\ (forall backoff stop_called events sl st0,
      run_turn isprintable webhook self backoff (Connected stop_called events sl) st0
      = run_turn isprintable webhook self (reconnect_delay self)
          (Connected stop_called events sl) st0)
  /\ (forall backoff events stop_called st0 st1 exc,
      _handle_session isprintable webhook self events st0 = (Raised exc, st1) ->
      is_Exception exc = true ->
      run_turn isprintable webhook self backoff (Connected false events (Slept stop_called))
        st0
      = (Again (py_min (reconnect_delay self * 2) 60),
         [Connect; Sleep (reconnect_delay self)],
         if stop_called then set_stopping st1 else st1))
  /\ (forall connect_stop e stop_called rest,
      is_Exception e = true -> _stopping st = false ->
      firstn 2 (trace_of (run isprintable webhook self
                            (ConnectFails connect_stop e (Slept stop_called) :: rest) st))
      = [Connect; Sleep (reconnect_delay self)])
  /\ Forall (fun q => (q <= reconnect_delay self)%Q \/ (q <= 60)%Q)
       (waits (trace_of (run isprintable webhook self attempts st)))
  /\ ((reconnect_delay self <= 60)%Q ->
      Forall (fun q => (q <= 60)%Q)
        (waits (trace_of (run isprintable webhook self attempts st))))
  /\ (forall n,
      waits (trace_of (run isprintable webhook (gmail_bridge 5)
                         (repeat refused (4 + n)) running))
      = [5; 10; 20; 40]%Q ++ repeat 60%Q n).
Proof.
  repeat apply conj.
  - intros backoff connect_stop e stop_called st0 He. unfold run_turn, on_exception.
    rewrite He. now destruct connect_stop, stop_called.
  - intros backoff. apply py_min_spec.
  - reflexivity.
  - intros backoff events stop_called st0 st1 exc Hs He.
    unfold run_turn, on_exception. rewrite Hs, He. reflexivity.
  - intros connect_stop e stop_called rest He Hst. unfold run, trace_of.
    cbn [run_loop _stopping].
    rewrite Hst. unfold run_turn, on_exception. rewrite He.
    destruct (run_loop _ _ _ _ _ _) as [[p evs] st']. reflexivity.
  - destruct (Qlt_le_dec 60 (reconnect_delay self)) as [H|H].
    + eapply Forall_impl; [|apply (run_loop_bound isprintable webhook self (reconnect_delay self))].
      * intros q Hq. now left.
      * apply Qle_refl.
      * now apply Qlt_le_weak.
      * apply Qle_refl.
    + eapply Forall_impl; [|apply (run_loop_bound isprintable webhook self 60)].
      * intros q Hq. now right.
      * exact H.
      * apply Qle_refl.
      * exact H.
  - intros H. apply (run_loop_bound isprintable webhook self 60); trivial. apply Qle_refl.
  - intros n. unfold run. change (4 + n)%nat with (S (S (S (S n)))). cbn [repeat].
    change {| _stopping := _stopping running; _http_client := true;
              sent := sent running; posted := posted running |} with running.
    rewrite (waits_refused_step isprintable webhook (gmail_bridge 5) _ _ running eq_refl).
    change (py_min (reconnect_delay (gmail_bridge 5) * 2) 60) with 10%Q.
    rewrite (waits_refused_step isprintable webhook (gmail_bridge 5) _ _ running eq_refl).
    change (py_min (10 * 2) 60) with 20%Q.
    rewrite (waits_refused_step isprintable webhook (gmail_bridge 5) _ _ running eq_refl).
    change (py_min (20 * 2) 60) with 40%Q.
    rewrite (waits_refused_step isprintable webhook (gmail_bridge 5) _ _ running eq_refl).
    change (py_min (40 * 2) 60) with 60%Q.
    rewrite (refused_forever isprintable webhook (gmail_bridge 5) n running eq_refl).
    unfold trace_of. cbn [fst snd]. now rewrite waits_refused.
Qed.

(** A turn that leaves the stop flag set is the last one. *)
Lemma stopped_turn_ends_loop (backoff : Q) (a : attempt) (rest : list attempt)
    (st : bridge_state) :
  _stopping st = false ->
  _stopping (snd (run_turn isprintable webhook self backoff a st)) = true ->
  connects (trace_of (run_loop isprintable webhook self backoff (a :: rest) st)) = 1%nat
  /\ _stopping (snd (run_loop isprintable webhook self backoff (a :: rest) st)) = true
  /\ progress_of (run_loop isprintable webhook self backoff (a :: rest) st)
     = match fst (fst (run_turn isprintable webhook self backoff a st)) with
       | Again _ => Returned
       | Escapes _ => Raised CancelledError
       | Waiting => Pending
       end.
Proof.
  intros Hs Hf. rewrite (stopped_turn_is_last isprintable webhook self backoff a rest st Hs Hf).
  unfold trace_of, progress_of. cbn [fst snd].
  split; [apply run_turn_counts|]. split; [exact Hf | reflexivity].
Qed.

Lemma stop_in_turn (backoff : Q) (pre post : list ws_event) (ev : ws_event)
    (sl : sleep_outcome) (st st1 : bridge_state) :
  _stopping st = false ->
  recv_loop isprintable webhook self pre st = (Pending, st1) ->
  calls_stop ev = true ->
  _stopping (snd (run_turn isprintable webhook self backoff
                    (Connected false (pre ++ ev :: post) sl) st)) = true.
Proof.
  intros Hs Hpre Hev.
  pose proof (stop_in_session isprintable webhook self pre post ev st st1 Hpre Hev) as H.
  unfold run_turn, _handle_session. rewrite Hs.
  destruct (recv_loop isprintable webhook self (pre ++ ev :: post) st) as [[|exc|] st'];
    simpl in *; trivial.
  pose proof (on_exception_keeps exc (reconnect_delay self) sl st' H) as Hk.
  destruct (on_exception exc _ sl st') as [[t evs] st'']. exact Hk.
Qed.

(** C7: [stop()] only sets a flag: it never fails, and calling it twice is
    calling it once.  [run] looks at the flag at the head of its loop, and
    nothing the bridge does clears it.  So whenever [stop()] is called,
    before [run] or at any of the places where [run] waits (while it
    connects, while the session waits for a frame, while a frame is handled
    and its webhook called, while it sleeps after a failure) or by the bridge
    itself for a [shutdown] frame, the connection attempt of the turn in
    progress is the last one: no later attempt is made, whatever the server
    and the webhook do next, and [run] returns when that turn is over.  It
    has not returned yet only as long as the session still waits for a frame
    ([stop()] does not interrupt [ws.recv()]).  [run] raises nothing as long
    as its task is not cancelled, and the cancellation when it is. *)
Theorem stop_ends_run (backoff : Q) (st : bridge_state) :
  let last_turn a :=
    forall rest,
      connects (trace_of (run_loop isprintable webhook self backoff (a :: rest) st))
      = 1%nat
      /\ _stopping (snd (run_loop isprintable webhook self backoff (a :: rest) st)) = true
      /\ progress_of (run_loop isprintable webhook self backoff (a :: rest) st)
         = match fst (fst (run_turn isprintable webhook self backoff a st)) with
           | Again _ => Returned
           | Escapes _ => Raised CancelledError
           | Waiting => Pending
           end in
  (stop st = (Ok tt, set_stopping st)
   /\ _stopping (set_stopping st) = true
   /\ set_stopping (set_stopping st) = set_stopping st)
  /\ (forall attempts,
      _stopping st = true ->
      run_loop isprintable webhook self backoff attempts st = (Returned, [], st))
  /\ (_stopping st = false ->
      (forall events sl rest,
          run_loop isprintable webhook self backoff (Connected true events sl :: rest) st
          = (Returned, [Connect], set_stopping st))
      /\ (forall e sl, last_turn (ConnectFails true e sl))
      /\ (forall pre ev post sl st1,
          recv_loop isprintable webhook self pre st = (Pending, st1) ->
          ev = StopCalled
          \/ (exists message, ev = Frame message true)
          \/ (exists fields stop_called,
                ev = Frame (JObj fields) stop_called
                /\ dict_get fields (u "method") JNull = JStr (u "shutdown")) ->
          last_turn (Connected false (pre ++ ev :: post) sl))
      /\ (forall connect_stop e rest,
          is_Exception e = true ->
          run_loop isprintable webhook self backoff
            (ConnectFails connect_stop e (Slept true) :: rest) st
          = (Returned, [Connect; Sleep backoff], set_stopping st)
          /\ run_loop isprintable webhook self backoff
               (ConnectFails connect_stop e (SleepCancelled true) :: rest) st
             = (Raised CancelledError, [Connect; Sleep backoff], set_stopping st))
      /\ (forall events exc st1 rest,
          _handle_session isprintable webhook self events st = (Raised exc, st1) ->
          is_Exception exc = true ->
          run_loop isprintable webhook self backoff
            (Connected false events (Slept true) :: rest) st
          = (Returned, [Connect; Sleep (reconnect_delay self)], set_stopping st1))
      /\ (forall a,
          _stopping (snd (run_turn isprintable webhook self backoff a st)) = true ->
          last_turn a))
  /\ (forall attempts rest,
      _stopping (snd (run isprintable webhook self attempts st)) = true ->
      run isprintable webhook self (attempts ++ rest) st
      = run isprintable webhook self attempts st)
  /\ (_stopping st = true ->
      (forall message,
          _stopping (snd (_dispatch isprintable webhook self message st)) = true)
      /\ (forall events,
          _stopping (snd (recv_loop isprintable webhook self events st)) = true)
      /\ (forall a,
          _stopping (snd (run_turn isprintable webhook self backoff a st)) = true))
  /\ (forall pre post st1,
      recv_loop isprintable webhook self pre st = (Pending, st1) ->
      recv_loop isprintable webhook self (pre ++ StopCalled :: post) st
      = recv_loop isprintable webhook self post (set_stopping st1))
  /\ (forall pre post message st1 st2,
      recv_loop isprintable webhook self pre st = (Pending, st1) ->
      (_dispatch isprintable webhook self message st1 = (Ok tt, st2) ->
       recv_loop isprintable webhook self (pre ++ Frame message true :: post) st
       = (Returned, set_stopping st2))
      /\ (forall e,
          _dispatch isprintable webhook self message st1 = (Raise e, st2) ->
          recv_loop isprintable webhook self (pre ++ Frame message true :: post) st
          = (Raised e, set_stopping st2)))
  /\ (forall fields post,
      dict_get fields (u "method") JNull = JStr (u "shutdown") ->
      recv_loop isprintable webhook self (Frame (JObj fields) false :: post) st
      = (Returned,
         set_stopping
           (snd (_send_json (result_frame (dict_get fields (u "id") JNull) (JObj [])) st))))
  /\ (forall attempts e,
      progress_of (run isprintable webhook self attempts st) = Raised e ->
      e = CancelledError)
  /\ (forall attempts e,
      (forall history body, webhook history body <> Raise CancelledError) ->
      existsb cancelled_in attempts = false ->
      progress_of (run isprintable webhook self attempts st) <> Raised e).
Proof.
  intros last_turn. subst last_turn. cbv beta.
  repeat apply conj; try reflexivity.
  - intros attempts H. now apply run_loop_stopped.
  - intros Hs. repeat apply conj.
    + intros events sl rest. cbn [run_loop]. rewrite Hs.
      unfold run_turn, _handle_session. cbn [_stopping set_stopping stop snd].
      now rewrite run_loop_stopped.
    + intros e sl rest. apply stopped_turn_ends_loop; [exact Hs|].
      unfold run_turn.
      pose proof (on_exception_keeps e backoff sl (set_stopping st) eq_refl) as Hk.
      destruct (on_exception e backoff sl _) as [[t evs] st']. exact Hk.
    + intros pre ev post sl st1 Hpre Hev rest.
      apply stopped_turn_ends_loop; [exact Hs|].
      apply stop_in_turn with (st1 := st1); [exact Hs | exact Hpre |].
      destruct Hev as [->|[(message & ->)|(fields & stop_called & -> & Hm)]];
        [reflexivity | reflexivity |].
      simpl. apply eq_str_spec in Hm. rewrite Hm. apply orb_true_r.
    + intros connect_stop e rest He. cbn [run_loop]. rewrite Hs.
      unfold run_turn, on_exception. rewrite He. split.
      * rewrite run_loop_stopped; [|now destruct connect_stop].
        now destruct connect_stop.
      * now destruct connect_stop.
    + intros events exc st1 rest Hsess He. cbn [run_loop]. rewrite Hs.
      unfold run_turn, on_exception. rewrite Hsess, He.
      now rewrite run_loop_stopped.
    + intros a Hf rest. now apply stopped_turn_ends_loop.
  - intros attempts rest. unfold run. apply run_loop_stopped_app.
  - intros H. repeat apply conj.
    + intros message. now apply keeps_dispatch.
    + intros events. now apply recv_loop_keeps.
    + intros a. now apply run_turn_keeps.
  - intros pre post st1 H.
    rewrite (recv_loop_pending_app isprintable webhook self pre _ st st1 H). reflexivity.
  - intros pre post message st1 st2 H. split.
    + intros Hd. rewrite (recv_loop_pending_app isprintable webhook self pre _ st st1 H).
      simpl. rewrite Hd. reflexivity.
    + intros e Hd. rewrite (recv_loop_pending_app isprintable webhook self pre _ st st1 H).
      simpl. rewrite Hd. reflexivity.
  - intros fields post Hm. simpl. rewrite (dispatch_shutdown isprintable webhook self _ st Hm).
    reflexivity.
  - intros attempts e. unfold run. apply run_loop_raises_cancellation.
  - intros attempts e Hw Hc. unfold run. now apply run_loop_not_cancelled.
Qed.

End RunProperties.

(** *** The theorems on a bridge that runs *)

Lemma unrecognized_method_witness :
  frames_sent
    (_dispatch ascii_only (unreachable []) (gmail_bridge 5)
       (request (JInt 3) "resources/list" JNull)) running
  = [obj [("jsonrpc", JStr (u "2.0")); ("id", JInt 3);
          ("error",
           obj [("code", JInt (-32601));
                ("message",
                 JStr (u "Method 'resources/list' not implemented by gmail bridge"))])]%string]
  /\ frames_sent
       (_dispatch ascii_only (unreachable []) (gmail_bridge 5)
          (request JNull "resources/list" JNull)) running
     = [].
Proof.
  split.
  - refine (proj1 (proj2 (proj1 (unrecognized_method ascii_only (unreachable [])
                                   (gmail_bridge 5)
                                   (keyed (request_fields (JInt 3) "resources/list" JNull))
                                   running (proj1 (recognized_spec (JStr (u "resources/list"))) eq_refl)) _))).
    discriminate.
  - exact (proj1 (proj2 (proj2 (unrecognized_method ascii_only (unreachable [])
                                  (gmail_bridge 5)
                                  (keyed (request_fields JNull "resources/list" JNull))
                                  running (proj1 (recognized_spec (JStr (u "resources/list"))) eq_refl)) eq_refl))).
Defined.

Lemma tools_call_validation_order_witness :
  frames_sent
    (_dispatch ascii_only mailer (gmail_bridge 5)
       (request (JInt 1) "tools/call"
          (obj [("name", JStr (u "calendar")); ("arguments", JInt 0)]%string))) running
  = [obj [("jsonrpc", JStr (u "2.0")); ("id", JInt 1);
          ("error", obj [("code", JInt (-32602));
                         ("message", JStr (u "Unsupported tool 'calendar'"))])]%string]
  /\ frames_sent
       (_dispatch ascii_only mailer (gmail_bridge 5)
          (request (JInt 2) "tools/call"
             (obj [("name", JStr (u "gmail_action")); ("arguments", JArr [])]%string)))
       running
     = [obj [("jsonrpc", JStr (u "2.0")); ("id", JInt 2);
             ("error", obj [("code", JInt (-32602));
                            ("message", JStr (u "Tool arguments must be an object"))])]%string]
  /\ frames_sent
       (_dispatch ascii_only mailer (gmail_bridge 5)
          (request (JInt 3) "tools/call"
             (obj [("name", JStr (u "gmail_action"));
                   ("arguments", obj [("action", JStr (u "  "))])]%string))) running
     = [obj [("jsonrpc", JStr (u "2.0")); ("id", JInt 3);
             ("error",
              obj [("code", JInt (-32602));
                   ("message",
                    JStr (u "Tool arguments must include non-empty 'action'"))])]%string]
  /\ bodies_posted
       (_dispatch ascii_only mailer (gmail_bridge 5)
          (request (JInt 4) "tools/call"
             (obj [("name", JStr (u "gmail_action"));
                   ("arguments", obj [("action", JStr (u "send_email"));
                                      ("payload", JStr (u "x"))])]%string))) running
     = [obj [("action", JStr (u "send_email")); ("payload", JNull); ("call_id", JNull);
             ("tool", JStr (u "gmail_action"));
             ("arguments", obj [("action", JStr (u "send_email"));
                                ("payload", JStr (u "x"))])]%string].
Proof.
  repeat apply conj.
  - refine (proj1 (proj2 (proj1 (tools_call_validation_order ascii_only mailer
             (gmail_bridge 5)
             (keyed (request_fields (JInt 1) "tools/call"
                       (obj [("name", JStr (u "calendar")); ("arguments", JInt 0)]%string)))
             (keyed [("name", JStr (u "calendar")); ("arguments", JInt 0)]%string)
             running eq_refl eq_refl) _))).
    discriminate.
  - refine (proj1 (proj2 (proj1 (proj2 (tools_call_validation_order ascii_only mailer
             (gmail_bridge 5)
             (keyed (request_fields (JInt 2) "tools/call"
                       (obj [("name", JStr (u "gmail_action"));
                             ("arguments", JArr [])]%string)))
             (keyed [("name", JStr (u "gmail_action")); ("arguments", JArr [])]%string)
             running eq_refl eq_refl)) eq_refl _))).
    discriminate.
  - refine (proj1 (proj2 (proj1 (proj2 (proj2 (tools_call_validation_order ascii_only
             mailer (gmail_bridge 5)
             (keyed (request_fields (JInt 3) "tools/call"
                       (obj [("name", JStr (u "gmail_action"));
                             ("arguments", obj [("action", JStr (u "  "))])]%string)))
             (keyed [("name", JStr (u "gmail_action"));
                     ("arguments", obj [("action", JStr (u "  "))])]%string)
             running eq_refl eq_refl)))
             (keyed [("action", JStr (u "  "))]%string) eq_refl eq_refl _))).
    intros action H. injection H as <-. reflexivity.
  - refine (proj1 (proj2 (proj2 (proj2 (tools_call_validation_order ascii_only mailer
             (gmail_bridge 5)
             (keyed (request_fields (JInt 4) "tools/call"
                       (obj [("name", JStr (u "gmail_action"));
                             ("arguments", obj [("action", JStr (u "send_email"));
                                                ("payload", JStr (u "x"))])]%string)))
             (keyed [("name", JStr (u "gmail_action"));
                     ("arguments", obj [("action", JStr (u "send_email"));
                                        ("payload", JStr (u "x"))])]%string)
             running eq_refl eq_refl)))
             (keyed [("action", JStr (u "send_email")); ("payload", JStr (u "x"))]%string)
             (u "send_email") eq_refl eq_refl eq_refl _ eq_refl) _).
    + discriminate.
    + discriminate.
Defined.

Lemma send_email_is_valid (message_id : json) (more : list (string * json)) :
  valid_call (gmail_bridge 5)
    (keyed (request_fields message_id "tools/call" (obj (send_email more))))
    (keyed (send_email more))
    (keyed [("action", JStr (u "send_email"))]%string).
Proof. repeat split. Qed.

Lemma webhook_failure_replies_witness :
  frames_sent
    (_dispatch ascii_only (answers boom) (gmail_bridge 5)
       (request (JInt 1) "tools/call" (obj (send_email [])))) running
  = [obj [("jsonrpc", JStr (u "2.0")); ("id", JInt 1);
          ("error", obj [("code", JInt (-32010));
                         ("message",
                          JStr (u "Gmail webhook returned HTTP 500: boom"))])]%string]
  /\ frames_sent
       (_dispatch ascii_only (answers long_error) (gmail_bridge 5)
          (request (JInt 5) "tools/call" (obj (send_email [])))) running
     = [obj [("jsonrpc", JStr (u "2.0")); ("id", JInt 5);
             ("error",
              obj [("code", JInt (-32010));
                   ("message",
                    JStr (u "Gmail webhook returned HTTP 502: " ++ repeat 120%N 2000)%list)])]%string]
  /\ frames_sent
       (_dispatch ascii_only (unreachable (u "All connection attempts failed"))
          (gmail_bridge 5)
          (request (JInt 2) "tools/call" (obj (send_email [])))) running
     = [obj [("jsonrpc", JStr (u "2.0")); ("id", JInt 2);
             ("error",
              obj [("code", JInt (-32001));
                   ("message",
                    JStr (u "Gmail agent error: All connection attempts failed"))])]%string]
  /\ frames_sent
       (_dispatch ascii_only mailer (gmail_bridge 5)
          (request (JInt 3) "tools/call" (obj (send_email []))))
       clientless
     = [obj [("jsonrpc", JStr (u "2.0")); ("id", JInt 3);
             ("error",
              obj [("code", JInt (-32001));
                   ("message",
                    JStr (u "Gmail agent error: HTTP client is not initialised"))])]%string]
  /\ frames_sent
       (_dispatch ascii_only (answers garbled) (gmail_bridge 5)
          (request (JInt 4) "tools/call" (obj (send_email [])))) running
     = [obj [("jsonrpc", JStr (u "2.0")); ("id", JInt 4);
             ("error",
              obj [("code", JInt (-32001));
                   ("message",
                    JStr (u "Gmail agent error: 'utf-8' codec can't decode byte 0xff in position 0: invalid start byte"))])]%string].
Proof.
  repeat apply conj.
  - exact (proj2 (proj1 (proj1 (webhook_failure_replies ascii_only (answers boom)
             (gmail_bridge 5)
             (keyed (request_fields (JInt 1) "tools/call" (obj (send_email []))))
             (keyed (send_email [])) (keyed [("action", JStr (u "send_email"))]%string)
             running eq_refl (send_email_is_valid (JInt 1) []))
             boom _ eq_refl eq_refl eq_refl))).
  - exact (proj2 (proj1 (proj1 (webhook_failure_replies ascii_only (answers long_error)
             (gmail_bridge 5)
             (keyed (request_fields (JInt 5) "tools/call" (obj (send_email []))))
             (keyed (send_email [])) (keyed [("action", JStr (u "send_email"))]%string)
             running eq_refl (send_email_is_valid (JInt 5) []))
             long_error _ eq_refl eq_refl eq_refl))).
  - refine (proj2 (proj1 (proj1 (proj2 (proj2 (webhook_failure_replies ascii_only
             (unreachable (u "All connection attempts failed")) (gmail_bridge 5)
             (keyed (request_fields (JInt 2) "tools/call" (obj (send_email []))))
             (keyed (send_email [])) (keyed [("action", JStr (u "send_email"))]%string)
             running eq_refl (send_email_is_valid (JInt 2) []))))
             _ eq_refl eq_refl eq_refl _))).
    intros m r H. discriminate H.
  - exact (proj2 (proj1 (proj2 (proj2 (proj2 (proj2 (webhook_failure_replies ascii_only
             mailer (gmail_bridge 5)
             (keyed (request_fields (JInt 3) "tools/call" (obj (send_email []))))
             (keyed (send_email [])) (keyed [("action", JStr (u "send_email"))]%string)
             clientless eq_refl (send_email_is_valid (JInt 3) []))))) eq_refl))).
  - exact (proj2 (proj1 (proj1 (proj2 (proj2 (proj2 (webhook_failure_replies ascii_only
             (answers garbled) (gmail_bridge 5)
             (keyed (request_fields (JInt 4) "tools/call" (obj (send_email []))))
             (keyed (send_email [])) (keyed [("action", JStr (u "send_email"))]%string)
             running eq_refl (send_email_is_valid (JInt 4) [])))))
             garbled _ eq_refl eq_refl eq_refl eq_refl))).
Defined.

Lemma dispatch_total_but_for_params_witness :
  _dispatch ascii_only mailer (gmail_bridge 5)
    (request (JInt 7) "tools/call"
       (JArr [JStr (u "gmail_action"); obj [("action", JStr (u "send_email"))]%string]))
    running
  = (Raise (AttributeError (u "'list' object has no attribute 'get'")), running)
  /\ fst (_dispatch ascii_only mailer (gmail_bridge 5) (JObj []) running) = Ok tt
  /\ frames_sent
       (_dispatch ascii_only mailer (gmail_bridge 5)
          (obj [("id", JInt 9); ("method", JStr (u "tools/call"))]%string)) running
     = [obj [("jsonrpc", JStr (u "2.0")); ("id", JInt 9);
             ("error", obj [("code", JInt (-32602));
                            ("message", JStr (u "Unsupported tool 'None'"))])]%string]
  /\ frames_sent
       (_dispatch ascii_only mailer (gmail_bridge 5)
          (request (JInt 9) "tools/call" JNull)) running
     = [obj [("jsonrpc", JStr (u "2.0")); ("id", JInt 9);
             ("error", obj [("code", JInt (-32602));
                            ("message", JStr (u "Unsupported tool 'None'"))])]%string].
Proof.
  assert (Hw : forall history body, mailer history body <> Raise CancelledError)
    by (intros history body H; discriminate H).
  repeat apply conj.
  - refine (proj1 (proj1 (dispatch_total_but_for_params ascii_only mailer (gmail_bridge 5)
             (keyed (request_fields (JInt 7) "tools/call"
                       (JArr [JStr (u "gmail_action");
                              obj [("action", JStr (u "send_email"))]%string])))
             running Hw) (or_intror eq_refl) (conj eq_refl _))).
    discriminate.
  - refine (proj1 (proj2 (dispatch_total_but_for_params ascii_only mailer (gmail_bridge 5) []
                            running Hw)) _).
    intros [[H|H] _]; discriminate H.
  - exact (proj2 (proj2 (dispatch_total_but_for_params ascii_only mailer (gmail_bridge 5)
                    (keyed [("id", JInt 9); ("method", JStr (u "tools/call"))]%string)
                    running Hw)) eq_refl eq_refl).
  - exact (proj2 (proj2 (dispatch_total_but_for_params ascii_only mailer (gmail_bridge 5)
                    (keyed (request_fields (JInt 9) "tools/call" JNull))
                    running Hw)) eq_refl eq_refl).
Defined.

(** C1: every request with an [id] is owed exactly one frame, and the code
    gives it whenever it can read [params] ([readable_request_answered_once]).
    It cannot when [params] is an array, which JSON-RPC allows: [params.get]
    raises [AttributeError] in [_handle_tools_call] and in
    [_handle_initialize], nothing is sent, and the exception ends the session:
    the [ping] that follows on the same connection is never answered, and
    [run] sleeps before it connects again. *)
Theorem array_params_get_no_reply :
  _dispatch ascii_only mailer (gmail_bridge 5)
    (request (JInt 7) "tools/call" (JArr [JInt 1])) running
  = (Raise (AttributeError (u "'list' object has no attribute 'get'")), running)
  /\ frames_sent
       (_dispatch ascii_only mailer (gmail_bridge 5)
          (request (JInt 7) "tools/call" (JArr [JInt 1]))) running = []
  /\ _dispatch ascii_only mailer (gmail_bridge 5)
       (request (JInt 7) "initialize" (JArr [JInt 1])) running
     = (Raise (AttributeError (u "'list' object has no attribute 'get'")), running)
  /\ run ascii_only mailer (gmail_bridge 5)
       [Connected false
          [Frame (request (JInt 7) "tools/call" (JArr [JInt 1])) false;
           Frame (request (JInt 8) "ping" JNull) false]
          (Slept false)]
       clientless
     = (Pending, [Connect; Sleep 5], running).
Proof. repeat apply conj; reflexivity. Qed.

(** C8 as the spec words it fails on a [callId] that is supplied and falsy:
    a call with [callId] 0 is posted to the webhook with [call_id] 0 and
    answered by a result with no [callId]. *)
Lemma call_id_zero_counterexample :
  dict_has (keyed (send_email [("callId", JInt 0)]%string)) (u "callId") = true
  /\ bodies_posted
       (_dispatch ascii_only mailer (gmail_bridge 5)
          (request (JInt 1) "tools/call" (obj (send_email [("callId", JInt 0)]%string))))
       running
     = [webhook_body (JStr (u "send_email")) JNull (JInt 0) (JStr (u "gmail_action"))
          (obj [("action", JStr (u "send_email"))]%string)]
  /\ frames_sent
       (_dispatch ascii_only mailer (gmail_bridge 5)
          (request (JInt 1) "tools/call" (obj (send_email [("callId", JInt 0)]%string))))
       running
     = [result_frame (JInt 1) (call_result (u "sent") None)].
Proof. repeat apply conj; reflexivity. Qed.

Lemma call_id_pass_through_witness :
  frames_sent
    (_dispatch ascii_only mailer (gmail_bridge 5)
       (request (JInt 1) "tools/call"
          (obj (send_email [("callId", JStr (u "call-7"))]%string))))
    running
  = [result_frame (JInt 1) (call_result (u "sent") (Some (JStr (u "call-7"))))]
  /\ frames_sent
       (_dispatch ascii_only mailer (gmail_bridge 5)
          (request (JInt 2) "tools/call" (obj (send_email []))))
       running
     = [result_frame (JInt 2) (call_result (u "sent") None)].
Proof.
  split.
  - exact (proj1 (call_id_pass_through ascii_only mailer (gmail_bridge 5)
             (keyed (request_fields (JInt 1) "tools/call"
                       (obj (send_email [("callId", JStr (u "call-7"))]%string))))
             (keyed (send_email [("callId", JStr (u "call-7"))]%string))
             (keyed [("action", JStr (u "send_email"))]%string)
             running (ok_response (obj [("message", JStr (u "sent"))]%string))
             eq_refl (send_email_is_valid (JInt 1) _) eq_refl eq_refl eq_refl eq_refl)
             eq_refl).
  - exact (proj1 (proj2 (call_id_pass_through ascii_only mailer (gmail_bridge 5)
             (keyed (request_fields (JInt 2) "tools/call" (obj (send_email []))))
             (keyed (send_email []))
             (keyed [("action", JStr (u "send_email"))]%string)
             running (ok_response (obj [("message", JStr (u "sent"))]%string))
             eq_refl (send_email_is_valid (JInt 2) _) eq_refl eq_refl eq_refl eq_refl))
             eq_refl).
Defined.


(** C4 as the spec words it fails on a [message] that is not empty but is
    all whitespace: it is a non-empty string, and the text is the serialized
    object, not the message. *)
Lemma blank_message_counterexample :
  dict_get (keyed [("message", JStr (u " "))]%string) (u "message") JNull = JStr (u " ")
  /\ u " " <> []
  /\ _format_webhook_response ascii_only (obj [("message", JStr (u " "))]%string)
     = json_dumps (obj [("message", JStr (u " "))]%string)
  /\ _format_webhook_response ascii_only (obj [("message", JStr (u " "))]%string)
     <> u " ".
Proof.
  repeat apply conj; try reflexivity; intros H; vm_compute in H; discriminate H.
Qed.

Lemma object_response_text_witness :
  _format_webhook_response ascii_only (obj [("message", JStr (u " hi "))]%string)
  = u " hi "
  /\ _format_webhook_response ascii_only (obj [("message", JStr (u "   "))]%string)
     = json_dumps (obj [("message", JStr (u "   "))]%string)
  /\ _format_webhook_response ascii_only (obj [("message", JInt 3)]%string)
     = json_dumps (obj [("message", JInt 3)]%string).
Proof.
  repeat apply conj.
  - exact (proj1 (object_response_text ascii_only
                    (keyed [("message", JStr (u " hi "))]%string))
             (u " hi ") eq_refl eq_refl).
  - exact (proj1 (proj2 (object_response_text ascii_only
                           (keyed [("message", JStr (u "   "))]%string)))
             (u "   ") eq_refl eq_refl).
  - exact (proj1 (proj2 (proj2 (object_response_text ascii_only
                                  (keyed [("message", JInt 3)]%string))))
             eq_refl).
Defined.

(** C5 as the spec words it fails on an [output] with whitespace at an end:
    the text is not that field but what trimming leaves of it. *)
Lemma padded_output_counterexample :
  dict_get (keyed [("output", JStr (u " a"))]%string) (u "output") JNull = JStr (u " a")
  /\ _format_webhook_response ascii_only (JArr [obj [("output", JStr (u " a"))]%string])
     = u "a"
  /\ _format_webhook_response ascii_only (JArr [obj [("output", JStr (u " a"))]%string])
     <> u " a".
Proof.
  repeat apply conj; try reflexivity; intros H; vm_compute in H; discriminate H.
Qed.

Lemma array_response_text_witness :
  _format_webhook_response ascii_only
    (JArr [obj [("output", JStr (u " a "))]%string; obj [("output", JInt 3)]%string;
           JStr (u "x"); obj [("output", JStr (u "b"))]%string])
  = u "a" ++ [newline; newline] ++ u "b"
  /\ _format_webhook_response ascii_only (JArr [obj [("output", JStr [])]%string; JInt 1])
     = json_dumps (JArr [obj [("output", JStr [])]%string; JInt 1]).
Proof.
  split.
  - refine (proj1 (array_response_text ascii_only
                     [obj [("output", JStr (u " a "))]%string;
                      obj [("output", JInt 3)]%string;
                      JStr (u "x"); obj [("output", JStr (u "b"))]%string]) _).
    intros H. vm_compute in H. discriminate H.
  - exact (proj1 (proj2 (array_response_text ascii_only
                           [obj [("output", JStr [])]%string; JInt 1])) eq_refl).
Defined.

(** C6 as the spec words it fails for a base delay above 60: the first sleep
    is the base delay, which the ceiling does not bound. *)
Lemma long_delay_counterexample :
  waits (trace_of (run ascii_only mailer (gmail_bridge 100) [refused; refused] running))
  = [100; 60]%Q
  /\ (60 < 100)%Q.
Proof. split; reflexivity. Qed.

Lemma backoff_schedule_witness :
  Forall (fun q => (q <= 60)%Q)
    (waits (trace_of (run ascii_only mailer (gmail_bridge 5) (repeat refused 7) running)))
  /\ waits (trace_of (run ascii_only mailer (gmail_bridge 5) (repeat refused (4 + 3))
                        running))
     = [5; 10; 20; 40; 60; 60; 60]%Q
  /\ run_turn ascii_only mailer (gmail_bridge 5) 40 refused running
     = (Again 60, [Connect; Sleep 40], running)
  /\ run_turn ascii_only mailer (gmail_bridge 5) 60
       (Connected false [Frame (JArr []) false] (Slept false)) running
     = (Again 10, [Connect; Sleep 5], running).
Proof.
  pose (T := backoff_schedule ascii_only mailer (gmail_bridge 5) (repeat refused 7) running).
  repeat apply conj.
  - refine (proj1 (proj2 (proj2 (proj2 (proj2 (proj2 (proj2 T)))))) _). discriminate.
  - exact (proj2 (proj2 (proj2 (proj2 (proj2 (proj2 (proj2 T)))))) 3%nat).
  - exact (proj1 T 40%Q false (OtherException (u "Connection refused")) false running
             eq_refl).
  - exact (proj1 (proj2 (proj2 (proj2 T))) 60%Q [Frame (JArr []) false] false running
             running (AttributeError (u "'list' object has no attribute 'get'"))
             eq_refl eq_refl).
Defined.

Lemma stop_ends_run_witness :
  run ascii_only mailer (gmail_bridge 5)
    [Connected false
       [StopCalled; Frame (request (JInt 1) "ping" JNull) false;
        Frame (request (JInt 2) "ping" JNull) false]
       (Slept false);
     refused]
    clientless
  = (Returned, [Connect],
     {| _stopping := true; _http_client := true;
        sent := [result_frame (JInt 1) (JObj [])]; posted := [] |})
  /\ run ascii_only mailer (gmail_bridge 5)
       [Connected false [Frame (request (JInt 1) "shutdown" JNull) false; BadJson]
          (Slept false);
        refused]
       clientless
     = (Returned, [Connect],
        {| _stopping := true; _http_client := true;
           sent := [result_frame (JInt 1) (JObj [])]; posted := [] |})
  /\ run ascii_only mailer (gmail_bridge 5)
       [Connected false [Frame (JArr []) true] (Slept false); refused; refused]
       clientless
     = (Returned, [Connect; Sleep 5], set_stopping running)
  /\ run ascii_only cancelled_meanwhile (gmail_bridge 5)
       [Connected false [Frame (request (JInt 1) "tools/call" (obj (send_email []))) true]
          (Slept false);
        refused]
       clientless
     = (Raised CancelledError, [Connect],
        {| _stopping := true; _http_client := true; sent := [];
           posted := [body_of (keyed (send_email []))
                        (keyed [("action", JStr (u "send_email"))]%string)] |})
  /\ run ascii_only mailer (gmail_bridge 5)
       [ConnectFails false (OtherException (u "Connection refused")) (Slept true); refused]
       clientless
     = (Returned, [Connect; Sleep 5], set_stopping running)
  /\ run ascii_only mailer (gmail_bridge 5)
       [Connected true [Frame (request (JInt 1) "ping" JNull) false] (Slept false); refused]
       clientless
     = (Returned, [Connect], set_stopping running)
  /\ run ascii_only mailer (gmail_bridge 5) [refused] (set_stopping clientless)
     = (Returned, [], set_stopping running)
  /\ connects
       (trace_of
          (run_loop ascii_only mailer (gmail_bridge 5) 5
             [Connected false
                ([Frame (request (JInt 1) "ping" JNull) false]
                 ++ StopCalled :: [BadJson; Frame (request (JInt 2) "ping" JNull) false])
                (Slept false);
              refused; refused]
             running))
     = 1%nat.
Proof.
  pose (T := stop_ends_run ascii_only mailer (gmail_bridge 5) 5%Q running).
  pose (in_turn := proj1 (proj2 (proj2 T)) eq_refl).
  repeat apply conj.
  - exact (eq_trans
             (proj1 (proj2 (proj2 (proj2 T)))
                [Connected false
                   [StopCalled; Frame (request (JInt 1) "ping" JNull) false;
                    Frame (request (JInt 2) "ping" JNull) false]
                   (Slept false)]
                [refused] eq_refl)
             eq_refl).
  - exact (eq_trans
             (proj1 (proj2 (proj2 (proj2 T)))
                [Connected false [Frame (request (JInt 1) "shutdown" JNull) false; BadJson]
                   (Slept false)]
                [refused] eq_refl)
             eq_refl).
  - exact (eq_trans
             (proj1 (proj2 (proj2 (proj2 T)))
                [Connected false [Frame (JArr []) true] (Slept false)]
                [refused; refused] eq_refl)
             eq_refl).
  - exact (eq_trans
             (proj1 (proj2 (proj2 (proj2
                (stop_ends_run ascii_only cancelled_meanwhile (gmail_bridge 5) 5%Q running))))
                [Connected false
                   [Frame (request (JInt 1) "tools/call" (obj (send_email []))) true]
                   (Slept false)]
                [refused] eq_refl)
             eq_refl).
  - exact (proj1 (proj1 (proj2 (proj2 (proj2 in_turn))) false
                    (OtherException (u "Connection refused")) [refused] eq_refl)).
  - exact (proj1 in_turn [Frame (request (JInt 1) "ping" JNull) false] (Slept false)
             [refused]).
  - exact (proj1 (proj2 (stop_ends_run ascii_only mailer (gmail_bridge 5) 5%Q
                           (set_stopping running))) [refused] eq_refl).
  - exact (proj1 (proj1 (proj2 (proj2 in_turn))
                    [Frame (request (JInt 1) "ping" JNull) false] StopCalled
                    [BadJson; Frame (request (JInt 2) "ping" JNull) false] (Slept false)
                    _ eq_refl (or_introl eq_refl) [refused; refused])).
Defined.

(** ** More of the bridge *)

Section MoreDispatch.

Variable isprintable : N -> bool.
Variable webhook : list json -> json -> result Response.
Variable self : XiaozhiMCPBridge.

Lemma params_unreadable (fields : list (str * json)) :
  (exists p, params_of fields = JObj p)
  \/ is_Mapping (params_of fields) = false.
Proof.
  destruct (params_of fields) as [| | | | | |p]; try (now right). left. now exists p.
Qed.

Lemma tools_call_unreadable (fields : list (str * json)) (st : bridge_state) :
  is_Mapping (params_of fields) = false ->
  exists e, _handle_tools_call isprintable webhook self (JObj fields) st = (Raise e, st).
Proof.
  intros H. unfold _handle_tools_call, bind, lift, py_get. fold (params_of fields).
  destruct (params_of fields); try discriminate H; eexists; reflexivity.
Qed.

Lemma initialize_unreadable (fields : list (str * json)) (st : bridge_state) :
  is_Mapping (params_of fields) = false ->
  exists e, _handle_initialize self (JObj fields) st = (Raise e, st).
Proof.
  intros H. unfold _handle_initialize, bind, lift, py_get. fold (params_of fields).
  destruct (params_of fields); try discriminate H; eexists; reflexivity.
Qed.

Lemma reply_error (message_id : json) (code : Z) (message : str) :
  In code error_codes -> is_reply_to message_id (error_frame message_id code message).
Proof. intros H. right. now exists code, message. Qed.

Lemma reply_result (message_id result : json) :
  is_reply_to message_id (result_frame message_id result).
Proof. left. now exists result. Qed.

(** Closes a goal [exists frame, is_reply_to id frame /\ r = _send_json frame st]
    once [r] has been rewritten to the frame it sends. *)
Ltac sends_reply :=
  eexists; split; [ | reflexivity ];
  first [ apply reply_result | apply reply_error; simpl; tauto ].

(** Everything [_handle_tools_call] can do with a frame. *)
Lemma tools_call_cases (fields : list (str * json)) (st : bridge_state) :
  let r := _handle_tools_call isprintable webhook self (JObj fields) st in
  let message_id := dict_get fields (u "id") JNull in
  (exists e, r = (Raise e, st))
  \/ (exists frame, is_reply_to message_id frame /\ r = _send_json frame st)
  \/ (exists p a,
        valid_call self fields p a /\ _http_client st = true
        /\ (r = (Raise CancelledError, post_recorded st (body_of p a))
            \/ exists frame,
                 is_reply_to message_id frame
                 /\ r = _send_json frame (post_recorded st (body_of p a)))).
Proof.
  intros r message_id. subst r message_id.
  destruct (params_unreadable fields) as [[p Hp]|Hp].
  2:{ left. now apply tools_call_unreadable. }
  destruct (eq_str (dict_get p (u "name") JNull) (name (tool self))) eqn:Hn.
  2:{ right; left. rewrite (tools_call_unsupported isprintable webhook self fields p st Hp Hn).
      sends_reply. }
  destruct (dict_get p (u "arguments") JNull) as [| | | | | |a] eqn:Ha;
    try (right; left;
         rewrite (tools_call_arguments isprintable webhook self fields p st Hp Hn);
         [sends_reply | now rewrite Ha]).
  destruct (nonblank_str (dict_get a (u "action") JNull)) eqn:Hb.
  2:{ right; left.
      rewrite (tools_call_action isprintable webhook self fields p a st Hp Hn Ha Hb).
      sends_reply. }
  assert (Hv : valid_call self fields p a) by (repeat split; assumption).
  destruct (_http_client st) eqn:Hc.
  2:{ right; left.
      rewrite (tools_call_client_missing isprintable webhook self fields p a st Hv Hc).
      sends_reply. }
  right; right. exists p, a. repeat split; trivial.
  destruct (webhook (posted st) (body_of p a)) as [resp|e] eqn:Hr.
  - right. destruct (raise_for_status resp) as [msg|] eqn:Hs.
    + rewrite (tools_call_http_error isprintable webhook self fields p a st resp msg
                 Hv Hc Hr Hs).
      sends_reply.
    + destruct (json_error resp) as [msg|] eqn:He.
      * rewrite (tools_call_json_error isprintable webhook self fields p a st resp msg
                   Hv Hc Hr Hs He).
        sends_reply.
      * rewrite (tools_call_success isprintable webhook self fields p a st resp
                   Hv Hc Hr Hs He).
        sends_reply.
  - rewrite (tools_call_webhook_raises isprintable webhook self fields p a st e Hv Hc Hr).
    destruct e; try (right; sends_reply).
    now left.
Qed.
Lemma eq_str_eq (v : json) (s : str) : eq_str v s = true -> v = JStr s.
Proof.
  destruct v; simpl; try discriminate. intros H. apply str_eqb_eq in H. now subst.
Qed.

Ltac answers_frame fields :=
  exists fields; eexists; split; [reflexivity|];
  split; [ | reflexivity ];
  first [ apply reply_result | apply reply_error; simpl; tauto ].

(** Everything [_dispatch] can do with a frame: raise before anything is
    done, return without a word, answer, answer and stop, or call the webhook
    and then answer (or be cancelled there). *)
Lemma dispatch_cases (message : json) (st : bridge_state) :
  let r := _dispatch isprintable webhook self message st in
  (exists e, r = (Raise e, st))
  \/ r = (Ok tt, st)
  \/ (exists fields frame,
        message = JObj fields
        /\ is_reply_to (dict_get fields (u "id") JNull) frame
        /\ r = _send_json frame st)
  \/ (exists fields,
        message = JObj fields
        /\ dict_get fields (u "method") JNull = JStr (u "shutdown")
        /\ r = (Ok tt,
                set_stopping
                  (snd (_send_json
                          (result_frame (dict_get fields (u "id") JNull) (JObj [])) st))))
  \/ (exists fields p a,
        message = JObj fields
        /\ dict_get fields (u "method") JNull = JStr (u "tools/call")
        /\ valid_call self fields p a /\ _http_client st = true
        /\ (r = (Raise CancelledError, post_recorded st (body_of p a))
            \/ exists frame,
                 is_reply_to (dict_get fields (u "id") JNull) frame
                 /\ r = _send_json frame (post_recorded st (body_of p a)))).
Proof.
  intros r. subst r.
  destruct message as [| | | | | |fields];
    try (left; eexists; reflexivity).
  unfold _dispatch, bind, lift, py_get. cbv beta iota.
  destruct (eq_str (dict_get fields (u "method") JNull) (u "initialize")).
  { destruct (params_unreadable fields) as [[p Hp]|Hp].
    - right; right; left. rewrite (initialize_replies self fields p st Hp).
      answers_frame fields.
    - left. now apply initialize_unreadable. }
  destruct (eq_str (dict_get fields (u "method") JNull) (u "notifications/initialized")).
  { right; left. reflexivity. }
  destruct (eq_str (dict_get fields (u "method") JNull) (u "tools/list")).
  { right; right; left. unfold _handle_tools_list, bind, lift, py_get.
    answers_frame fields. }
  destruct (eq_str (dict_get fields (u "method") JNull) (u "tools/call")) eqn:Ecall.
  { apply eq_str_eq in Ecall.
    destruct (tools_call_cases fields st) as [H|[(frame & Hf & H)|(p & a & Hv & Hc & H)]].
    - now left.
    - right; right; left. now exists fields, frame.
    - right; right; right; right. now exists fields, p, a. }
  destruct (eq_str (dict_get fields (u "method") JNull) (u "ping")).
  { right; right; left. answers_frame fields. }
  destruct (eq_str (dict_get fields (u "method") JNull) (u "shutdown")) eqn:Eshut.
  { apply eq_str_eq in Eshut. right; right; right; left. now exists fields. }
  destruct (is_None (dict_get fields (u "id") JNull)).
  - right; left. reflexivity.
  - right; right; left. answers_frame fields.
Qed.

End MoreDispatch.

Section MoreProperties.

Variable isprintable : N -> bool.
Variable webhook : list json -> json -> result Response.
Variable self : XiaozhiMCPBridge.

Lemma reply_shape (message_id frame : json) :
  is_reply_to message_id frame ->
  exists frame_fields,
    frame = JObj frame_fields
    /\ dict_get frame_fields (u "jsonrpc") JNull = JStr (u "2.0")
    /\ dict_get frame_fields (u "id") JNull = message_id
    /\ ((dict_has frame_fields (u "result") = true
         /\ dict_has frame_fields (u "error") = false)
        \/ (dict_has frame_fields (u "result") = false
            /\ exists code message,
                 In code error_codes
                 /\ dict_get frame_fields (u "error") JNull
                    = obj [("code", JInt code); ("message", JStr message)]%string)).
Proof.
  intros [(result & ->)|(code & message & Hc & ->)]; eexists; split; try reflexivity.
  - repeat split. now left.
  - repeat split. right. split; [reflexivity|]. now exists code, message.
Qed.

(** X1: [_dispatch] answers an inbound frame with at most one frame, and with
    none when it raises.  The frame it sends is a JSON-RPC 2.0 object that
    carries the [id] of the request as it came, and either a [result] or an
    [error] whose code is one of -32601, -32602, -32010 and -32001, never
    both. *)
Theorem at_most_one_reply (message : json) (st : bridge_state) :
  frames_sent (_dispatch isprintable webhook self message) st = []
  \/ exists fields frame_fields,
       message = JObj fields
       /\ fst (_dispatch isprintable webhook self message st) = Ok tt
       /\ frames_sent (_dispatch isprintable webhook self message) st = [JObj frame_fields]
       /\ dict_get frame_fields (u "jsonrpc") JNull = JStr (u "2.0")
       /\ dict_get frame_fields (u "id") JNull = dict_get fields (u "id") JNull
       /\ ((dict_has frame_fields (u "result") = true
            /\ dict_has frame_fields (u "error") = false)
           \/ (dict_has frame_fields (u "result") = false
               /\ exists code message,
                    In code error_codes
                    /\ dict_get frame_fields (u "error") JNull
                       = obj [("code", JInt code); ("message", JStr message)]%string)).
Proof.
  unfold frames_sent.
  destruct (dispatch_cases isprintable webhook self message st)
    as [(e & H)|[H|[(fields & frame & Hm & Hf & H)|[(fields & Hm & Hs & H)
        |(fields & p & a & Hm & Hc & Hv & Hcl & [H|(frame & Hf & H)])]]]];
    rewrite H; simpl.
  - left. rewrite <- (app_nil_r (sent st)) at 2. apply skipn_length_app.
  - left. rewrite <- (app_nil_r (sent st)) at 2. apply skipn_length_app.
  - right. destruct (reply_shape _ _ Hf) as (ff & -> & Hj & Hi & Hr).
    exists fields, ff. rewrite skipn_length_app. repeat split; trivial.
  - right. exists fields. eexists. rewrite skipn_length_app.
    repeat split; trivial. now left.
  - left. rewrite <- (app_nil_r (sent st)) at 2. apply skipn_length_app.
  - right. destruct (reply_shape _ _ Hf) as (ff & -> & Hj & Hi & Hr).
    exists fields, ff. rewrite skipn_length_app. repeat split; trivial.
Qed.

(** X2: [_dispatch] posts to the webhook at most once, and only for a
    [tools/call] that has passed the three checks while the HTTP client is
    there; the body is then the one made from that call.  Every other frame,
    whatever its method or shape, posts nothing.  A post is always followed by
    exactly one frame to the peer, unless the task is cancelled in the call of
    the webhook, and then nothing is sent. *)
Theorem posts_only_valid_calls (message : json) (st : bridge_state) :
  bodies_posted (_dispatch isprintable webhook self message) st = []
  \/ exists fields p a,
       message = JObj fields
       /\ dict_get fields (u "method") JNull = JStr (u "tools/call")
       /\ valid_call self fields p a
       /\ _http_client st = true
       /\ bodies_posted (_dispatch isprintable webhook self message) st = [body_of p a]
       /\ ((fst (_dispatch isprintable webhook self message st) = Raise CancelledError
            /\ webhook (posted st) (body_of p a) = Raise CancelledError
            /\ frames_sent (_dispatch isprintable webhook self message) st = [])
           \/ (fst (_dispatch isprintable webhook self message st) = Ok tt
               /\ exists frame,
                    frames_sent (_dispatch isprintable webhook self message) st
                    = [frame])).
Proof.
  unfold bodies_posted, frames_sent.
  destruct (dispatch_cases isprintable webhook self message st)
    as [(e & H)|[H|[(fields & frame & Hm & Hf & H)|[(fields & Hm & Hs & H)
        |(fields & p & a & Hm & Hc & Hv & Hcl & H')]]]].
  1-4: left; rewrite H; simpl; rewrite <- (app_nil_r (posted st)) at 2;
       apply skipn_length_app.
  right. exists fields, p, a.
  split; [exact Hm|]. split; [exact Hc|]. split; [exact Hv|]. split; [exact Hcl|]. split.
  - destruct H' as [H|(frame & _ & H)]; rewrite H; simpl; apply skipn_length_app.
  - destruct H' as [H|(frame & _ & H)]; rewrite H; simpl.
    + left. repeat split.
      * destruct (webhook (posted st) (body_of p a)) as [r|e] eqn:Hw.
        -- exfalso. subst message. rewrite (dispatch_tools_call _ _ _ _ st Hc) in H.
           destruct (raise_for_status r) as [msg|] eqn:Hr.
           ++ rewrite (tools_call_http_error _ _ _ _ _ _ _ _ _ Hv Hcl Hw Hr) in H.
              discriminate H.
           ++ destruct (json_error r) as [msg|] eqn:He.
              ** rewrite (tools_call_json_error _ _ _ _ _ _ _ _ _ Hv Hcl Hw Hr He) in H.
                 discriminate H.
              ** rewrite (tools_call_success _ _ _ _ _ _ _ _ Hv Hcl Hw Hr He) in H.
                 discriminate H.
        -- subst message. rewrite (dispatch_tools_call _ _ _ _ st Hc) in H.
           rewrite (tools_call_webhook_raises _ _ _ _ _ _ _ _ Hv Hcl Hw) in H.
           destruct e; try discriminate H. reflexivity.
      * rewrite <- (app_nil_r (sent st)) at 2. apply skipn_length_app.
    + right. split; trivial. exists frame. apply skipn_length_app.
Qed.

Lemma dict_get_default (fields : list (str * json)) (key : str) (default : json) :
  dict_get fields key default
  = if dict_has fields key then dict_get fields key JNull else default.
Proof.
  induction fields as [|[k v] rest IH]; simpl; trivial.
  destruct (str_eqb k key); simpl; trivial.
Qed.

Lemma str_eqb_refl (s : str) : str_eqb s s = true.
Proof. now apply str_eqb_eq. Qed.

(** X3: [initialize] is answered by one result frame with the request's
    [id], the capabilities [{tools: {call: {}}}] and a [protocolVersion] that
    is whatever the request's params hold under that key (a null or a
    non-string value included), and [2024-11-05] when the key is not there or
    there are no params. *)
Theorem initialize_echoes_version (fields p : list (str * json)) (st : bridge_state) :
  dict_get fields (u "method") JNull = JStr (u "initialize") ->
  params_of fields = JObj p ->
  _dispatch isprintable webhook self (JObj fields) st
  = _send_json
      (result_frame (dict_get fields (u "id") JNull)
         (obj [("protocolVersion",
                if dict_has p (u "protocolVersion")
                then dict_get p (u "protocolVersion") JNull
                else JStr (u "2024-11-05"));
               ("capabilities", obj [("tools", obj [("call", JObj [])])])]%string)) st
  /\ (dict_get fields (u "params") JNull = JNull -> p = [])
  /\ frames_sent (_dispatch isprintable webhook self (JObj fields)) st
     = [obj [("jsonrpc", JStr (u "2.0")); ("id", dict_get fields (u "id") JNull);
             ("result",
              obj [("protocolVersion",
                    if dict_has p (u "protocolVersion")
                    then dict_get p (u "protocolVersion") JNull
                    else JStr (u "2024-11-05"));
                   ("capabilities", obj [("tools", obj [("call", JObj [])])])])]%string].
Proof.
  intros Hm Hp.
  assert (H : _dispatch isprintable webhook self (JObj fields) st
              = _send_json
                  (result_frame (dict_get fields (u "id") JNull)
                     (obj [("protocolVersion",
                            if dict_has p (u "protocolVersion")
                            then dict_get p (u "protocolVersion") JNull
                            else JStr (u "2024-11-05"));
                           ("capabilities",
                            obj [("tools", obj [("call", JObj [])])])]%string)) st).
  { unfold _dispatch, bind, lift, py_get. rewrite Hm. cbv beta iota.
    change (eq_str (JStr (u "initialize")) (u "initialize")) with true. cbv iota.
    rewrite (initialize_replies self fields p st Hp).
    rewrite (dict_get_default p (u "protocolVersion") (JStr (u "2024-11-05"))).
    reflexivity. }
  split; [exact H|]. split.
  - intros Hn. unfold params_of, py_or in Hp. rewrite Hn in Hp. simpl in Hp.
    now injection Hp as <-.
  - exact (proj1 (proj2 (sends_only _ _ _ H))).
Qed.

(** X4: [tools/list] is answered, whatever its params are, by one result
    frame that lists exactly one tool, the descriptor of the configured one;
    and the name that descriptor shows is a name [tools/call] accepts: a call
    that uses it, with an object for [arguments] and a non-blank [action],
    is never refused and reaches the webhook. *)
Theorem advertised_tool_is_callable (fields : list (str * json)) (st : bridge_state) :
  dict_get fields (u "method") JNull = JStr (u "tools/list") ->
  _dispatch isprintable webhook self (JObj fields) st
  = _send_json
      (result_frame (dict_get fields (u "id") JNull)
         (obj [("tools", JArr [to_mcp_dict (tool self)])]%string)) st
  /\ advertised_name (tool self) = JStr (name (tool self))
  /\ (forall call p a st',
      dict_get call (u "method") JNull = JStr (u "tools/call") ->
      params_of call = JObj p ->
      dict_get p (u "name") JNull = advertised_name (tool self) ->
      dict_get p (u "arguments") JNull = JObj a ->
      nonblank_str (dict_get a (u "action") JNull) = true ->
      _http_client st' = true ->
      bodies_posted (_dispatch isprintable webhook self (JObj call)) st' = [body_of p a])
  /\ frames_sent (_dispatch isprintable webhook self (JObj fields)) st
     = [obj [("jsonrpc", JStr (u "2.0")); ("id", dict_get fields (u "id") JNull);
             ("result", obj [("tools", JArr [to_mcp_dict (tool self)])])]%string].
Proof.
  intros Hm.
  assert (H : _dispatch isprintable webhook self (JObj fields) st
              = _send_json
                  (result_frame (dict_get fields (u "id") JNull)
                     (obj [("tools", JArr [to_mcp_dict (tool self)])]%string)) st).
  { unfold _dispatch, bind, lift, py_get. rewrite Hm. reflexivity. }
  repeat apply conj; try reflexivity.
  - exact H.
  - intros call p a st' Hc Hp Hn Ha Hb Hcl.
    assert (Hv : valid_call self call p a).
    { repeat split; trivial. rewrite Hn. simpl. apply str_eqb_refl. }
    unfold bodies_posted. rewrite (dispatch_tools_call isprintable webhook self call st' Hc).
    apply (tools_call_posts_once isprintable webhook self call p a st' Hv Hcl).
  - exact (proj1 (proj2 (sends_only _ _ _ H))).
Qed.

(** X5: for an answer of the webhook that is no error.  When
    [response.json()] raises [JSONDecodeError], the text of the result is the
    body as [response.text] gives it, character for character; a body that
    is a JSON string gives that string.  For the other JSON values that are
    neither objects nor arrays the text is what Python prints: [None] for
    null, [True] and [False] for the booleans, the decimal digits for an
    integer.  When [response.json()] raises anything else (a body that cannot
    be decoded as text) there is no result: the call is answered by the error
    -32001 with the text of that exception. *)
Theorem plain_answer_text (fields p a : list (str * json)) (st : bridge_state)
    (r : Response) :
  dict_get fields (u "method") JNull = JStr (u "tools/call") ->
  valid_call self fields p a ->
  _http_client st = true ->
  webhook (posted st) (body_of p a) = Ok r ->
  raise_for_status r = None ->
  let message_id := dict_get fields (u "id") JNull in
  let call_id := dict_get p (u "callId") JNull in
  let reply content_text :=
    frames_sent (_dispatch isprintable webhook self (JObj fields)) st
    = [obj [("jsonrpc", JStr (u "2.0")); ("id", message_id);
            ("result",
             JObj ([(u "content",
                     JArr [obj [("type", JStr (u "text"));
                                ("text", JStr content_text)]]);
                    (u "isError", JBool false)]
                   ++ (if truthy call_id then [(u "callId", call_id)] else [])))]%string] in
  (json_error r = None ->
   (json_body r = None -> reply (text r))
   /\ (forall s, json_body r = Some (JStr s) -> reply s)
   /\ (json_body r = Some JNull -> reply (u "None"))
   /\ (json_body r = Some (JBool true) -> reply (u "True"))
   /\ (json_body r = Some (JBool false) -> reply (u "False"))
   /\ (forall n, json_body r = Some (JInt n) -> reply (str_of_int n)))
  /\ (forall msg,
      json_error r = Some msg ->
      frames_sent (_dispatch isprintable webhook self (JObj fields)) st
      = [obj [("jsonrpc", JStr (u "2.0")); ("id", message_id);
              ("error", obj [("code", JInt (-32001));
                             ("message",
                              JStr (u "Gmail agent error: " ++ msg)%list)])]%string]).
Proof.
  intros Hm Hv Hc Hw Hr message_id call_id reply. subst message_id call_id reply. cbv beta.
  split.
  - intros He.
    pose proof (tools_call_success isprintable webhook self fields p a st r Hv Hc Hw Hr He)
      as H.
    rewrite <- (dispatch_tools_call isprintable webhook self fields st Hm) in H.
    destruct (frames_sent_after_post _ _ _ _ H) as [Hs _].
    unfold response_data in Hs.
    repeat apply conj; [intros Hb | intros s Hb | intros Hb | intros Hb | intros Hb
                       | intros n Hb]; rewrite Hb in Hs;
      destruct (truthy (dict_get p (u "callId") JNull)); exact Hs.
  - intros msg He.
    pose proof (tools_call_json_error isprintable webhook self fields p a st r msg
                  Hv Hc Hw Hr He) as H.
    rewrite <- (dispatch_tools_call isprintable webhook self fields st Hm) in H.
    exact (proj1 (frames_sent_after_post _ _ _ _ H)).
Qed.

(** X6: a frame that is JSON but no object (an array, a string, a number,
    true, false, null) is not dropped: [_dispatch] raises [AttributeError] on
    its first [message.get], nothing is sent or posted, the session ends with
    that exception, and [run] sleeps the base delay before it connects
    again; a [stop()] that came meanwhile is kept. *)
Theorem non_object_frame_ends_session (message : json) (st : bridge_state) :
  is_Mapping message = false ->
  let exc :=
    AttributeError (quote1 :: type_name message ++ quote1
                    :: u " object has no attribute 'get'") in
  _dispatch isprintable webhook self message st = (Raise exc, st)
  /\ (forall stop_called rest,
      recv_loop isprintable webhook self (Frame message stop_called :: rest) st
      = (Raised exc, if stop_called then set_stopping st else st))
  /\ (forall backoff frame_stop rest sleep_stop,
      _stopping st = false ->
      run_turn isprintable webhook self backoff
        (Connected false (Frame message frame_stop :: rest) (Slept sleep_stop)) st
      = (Again (py_min (reconnect_delay self * 2) 60),
         [Connect; Sleep (reconnect_delay self)],
         if frame_stop || sleep_stop then set_stopping st else st)).
Proof.
  intros Hm exc. subst exc.
  assert (Hd : _dispatch isprintable webhook self message st
               = (Raise (AttributeError (quote1 :: type_name message ++ quote1
                                         :: u " object has no attribute 'get'")), st)).
  { destruct message; try discriminate Hm; reflexivity. }
  repeat apply conj.
  - exact Hd.
  - intros stop_called rest. simpl. now rewrite Hd.
  - intros backoff frame_stop rest sleep_stop Hs.
    unfold run_turn, _handle_session. rewrite Hs. simpl recv_loop. rewrite Hd.
    now destruct frame_stop, sleep_stop.
Qed.

End MoreProperties.

Section MoreSession.

Variable isprintable : N -> bool.
Variable webhook : list json -> json -> result Response.
Variable self : XiaozhiMCPBridge.

Lemma recv_loop_ignores_malformed (events : list ws_event) :
  existsb is_stop_called events = false ->
  forall st,
    _stopping st = false ->
    recv_loop isprintable webhook self events st
    = recv_loop isprintable webhook self
        (filter (fun ev => negb (is_malformed ev)) events) st.
Proof.
  induction events as [|ev rest IH]; intros Hstop st Hst; trivial.
  simpl in Hstop. apply orb_false_iff in Hstop as [Hev Hrest].
  destruct ev as [| |e| | |msg|message stop_called|]; try discriminate Hev;
    cbn [filter is_malformed negb]; trivial.
  - cbn [recv_loop]. rewrite Hst. now apply IH.
  - cbn [recv_loop]. rewrite Hst. now apply IH.
  - cbn [recv_loop]. destruct (_dispatch _ _ _ message st) as [[[]|e] st']; trivial.
    destruct (_stopping (if stop_called then set_stopping st' else st')) eqn:Hs; trivial.
    now apply IH.
Qed.

(** X7: a frame that cannot be read, because its bytes are not UTF-8 or
    because [json.loads] raises [JSONDecodeError] on its text, is dropped and
    nothing else: as long as no [stop()] comes from outside while the session
    waits, a session behaves with such frames exactly as it does without
    them, down to the frames sent, the bodies posted and the way it ends.
    Text on which [json.loads] raises another exception is not dropped: it
    ends the session with that exception, and [run] sleeps before it connects
    again. *)
Theorem malformed_frames_are_ignored (events : list ws_event) (st : bridge_state) :
  (existsb is_stop_called events = false ->
   _handle_session isprintable webhook self events st
   = _handle_session isprintable webhook self
       (filter (fun ev => negb (is_malformed ev)) events) st)
  /\ (forall rest,
      _stopping st = false ->
      _handle_session isprintable webhook self (BadUtf8 :: rest) st
      = _handle_session isprintable webhook self rest st
      /\ _handle_session isprintable webhook self (BadJson :: rest) st
         = _handle_session isprintable webhook self rest st)
  /\ (forall msg rest backoff stop_called,
      _stopping st = false ->
      _handle_session isprintable webhook self (LoadsRaises msg :: rest) st
      = (Raised (OtherException msg), st)
      /\ run_turn isprintable webhook self backoff
           (Connected false (LoadsRaises msg :: rest) (Slept stop_called)) st
         = (Again (py_min (reconnect_delay self * 2) 60),
            [Connect; Sleep (reconnect_delay self)],
            if stop_called then set_stopping st else st)).
Proof.
  repeat apply conj.
  - intros H. unfold _handle_session. destruct (_stopping st) eqn:Hs; trivial.
    now apply recv_loop_ignores_malformed.
  - intros rest Hs. unfold _handle_session. cbn [recv_loop]. now rewrite Hs.
  - intros msg rest backoff stop_called Hs. unfold run_turn, _handle_session.
    rewrite Hs. split; reflexivity.
Qed.

Lemma dispatch_grows (message : json) (st : bridge_state) :
  exists frames bodies,
    sent (snd (_dispatch isprintable webhook self message st)) = sent st ++ frames
    /\ posted (snd (_dispatch isprintable webhook self message st)) = posted st ++ bodies
    /\ (List.length frames <= 1)%nat /\ (List.length bodies <= 1)%nat.
Proof.
  destruct (dispatch_cases isprintable webhook self message st)
    as [(e & H)|[H|[(fields & frame & Hm & Hf & H)|[(fields & Hm & Hs & H)
        |(fields & p & a & Hm & Hc & Hv & Hcl & [H|(frame & Hf & H)])]]]];
    rewrite H; simpl.
  - exists [], []. rewrite !app_nil_r. simpl. auto.
  - exists [], []. rewrite !app_nil_r. simpl. auto.
  - exists [frame], []. rewrite app_nil_r. simpl. auto.
  - eexists [_], []. rewrite app_nil_r. simpl. auto.
  - exists [], [body_of p a]. rewrite app_nil_r. simpl. auto.
  - exists [frame], [body_of p a]. simpl. auto.
Qed.

Lemma recv_loop_grows (events : list ws_event) :
  forall st,
  exists frames bodies,
    sent (snd (recv_loop isprintable webhook self events st)) = sent st ++ frames
    /\ posted (snd (recv_loop isprintable webhook self events st)) = posted st ++ bodies
    /\ (List.length frames <= List.length (filter is_frame events))%nat
    /\ (List.length bodies <= List.length (filter is_frame events))%nat.
Proof.
  induction events as [|ev rest IH]; intros st.
  - exists [], []. simpl. now rewrite !app_nil_r.
  - assert (Hnone : forall st0 : bridge_state,
               sent st0 = sent st -> posted st0 = posted st -> exists frames bodies,
                 sent st0 = sent st ++ frames /\ posted st0 = posted st ++ bodies
                 /\ (List.length frames <= List.length (filter is_frame (ev :: rest)))%nat
                 /\ (List.length bodies <= List.length (filter is_frame (ev :: rest)))%nat).
    { intros st0 Hs Hp. exists [], []. rewrite !app_nil_r. simpl.
      repeat split; trivial; apply Nat.le_0_l. }
    assert (Hrest : forall st0 : bridge_state,
               sent st0 = sent st -> posted st0 = posted st ->
               is_frame ev = false -> exists frames bodies,
                 sent (snd (recv_loop isprintable webhook self rest st0))
                 = sent st ++ frames
                 /\ posted (snd (recv_loop isprintable webhook self rest st0))
                    = posted st ++ bodies
                 /\ (List.length frames <= List.length (filter is_frame (ev :: rest)))%nat
                 /\ (List.length bodies <= List.length (filter is_frame (ev :: rest)))%nat).
    { intros st0 Hs Hp Hev. destruct (IH st0) as (frames & bodies & H1 & H2 & H3 & H4).
      exists frames, bodies. simpl. rewrite Hev, <- Hs, <- Hp. auto. }
    destruct ev as [| |e| | |msg|message stop_called|]; cbn [recv_loop];
      try (now apply Hnone).
    + destruct (_stopping st); [now apply Hnone | now apply Hrest].
    + destruct (_stopping st); [now apply Hnone | now apply Hrest].
    + destruct (dispatch_grows message st) as (f1 & b1 & Hf1 & Hb1 & Lf1 & Lb1).
      destruct (_dispatch _ _ _ message st) as [[[]|e] st']; simpl in Hf1, Hb1.
      * assert (Hset : sent (if stop_called then set_stopping st' else st') = sent st'
                       /\ posted (if stop_called then set_stopping st' else st')
                          = posted st') by (destruct stop_called; split; reflexivity).
        destruct Hset as [Hs' Hp'].
        destruct (_stopping (if stop_called then set_stopping st' else st')).
        -- exists f1, b1. simpl. rewrite Hs', Hp'. repeat split; trivial; lia.
        -- destruct (IH (if stop_called then set_stopping st' else st'))
             as (f2 & b2 & Hf2 & Hb2 & Lf2 & Lb2).
           exists (f1 ++ f2), (b1 ++ b2).
           rewrite Hf2, Hb2, Hs', Hp', Hf1, Hb1, !app_assoc, !length_app. simpl.
           repeat split; trivial; lia.
      * exists f1, b1. destruct stop_called; simpl; repeat split; trivial; lia.
    + now apply Hrest.
Qed.

(** X8: a session only ever adds to what the bridge has sent and posted, in
    the order the frames came, and adds at most one outbound frame and at
    most one webhook post for each frame it received; malformed frames,
    closes and stop requests add nothing. *)
Theorem session_answers_at_most_once (events : list ws_event) (st : bridge_state) :
  exists frames bodies,
    sent (snd (_handle_session isprintable webhook self events st)) = sent st ++ frames
    /\ posted (snd (_handle_session isprintable webhook self events st))
       = posted st ++ bodies
    /\ (List.length frames <= List.length (filter is_frame events))%nat
    /\ (List.length bodies <= List.length (filter is_frame events))%nat.
Proof.
  unfold _handle_session. destruct (_stopping st).
  - exists [], []. simpl. rewrite !app_nil_r. repeat split; apply Nat.le_0_l.
  - apply recv_loop_grows.
Qed.

Lemma turns_count (turns : list (list run_event)) :
  Forall is_turn turns ->
  connects (List.concat turns) = List.length turns
  /\ (List.length (waits (List.concat turns)) <= List.length turns)%nat.
Proof.
  induction 1 as [|evs turns Hevs _ [IHc IHw]]; simpl; [auto|].
  destruct (is_turn_counts evs Hevs) as [Hc Hw].
  rewrite connects_app, waits_app, length_app, Hc, IHc. split; lia.
Qed.

(** What the loop does is a sequence of turns, at most one for each chance to
    connect, and at least one when there is a chance and the flag is not
    set. *)
Lemma run_loop_turns (attempts : list attempt) :
  forall backoff st,
  exists turns,
    trace_of (run_loop isprintable webhook self backoff attempts st) = List.concat turns
    /\ Forall is_turn turns
    /\ (List.length turns <= List.length attempts)%nat
    /\ (_stopping st = false -> attempts <> [] -> turns <> []).
Proof.
  induction attempts as [|a rest IH]; intros backoff st; cbn [run_loop].
  - exists []. destruct (_stopping st); simpl; repeat split; auto.
  - destruct (_stopping st) eqn:Hs.
    + exists []. simpl. repeat split; auto using Nat.le_0_l. discriminate.
    + pose proof (run_turn_is_turn isprintable webhook self backoff a st) as Ht.
      destruct (run_turn _ _ _ _ a st) as [[[b'|e|] evs] st']; simpl in Ht.
      * destruct (IH b' st') as (turns & Htr & Hall & Hlen & _).
        destruct (run_loop _ _ _ _ rest st') as [[p evs'] st'']. unfold trace_of in *.
        simpl in *. exists (evs :: turns). simpl. rewrite Htr.
        repeat split; auto; [lia | discriminate].
      * exists [evs]. unfold trace_of. simpl. rewrite app_nil_r.
        repeat split; auto; [lia | discriminate].
      * exists [evs]. unfold trace_of. simpl. rewrite app_nil_r.
        repeat split; auto; [lia | discriminate].
Qed.

(** X9: each turn of the loop of [run] makes exactly one connection attempt,
    before anything else, and sleeps at most once after it.  What [run] does
    is a sequence of such turns and nothing more: at most one turn for each
    chance to connect that it is given, and at least one when it is given any
    and the stop flag is not set.  So [run] attempts as many connections as
    it makes turns, and never sleeps more often than it attempts. *)
Theorem one_attempt_per_turn (attempts : list attempt) (st : bridge_state) :
  (forall backoff a st0,
      snd (fst (run_turn isprintable webhook self backoff a st0)) = [Connect]
      \/ exists seconds,
           snd (fst (run_turn isprintable webhook self backoff a st0))
           = [Connect; Sleep seconds])
  /\ exists turns,
       trace_of (run isprintable webhook self attempts st) = List.concat turns
       /\ Forall (fun evs => evs = [Connect] \/ exists seconds, evs = [Connect; Sleep seconds])
            turns
       /\ connects (trace_of (run isprintable webhook self attempts st)) = List.length turns
       /\ (List.length (waits (trace_of (run isprintable webhook self attempts st)))
           <= List.length turns)%nat
       /\ (List.length turns <= List.length attempts)%nat
       /\ (_stopping st = false -> attempts <> [] -> turns <> []).
Proof.
  split.
  - intros backoff a st0. apply (run_turn_is_turn isprintable webhook self).
  - unfold run.
    destruct (run_loop_turns attempts (reconnect_delay self)
                {| _stopping := _stopping st; _http_client := true;
                   sent := sent st; posted := posted st |})
      as (turns & Htr & Hall & Hlen & Hne).
    exists turns. rewrite Htr. destruct (turns_count turns Hall) as [Hc Hw].
    repeat split; trivial.
Qed.

Lemma closes_at_once_turn (backoff : Q) (a : attempt) (st : bridge_state) :
  closes_at_once a = true ->
  _stopping st = false ->
  run_turn isprintable webhook self backoff a st
  = (Again (reconnect_delay self), [Connect], st).
Proof.
  intros Ha Hs. destruct a as [sc0 exc sl|sc events sl]; [discriminate Ha|].
  destruct sc; [discriminate Ha|].
  destruct events as [|ev events]; [discriminate Ha|].
  destruct ev; try discriminate Ha;
    unfold run_turn, _handle_session; rewrite Hs; reflexivity.
Qed.

(** X10: a connection that ends because the server closed it, cleanly or
    with an error close, is no failure to [run]: it does not sleep, it leaves
    the backoff at the base delay and connects again at once.  A server that closes
    every connection before it sends a frame is therefore dialled again and
    again with no wait at all. *)
Theorem closed_connection_reconnects_at_once (backoff : Q) (st : bridge_state) :
  (forall (stop_called : bool) events sl st',
      _handle_session isprintable webhook self events
        (if stop_called then set_stopping st else st) = (Returned, st') ->
      run_turn isprintable webhook self backoff (Connected stop_called events sl) st
      = (Again (reconnect_delay self), [Connect], st'))
  /\ (forall attempts,
      forallb closes_at_once attempts = true ->
      _stopping st = false ->
      run_loop isprintable webhook self backoff attempts st
      = (Pending, repeat Connect (List.length attempts), st)).
Proof.
  split.
  - intros stop_called events sl st' H. unfold run_turn. now rewrite H.
  - intros attempts. revert backoff.
    induction attempts as [|a rest IH]; intros backoff Hall Hs; cbn [run_loop].
    + now rewrite Hs.
    + simpl in Hall. apply andb_true_iff in Hall as [Ha Hrest].
      rewrite Hs, (closes_at_once_turn backoff a st Ha Hs), (IH _ Hrest Hs).
      reflexivity.
Qed.

Lemma dispatch_keeps_flags (message : json) (st : bridge_state) :
  _http_client (snd (_dispatch isprintable webhook self message st)) = _http_client st
  /\ (_stopping (snd (_dispatch isprintable webhook self message st)) = _stopping st
      \/ exists fields,
           message = JObj fields
           /\ dict_get fields (u "method") JNull = JStr (u "shutdown")).
Proof.
  destruct (dispatch_cases isprintable webhook self message st)
    as [(e & H)|[H|[(fields & frame & Hm & Hf & H)|[(fields & Hm & Hs & H)
        |(fields & p & a & Hm & Hc & Hv & Hcl & [H|(frame & Hf & H)])]]]];
    rewrite H; simpl; auto.
  split; trivial. right. now exists fields.
Qed.

Lemma recv_loop_keeps_client (events : list ws_event) :
  forall st,
    _http_client (snd (recv_loop isprintable webhook self events st)) = _http_client st.
Proof.
  induction events as [|ev rest IH]; intros st; trivial.
  destruct ev as [| |e| | |msg|message stop_called|]; cbn [recv_loop]; trivial.
  - destruct (_stopping st); [reflexivity | apply IH].
  - destruct (_stopping st); [reflexivity | apply IH].
  - destruct (dispatch_keeps_flags message st) as [Hc _].
    assert (H : forall st' : bridge_state,
               _http_client st' = _http_client st ->
               _http_client (if stop_called then set_stopping st' else st')
               = _http_client st) by (intros st' H'; destruct stop_called; exact H').
    destruct (_dispatch _ _ _ message st) as [[[]|e] st']; simpl in Hc;
      [|exact (H st' Hc)].
    destruct (_stopping _); [exact (H st' Hc) | rewrite IH; exact (H st' Hc)].
  - now rewrite IH.
Qed.

Lemma run_loop_keeps_client (attempts : list attempt) :
  forall backoff st,
    _http_client (snd (run_loop isprintable webhook self backoff attempts st))
    = _http_client st.
Proof.
  induction attempts as [|a rest IH]; intros backoff st; cbn [run_loop].
  - now destruct (_stopping st).
  - destruct (_stopping st); trivial.
    assert (Ht : _http_client (snd (run_turn isprintable webhook self backoff a st))
                 = _http_client st).
    { unfold run_turn, on_exception, _handle_session.
      destruct a as [sc0 exc sl|sc events sl].
      - destruct (is_Exception exc); [destruct sl as [[|]|[|]]|]; destruct sc0;
          reflexivity.
      - assert (Hs : _http_client (if sc then set_stopping st else st) = _http_client st)
          by (destruct sc; reflexivity).
        pose proof (recv_loop_keeps_client events (if sc then set_stopping st else st))
          as Hr.
        destruct (_stopping (if sc then set_stopping st else st)); simpl; [exact Hs|].
        destruct (recv_loop _ _ _ events _) as [[|exc|] st0]; simpl in *;
          try congruence.
        destruct (is_Exception exc); [destruct sl as [[|]|[|]]|]; simpl; congruence. }
    destruct (run_turn _ _ _ _ a st) as [[[b'|e|] evs] st']; simpl in *; trivial.
    specialize (IH b' st').
    destruct (run_loop _ _ _ _ rest st') as [[p evs'] st'']. simpl in *. congruence.
Qed.

(** X11: [run] puts the HTTP client in place before its loop and nothing
    ever takes it away: it is there at every point of every session [run]
    starts, so a [tools/call] that passes the checks inside [run] always goes
    to the webhook and is never turned down for a missing client. *)
Theorem client_is_there_during_run (attempts : list attempt) (st : bridge_state) :
  _http_client (snd (run isprintable webhook self attempts st)) = true
  /\ (forall events st0,
      _http_client (snd (_handle_session isprintable webhook self events st0))
      = _http_client st0)
  /\ (forall message st0,
      _http_client (snd (_dispatch isprintable webhook self message st0))
      = _http_client st0)
  /\ (forall pre st0 st1 fields p a,
      _http_client st0 = true ->
      recv_loop isprintable webhook self pre st0 = (Pending, st1) ->
      dict_get fields (u "method") JNull = JStr (u "tools/call") ->
      valid_call self fields p a ->
      bodies_posted (_dispatch isprintable webhook self (JObj fields)) st1
      = [body_of p a]).
Proof.
  repeat apply conj.
  - unfold run. now rewrite run_loop_keeps_client.
  - intros events st0. unfold _handle_session.
    destruct (_stopping st0); [reflexivity | apply recv_loop_keeps_client].
  - intros message st0. apply dispatch_keeps_flags.
  - intros pre st0 st1 fields p a Hc Hpre Hm Hv.
    pose proof (recv_loop_keeps_client pre st0) as Hk. rewrite Hpre in Hk. simpl in Hk.
    unfold bodies_posted. rewrite (dispatch_tools_call isprintable webhook self fields st1 Hm).
    apply (tools_call_posts_once isprintable webhook self fields p a st1 Hv).
    congruence.
Qed.

(** X12: a request that [_dispatch] handles without an exception does not
    end the session, whether it was answered by a result or by an error:
    unless it is [shutdown] (or a [stop()] comes from outside meanwhile), the
    session goes on to the next frame from the state the request left. *)
Theorem answered_request_keeps_session (message : json) (rest : list ws_event)
    (st : bridge_state) :
  _stopping st = false ->
  fst (_dispatch isprintable webhook self message st) = Ok tt ->
  (forall fields, message = JObj fields ->
                  dict_get fields (u "method") JNull <> JStr (u "shutdown")) ->
  recv_loop isprintable webhook self (Frame message false :: rest) st
  = recv_loop isprintable webhook self rest
      (snd (_dispatch isprintable webhook self message st)).
Proof.
  intros Hs Hok Hm. cbn [recv_loop].
  destruct (dispatch_keeps_flags message st) as [_ [Hk|(fields & Hf & Hsh)]].
  - destruct (_dispatch _ _ _ message st) as [[[]|e] st']; simpl in *; try discriminate.
    now rewrite Hk, Hs.
  - exfalso. now apply (Hm fields).
Qed.

End MoreSession.

(** *** The further properties on a bridge that runs *)

Lemma initialize_echoes_version_witness :
  _dispatch ascii_only mailer (gmail_bridge 5)
    (request (JInt 1) "initialize"
       (obj [("protocolVersion", JStr (u "2025-03-26"))]%string)) running
  = _send_json
      (result_frame (JInt 1)
         (obj [("protocolVersion", JStr (u "2025-03-26"));
               ("capabilities", obj [("tools", obj [("call", JObj [])])])]%string))
      running
  /\ _dispatch ascii_only mailer (gmail_bridge 5)
       (request (JInt 2) "initialize" JNull) running
     = _send_json
         (result_frame (JInt 2)
            (obj [("protocolVersion", JStr (u "2024-11-05"));
                  ("capabilities", obj [("tools", obj [("call", JObj [])])])]%string))
         running.
Proof.
  split.
  - exact (proj1 (initialize_echoes_version ascii_only mailer (gmail_bridge 5)
             (keyed (request_fields (JInt 1) "initialize"
                       (obj [("protocolVersion", JStr (u "2025-03-26"))]%string)))
             (keyed [("protocolVersion", JStr (u "2025-03-26"))]%string)
             running eq_refl eq_refl)).
  - exact (proj1 (initialize_echoes_version ascii_only mailer (gmail_bridge 5)
             (keyed (request_fields (JInt 2) "initialize" JNull)) []
             running eq_refl eq_refl)).
Defined.

Lemma advertised_tool_is_callable_witness :
  _dispatch ascii_only mailer (gmail_bridge 5)
    (request (JInt 1) "tools/list" (JArr [JInt 1])) running
  = _send_json
      (result_frame (JInt 1) (obj [("tools", JArr [to_mcp_dict gmail_tool])]%string))
      running
  /\ bodies_posted
       (_dispatch ascii_only mailer (gmail_bridge 5)
          (request (JInt 2) "tools/call" (obj (send_email [])))) running
     = [body_of (keyed (send_email [])) (keyed [("action", JStr (u "send_email"))]%string)].
Proof.
  pose (T := advertised_tool_is_callable ascii_only mailer (gmail_bridge 5)
               (keyed (request_fields (JInt 1) "tools/list" (JArr [JInt 1])))
               running eq_refl).
  split.
  - exact (proj1 T).
  - exact (proj1 (proj2 (proj2 T))
             (keyed (request_fields (JInt 2) "tools/call" (obj (send_email []))))
             (keyed (send_email [])) (keyed [("action", JStr (u "send_email"))]%string)
             running eq_refl eq_refl eq_refl eq_refl eq_refl eq_refl).
Defined.

Lemma plain_answer_text_witness :
  frames_sent
    (_dispatch ascii_only (answers (plain_response (u "done"))) (gmail_bridge 5)
       (request (JInt 1) "tools/call" (obj (send_email [])))) running
  = [obj [("jsonrpc", JStr (u "2.0")); ("id", JInt 1);
          ("result",
           obj [("content",
                 JArr [obj [("type", JStr (u "text")); ("text", JStr (u "done"))]]);
                ("isError", JBool false)])]%string]
  /\ frames_sent
       (_dispatch ascii_only (answers garbled) (gmail_bridge 5)
          (request (JInt 2) "tools/call" (obj (send_email [])))) running
     = [obj [("jsonrpc", JStr (u "2.0")); ("id", JInt 2);
             ("error",
              obj [("code", JInt (-32001));
                   ("message",
                    JStr (u "Gmail agent error: 'utf-8' codec can't decode byte 0xff in position 0: invalid start byte"))])]%string].
Proof.
  split.
  - exact (proj1 (proj1 (plain_answer_text ascii_only (answers (plain_response (u "done")))
                           (gmail_bridge 5)
                           (keyed (request_fields (JInt 1) "tools/call"
                                     (obj (send_email []))))
                           (keyed (send_email []))
                           (keyed [("action", JStr (u "send_email"))]%string)
                           running (plain_response (u "done"))
                           eq_refl (send_email_is_valid (JInt 1) []) eq_refl eq_refl
                           eq_refl)
                    eq_refl)
             eq_refl).
  - exact (proj2 (plain_answer_text ascii_only (answers garbled) (gmail_bridge 5)
                    (keyed (request_fields (JInt 2) "tools/call" (obj (send_email []))))
                    (keyed (send_email []))
                    (keyed [("action", JStr (u "send_email"))]%string)
                    running garbled
                    eq_refl (send_email_is_valid (JInt 2) []) eq_refl eq_refl eq_refl)
             _ eq_refl).
Defined.

Lemma non_object_frame_ends_session_witness :
  _dispatch ascii_only mailer (gmail_bridge 5) (JArr [JInt 1]) running
  = (Raise (AttributeError (u "'list' object has no attribute 'get'")), running)
  /\ run_turn ascii_only mailer (gmail_bridge 5) 40
       (Connected false [Frame (JArr [JInt 1]) false; Frame (request (JInt 1) "ping" JNull) false]
          (Slept false)) running
     = (Again 10, [Connect; Sleep 5], running).
Proof.
  pose (T := non_object_frame_ends_session ascii_only mailer (gmail_bridge 5)
               (JArr [JInt 1]) running eq_refl).
  split.
  - exact (proj1 T).
  - exact (proj2 (proj2 T) 40%Q false [Frame (request (JInt 1) "ping" JNull) false] false
             eq_refl).
Defined.

Lemma malformed_frames_are_ignored_witness :
  _handle_session ascii_only mailer (gmail_bridge 5)
    [BadUtf8; Frame (request (JInt 1) "ping" JNull) false; BadJson; ClosedOK] running
  = _handle_session ascii_only mailer (gmail_bridge 5)
      [Frame (request (JInt 1) "ping" JNull) false; ClosedOK] running
  /\ run_turn ascii_only mailer (gmail_bridge 5) 40
       (Connected false
          [LoadsRaises (u "maximum recursion depth exceeded");
           Frame (request (JInt 1) "ping" JNull) false]
          (Slept false)) running
     = (Again 10, [Connect; Sleep 5], running).
Proof.
  split.
  - exact (proj1 (malformed_frames_are_ignored ascii_only mailer (gmail_bridge 5)
                    [BadUtf8; Frame (request (JInt 1) "ping" JNull) false; BadJson;
                     ClosedOK]
                    running) eq_refl).
  - exact (proj2 (proj2 (proj2 (malformed_frames_are_ignored ascii_only mailer
                                  (gmail_bridge 5) [] running))
                    (u "maximum recursion depth exceeded")
                    [Frame (request (JInt 1) "ping" JNull) false] 40%Q false eq_refl)).
Defined.

Lemma closed_connection_reconnects_at_once_witness :
  run_loop ascii_only mailer (gmail_bridge 5) 40
    [Connected false [ClosedError] (Slept false);
     Connected false [ClosedOK; BadJson] (Slept false);
     Connected false [ClosedError] (SleepCancelled false)] running
  = (Pending, [Connect; Connect; Connect], running).
Proof.
  exact (proj2 (closed_connection_reconnects_at_once ascii_only mailer (gmail_bridge 5)
                  40%Q running)
           [Connected false [ClosedError] (Slept false);
            Connected false [ClosedOK; BadJson] (Slept false);
            Connected false [ClosedError] (SleepCancelled false)]
           eq_refl eq_refl).
Defined.

Lemma client_is_there_during_run_witness :
  bodies_posted
    (_dispatch ascii_only mailer (gmail_bridge 5)
       (request (JInt 2) "tools/call" (obj (send_email []))))
    (snd (recv_loop ascii_only mailer (gmail_bridge 5)
            [Frame (request (JInt 1) "ping" JNull) false] running))
  = [body_of (keyed (send_email [])) (keyed [("action", JStr (u "send_email"))]%string)].
Proof.
  exact (proj2 (proj2 (proj2 (client_is_there_during_run ascii_only mailer
                                (gmail_bridge 5) [] running)))
           [Frame (request (JInt 1) "ping" JNull) false] running _
           (keyed (request_fields (JInt 2) "tools/call" (obj (send_email []))))
           (keyed (send_email [])) (keyed [("action", JStr (u "send_email"))]%string)
           eq_refl eq_refl eq_refl (send_email_is_valid (JInt 2) [])).
Defined.

Lemma answered_request_keeps_session_witness :
  recv_loop ascii_only mailer (gmail_bridge 5)
    [Frame (request (JInt 1) "tools/call" (obj [("name", JStr (u "calendar"))]%string))
       false;
     Frame (request (JInt 2) "ping" JNull) false]
    running
  = recv_loop ascii_only mailer (gmail_bridge 5)
      [Frame (request (JInt 2) "ping" JNull) false]
      (snd (_send_json (error_frame (JInt 1) (-32602) (u "Unsupported tool 'calendar'"))
              running)).
Proof.
  refine (answered_request_keeps_session ascii_only mailer (gmail_bridge 5)
            (request (JInt 1) "tools/call" (obj [("name", JStr (u "calendar"))]%string))
            [Frame (request (JInt 2) "ping" JNull) false] running eq_refl eq_refl _).
  intros fields H. injection H as <-. discriminate.
Defined.

Lemma outputs_nonblank (items : list json) :
  Forall (fun output => output <> []) (outputs_of items).
Proof.
  induction items as [|item items IH]; simpl; [constructor|].
  destruct item as [| | | | | |fields]; trivial.
  destruct (dict_get fields (u "output") JNull); trivial.
  destruct (strip s) eqn:E; trivial. constructor; [discriminate | trivial].
Qed.

Lemma join_nonempty (sep : str) (parts : list str) :
  parts <> [] -> Forall (fun part => part <> []) parts -> join sep parts <> [].
Proof.
  destruct parts as [|p rest]; [congruence|]. intros _ H. inversion H as [|? ? Hp Hr]; subst.
  destruct p as [|c p]; [congruence|]. simpl. destruct rest; discriminate.
Qed.

Section MoreFormatting.

Variable isprintable : N -> bool.

(** X13: an answer of the webhook that is a JSON object or a JSON array
    never gives an empty text: the text is a [message] with a character that
    is not whitespace, a join of outputs that are not empty, or a
    serialization, which begins with a bracket. *)
Theorem container_answer_text_not_empty (data : json) :
  is_Mapping data = true \/ (exists items, data = JArr items) ->
  _format_webhook_response isprintable data <> [].
Proof.
  intros [Hd|(items & ->)].
  - destruct data as [| | | | | |fields]; try discriminate Hd.
    unfold _format_webhook_response.
    destruct (dict_get fields (u "message") JNull) as [| | | |message| |];
      try (simpl; discriminate).
    destruct (strip message) eqn:E; [simpl; discriminate|].
    intros ->. discriminate E.
  - unfold _format_webhook_response. pose proof (outputs_nonblank items) as Hall.
    destruct (outputs_of items) as [|o rest]; [simpl; discriminate|].
    apply join_nonempty; [discriminate | exact Hall].
Qed.

End MoreFormatting.

Lemma container_answer_text_not_empty_witness :
  _format_webhook_response ascii_only (JObj []) <> []
  /\ _format_webhook_response ascii_only (JArr [obj [("output", JStr (u "  "))]%string])
     <> [].
Proof.
  split.
  - exact (container_answer_text_not_empty ascii_only (JObj []) (or_introl eq_refl)).
  - exact (container_answer_text_not_empty ascii_only
             (JArr [obj [("output", JStr (u "  "))]%string])
             (or_intror (ex_intro _ _ eq_refl))).
Defined.
